(** * StatsService: admission control, shell dispatcher and lifecycle

    A shallow embedding of [statsd/src/StatsService.cpp] (the RPC surface,
    the shell command surface, the log-reading thread and the deferred
    init-completion handler), together with the properties of the
    service orchestration layer that are established about it.

    Conventions.
    - Fixed-width C++ integers are [Z] with the wrap-around of each cast
      written out ([to_int32], [to_uint32], [to_uint64]).
    - [vector<uint8_t>] is [list uint8_t]; C strings are [string]
      (the terminating NUL is the end of the Rocq string).
    - Collaborators that live outside this translation unit (the
      processor, the config manager, the uid map, ...) are not modelled
      by their internals: every call made on them is appended to a call
      log, and what they answer is read from a [World] record. *)

From Stdlib Require Import ZArith List String Ascii Bool Lia.
From Stdlib Require Import Numbers.DecimalString.
From Stdlib Require Numbers.DecimalFacts Numbers.DecimalPos.
Import ListNotations.

Open Scope string_scope.
Open Scope list_scope.
Open Scope Z_scope.

(* ================================================================= *)
(** ** Machine integers *)

Definition uint8_t := Z.

Definition INT32_MAX : Z := 2147483647.
Definition LONG_MIN : Z := - 9223372036854775808.
Definition LONG_MAX : Z := 9223372036854775807.

Definition to_uint32 (z : Z) : Z := z mod 2 ^ 32.
Definition to_uint64 (z : Z) : Z := z mod 2 ^ 64.
Definition to_int32 (z : Z) : Z := (z + 2 ^ 31) mod 2 ^ 32 - 2 ^ 31.

(** The fixed Android ids of [private/android_filesystem_config.h]
    (a platform header, included by the service). *)
Definition AID_ROOT : Z := 0.
Definition AID_SYSTEM : Z := 1000.
Definition AID_SHELL : Z := 2000.

(** [status_t] values of [utils/Errors.h]. *)
Definition NO_ERROR : Z := 0.
Definition OK : Z := 0.
Definition UNKNOWN_ERROR : Z := - 2147483648.
Definition PERMISSION_DENIED : Z := - 1.

(* ================================================================= *)
(** ** The C library functions the service parses numbers with *)

Module CLib.

Definition newline : string := String (ascii_of_nat 10) EmptyString.

Definition isspace (c : ascii) : bool :=
  let n := Z.of_nat (nat_of_ascii c) in
  (n =? 32) || ((9 <=? n) && (n <=? 13)).

(** Value of a character as a digit (bases up to 36). *)
Definition digit_val (c : ascii) : option Z :=
  let n := Z.of_nat (nat_of_ascii c) in
  if (48 <=? n) && (n <=? 57) then Some (n - 48)
  else if (65 <=? n) && (n <=? 90) then Some (n - 55)
  else if (97 <=? n) && (n <=? 122) then Some (n - 87)
  else None.

Definition is_digit_of (base : Z) (c : ascii) : bool :=
  match digit_val c with
  | Some d => d <? base
  | None => false
  end.

Fixpoint skip_space (s : string) : string :=
  match s with
  | String c r => if isspace c then skip_space r else s
  | EmptyString => s
  end.

(** Longest run of digits of [base]: the accumulated magnitude,
    whether any digit was read, and the unread rest. *)
Fixpoint digits (base acc : Z) (any : bool) (s : string) : Z * bool * string :=
  match s with
  | String c r =>
      match digit_val c with
      | Some d => if d <? base then digits base (acc * base + d) true r
                  else (acc, any, s)
      | None => (acc, any, s)
      end
  | EmptyString => (acc, any, s)
  end.

Definition take_sign (s : string) : bool * string :=
  match s with
  | String "-" r => (true, r)
  | String "+" r => (false, r)
  | _ => (false, s)
  end.

(** Base selection: a [0x]/[0X] prefix is consumed for base 0 and 16
    when a hexadecimal digit follows it; base 0 otherwise reads octal
    after a leading [0] and decimal else. *)
Definition take_base (base : Z) (s : string) : Z * string :=
  match s with
  | String "0" (String x (String h r)) =>
      if ((base =? 0) || (base =? 16))
         && (Ascii.eqb x "x" || Ascii.eqb x "X") && is_digit_of 16 h
      then (16, String h r)
      else ((if base =? 0 then 8 else base), s)
  | String "0" _ => ((if base =? 0 then 8 else base), s)
  | _ => ((if base =? 0 then 10 else base), s)
  end.

Definition clamp (lo hi z : Z) : Z := Z.max lo (Z.min hi z).

(** [strtol(s, &end, base)] / [strtoll] on an LP64 target: the value
    (saturated at [LONG_MIN]/[LONG_MAX]) and the string [end] points at.
    When no digit is converted the value is 0 and [end] is [s]. *)
Definition strtol (s : string) (base : Z) : Z * string :=
  let '(neg, s2) := take_sign (skip_space s) in
  let '(b, s3) := take_base base s2 in
  let '(mag, any, rest) := digits b 0 false s3 in
  if any then (clamp LONG_MIN LONG_MAX (if neg then - mag else mag), rest)
  else (0, s).

Definition strtoll := strtol.

(** [atoi(s)] is [(int) strtol(s, NULL, 10)]. *)
Definition atoi (s : string) : Z := to_int32 (fst (strtol s 10)).

(** [%d] of [printf]: the argument is read as a 32-bit [int]. *)
Definition fmt_d (z : Z) : string := NilZero.string_of_int (Z.to_int (to_int32 z)).

End CLib.

(* ================================================================= *)
(** ** Shell-surface uid impersonation *)

(** [StatsService::getUidFromString]. [callingUid] is the [uid_t]
    returned by [AIBinder_getCallingUid()]; [uid] is the reference
    parameter, returned as the second component. *)
Definition getUidFromString (mEngBuild : bool) (callingUid_t : Z)
    (s : string) (uid : Z) : bool * Z :=
  match s with
  | EmptyString => (false, uid)
  | _ =>
      let '(longUid, endc) := CLib.strtol s 0 in
      match endc with
      | String _ _ => (false, uid)
      | EmptyString =>
          let goodUid := to_int32 longUid in
          if (longUid <? 0) || negb (to_uint64 longUid =? to_uint32 goodUid)
          then (false, uid)  (* It was not of uid_t type. *)
          else
            let uid := goodUid in
            let callingUid := to_int32 callingUid_t in
            (mEngBuild
             || (callingUid =? goodUid)
             || ((callingUid =? AID_ROOT) && (goodUid =? AID_SHELL)), uid)
      end
  end.

(** [StatsService::getUidFromArgs]; [None] is the out-of-range access
    on which [Vector::operator[]] aborts. *)
Definition getUidFromArgs (mEngBuild : bool) (callingUid_t : Z)
    (args : list string) (uidArgIndex : nat) (uid : Z) : option (bool * Z) :=
  match nth_error args uidArgIndex with
  | Some a => Some (getUidFromString mEngBuild callingUid_t a uid)
  | None => None
  end.


(* ================================================================= *)
(** ** Data model *)

(** [config/ConfigKey.h]: [ConfigKey(int uid, int64_t id)]. *)
Record ConfigKey := MkConfigKey { GetUid : Z; GetId : Z }.

Definition ConfigKey_eqb (a b : ConfigKey) : bool :=
  (GetUid a =? GetUid b) && (GetId a =? GetId b).

(** Binder exception codes carried by a [Status]. *)
Inductive ExceptionCode :=
| EX_SECURITY
| EX_ILLEGAL_ARGUMENT
| EX_NULL_POINTER
| EX_ILLEGAL_STATE.

Definition code_value (c : ExceptionCode) : Z :=
  match c with
  | EX_SECURITY => -1
  | EX_ILLEGAL_ARGUMENT => -3
  | EX_NULL_POINTER => -4
  | EX_ILLEGAL_STATE => -5
  end.

(** [ndk::ScopedAStatus]. *)
Inductive Status :=
| Status_ok
| Status_exception (code : ExceptionCode) (msg : string).

Definition isOk (st : Status) : bool :=
  match st with Status_ok => true | Status_exception _ _ => false end.

Definition getExceptionCode (st : Status) : option ExceptionCode :=
  match st with Status_ok => None | Status_exception c _ => Some c end.

(** A protobuf message is represented by where it comes from: freshly
    default-constructed, or filled by a successful parse of wire bytes. *)
Inductive StatsdConfig :=
| StatsdConfig_default
| StatsdConfig_parsed (wire : list uint8_t).

Inductive DumpReportReason :=
| DEVICE_SHUTDOWN
| ADB_DUMP
| GET_DATA_CALLED
| STATSCOMPANION_DIED
| TERMINATION_SIGNAL_RECEIVED.

Inductive DumpLatency := NO_TIME_CONSTRAINTS | FAST.

(** [std::shared_ptr] / [sp] handles to remote objects; [None] is
    [nullptr]. *)
Definition handle := option Z.

(** [LogEvent], as far as this file looks into it: the uid and pid it
    was logged with and the encoded atom, empty until one is parsed in. *)
Record LogEvent := MkLogEvent {
  ev_uid : Z;
  ev_pid : Z;
  ev_buffer : list uint8_t
}.

Inductive Monitor := Anomaly | Periodic.

(** One call made on a collaborator of the service. *)
Inductive Call :=
| Processor_onDumpReport (key : ConfigKey) (dumpTimeNs wallClockNs : Z)
    (include_current_bucket erase_data : bool)
    (reason : DumpReportReason) (latency : DumpLatency)
| Processor_noteOnDiskData (key : ConfigKey)
| Processor_GetActiveConfigs (uid : Z)
| Processor_informPullAlarmFired (timestampNs : Z)
| Processor_onPeriodicAlarmFired (timestampNs : Z) (alarms : nat)
| Processor_WriteDataToDisk (reason : DumpReportReason) (latency : DumpLatency)
    (elapsedRealtimeNs wallClockNs : Z)
| Processor_SaveActiveConfigsToDisk (elapsedRealtimeNs : Z)
| Processor_SaveMetadataToDisk (wallClockNs elapsedRealtimeNs : Z)
| Processor_onStatsdInitCompleted (elapsedRealtimeNs : Z)
| Processor_OnLogEvent (e : LogEvent)
| Processor_fillRestrictedMetrics (configId : Z) (configPackage : string)
    (callingUid : Z)
| Processor_querySql (sqlQuery : string) (minSqlClientVersion : Z)
    (policyConfig : option (list uint8_t)) (callback : handle)
    (configKey : Z) (configPackage : string) (callingUid : Z)
| ConfigManager_UpdateConfig (key : ConfigKey) (cfg : StatsdConfig)
| ConfigManager_RemoveConfig (key : ConfigKey)
| ConfigManager_RemoveConfigs (uid : Z)
| ConfigManager_RemoveAllConfigs
| ConfigManager_SetConfigReceiver (key : ConfigKey) (pir : handle)
| ConfigManager_RemoveConfigReceiver (key : ConfigKey)
| ConfigManager_SetActiveConfigsChangedReceiver (uid : Z) (pir : handle)
| ConfigManager_RemoveActiveConfigsChangedReceiver (uid : Z)
| ConfigManager_SetRestrictedMetricsChangedReceiver (configPackage : string)
    (configId callingUid : Z) (pir : handle)
| ConfigManager_RemoveRestrictedMetricsChangedReceiver (configPackage : string)
    (configId callingUid : Z)
| SubscriberReporter_setBroadcastSubscriber (key : ConfigKey)
    (subscriberId : Z) (pir : handle)
| SubscriberReporter_unsetBroadcastSubscriber (key : ConfigKey)
    (subscriberId : Z)
| StorageManager_hasConfigMetricsReport (key : ConfigKey)
| StorageManager_readAllTrainInfo
| StorageManager_deleteAllFiles (dir : string)
| UidMap_updateMap (timestampNs : Z) (fd : Z)
| UidMap_updateApp (timestampNs : Z) (app : string) (uid version : Z)
    (versionString installer : string) (certificateHash : list uint8_t)
| UidMap_removeApp (timestampNs : Z) (app : string) (uid : Z)
| BootCompleteTrigger_markComplete (tag : string)
| PullerManager_RegisterPullAtomCallback (uid atomTag coolDownNs timeoutNs : Z)
    (additiveFields : list Z) (pullerCallback : handle)
| PullerManager_UnregisterPullAtomCallback (uid atomTag : Z)
| PullerManager_SetStatsCompanionService (sc : handle)
| AlarmMonitor_setStatsCompanionService (m : Monitor) (sc : handle)
| AlarmMonitor_popSoonerThan (m : Monitor) (timestampSec : Z)
| StatsCompanion_statsdReady
| AIBinder_linkToDeath (sc : handle)
| StatsdStats_dumpStats (reset : bool)
| StatsdStats_noteQueryRestrictedMetricFailed (configKey : Z)
    (configPackage : string) (callingUid : Z)
| ShellSubscriber_new
| ShellSubscriber_startNewSubscription (subscriptionConfig : list uint8_t)
    (callback : handle)
| ShellSubscriber_unsubscribe (callback : handle)
| ShellSubscriber_flushSubscription (callback : handle)
| ShellSubscriber_onLogEvent (e : LogEvent)
| stats_write_APP_BREADCRUMB_REPORTED (uid label state : Z).

(** The identity the binder transport reports for the current call. *)
Record Caller := MkCaller {
  AIBinder_getCallingPid : Z;
  AIBinder_getCallingUid : Z;            (* a [uid_t] *)
  AIBinder_getCallingSid : option string (* [None] is [nullptr] *)
}.

(** What the surroundings answer during the current call: clocks, the
    collaborators' return values, and the helpers of other translation
    units ([StrToInt64], [MillisToNano], [NS_PER_SEC] of
    [stats_log_util.h]) that enter only as values passed along. *)
Record World := MkWorld {
  getElapsedRealtimeNs : Z;
  getElapsedRealtimeSec : Z;
  getWallClockNs : Z;
  StrToInt64 : string -> Z;
  MillisToNano : Z -> Z;
  NS_PER_SEC : Z;
  sid_api_available : bool;   (* the [__builtin_available] test for API level U *)
  isAtLeastU : bool;
  onDumpReport_output : ConfigKey -> list uint8_t -> list uint8_t;
  StatsdConfig_parses : list uint8_t -> bool;
  UidData_parses : Z -> bool;
  hasConfigMetricsReport : ConfigKey -> bool;
  GetActiveConfigs : Z -> list Z -> list Z;
  fillRestrictedMetrics : Z -> string -> Z -> list Z -> list Z;
  getStatsCompanionService : handle;
  popSoonerThan_size : nat;
  readAllTrainInfo : list (list Z);
  dumpStats_output : list uint8_t -> list uint8_t;
  ReadFdToString : Z -> option (list uint8_t)
}.

(** A file descriptor as the service sees it: the bytes it has taken so
    far and how many more the other end accepts before a write fails. *)
Record Descriptor := MkDescriptor { written : list uint8_t; room : nat }.

(** State of the service and of what it has done so far. *)
Record Service := MkService {
  mEngBuild : bool;
  mProcessor : bool;         (* [true] when the pointer is non-null *)
  mShellSubscriber : bool;   (* likewise *)
  mStatsdInitCompletedHandlerTerminationRequested : bool;
  calls : list Call;         (* calls on collaborators, oldest first *)
  logcat : list string;      (* ALOGE / ALOGW lines, oldest first *)
  fds : Z -> Descriptor
}.

(* ================================================================= *)
(** ** The state monad of a call *)

Definition M (A : Type) : Type := Service -> A * Service.

Definition ret {A} (a : A) : M A := fun s => (a, s).

Definition bind {A B} (m : M A) (k : A -> M B) : M B :=
  fun s => let (a, s') := m s in k a s'.

Notation "x <- m ;; k" := (bind m (fun x => k))
  (at level 61, m at next level, right associativity).
Notation "m ;; k" := (bind m (fun _ => k))
  (at level 61, right associativity).
Notation "' pat <- m ;; k" :=
  (bind m (fun x => match x with pat => k end))
  (at level 61, pat pattern, m at next level, right associativity).

Definition get {A} (f : Service -> A) : M A := fun s => (f s, s).

Definition call (c : Call) : M unit := fun s =>
  (tt, MkService (mEngBuild s) (mProcessor s) (mShellSubscriber s)
         (mStatsdInitCompletedHandlerTerminationRequested s)
         (calls s ++ [c]) (logcat s) (fds s)).

Definition log_line (line : string) (s : Service) : Service :=
  MkService (mEngBuild s) (mProcessor s) (mShellSubscriber s)
    (mStatsdInitCompletedHandlerTerminationRequested s)
    (calls s) (logcat s ++ [line]) (fds s).

Definition ALOGE (line : string) : M unit := fun s => (tt, log_line line s).
Definition ALOGW (line : string) : M unit := fun s => (tt, log_line line s).

(** [VLOG] compiles to nothing: [STATSD_DEBUG] is [false]. *)
Definition VLOG : M unit := ret tt.

Definition bytes_of_string (s : string) : list uint8_t :=
  map (fun c => Z.of_nat (nat_of_ascii c)) (list_ascii_of_string s).

Definition raw_write (d : Descriptor) (data : list uint8_t) : Descriptor :=
  MkDescriptor (written d ++ firstn (room d) data) (room d - List.length data)%nat.

Definition set_fd (fd : Z) (d : Descriptor) (s : Service) : Service :=
  MkService (mEngBuild s) (mProcessor s) (mShellSubscriber s)
    (mStatsdInitCompletedHandlerTerminationRequested s)
    (calls s) (logcat s) (fun x => if x =? fd then d else fds s x).

(** [android::base::WriteFully] (libbase): every byte is written, or the
    write fails part-way and [false] is returned. *)
Definition WriteFully (fd : Z) (data : list uint8_t) : M bool := fun s =>
  ((List.length data <=? room (fds s fd))%nat,
   set_fd fd (raw_write (fds s fd) data) s).

(** [dprintf] with the text already formatted; its result is never
    looked at. *)
Definition dprintf (fd : Z) (text : string) : M unit := fun s =>
  (tt, set_fd fd (raw_write (fds s fd) (bytes_of_string text)) s).

Definition dprintf_c (fd : Z) (b : uint8_t) : M unit := fun s =>
  (tt, set_fd fd (raw_write (fds s fd) [b]) s).

Definition set_mShellSubscriber (b : bool) : M unit := fun s =>
  (tt, MkService (mEngBuild s) (mProcessor s) b
         (mStatsdInitCompletedHandlerTerminationRequested s)
         (calls s) (logcat s) (fds s)).

Definition set_TerminationRequested (b : bool) : M unit := fun s =>
  (tt, MkService (mEngBuild s) (mProcessor s) (mShellSubscriber s) b
         (calls s) (logcat s) (fds s)).

(* ================================================================= *)
(** ** Admission control *)

Definition kTracedProbesSid : string := "u:r:traced_probes:s0".
Definition STATS_SERVICE_DIR : string := "/data/misc/stats-service".
Definition kBootCompleteTag : string := "BOOT_COMPLETE".
Definition kUidMapReceivedTag : string := "UID_MAP".
Definition kAllPullersRegisteredTag : string := "PULLERS_REGISTERED".

(** The static helper [exception]: the error is logged, then returned. *)
Definition exception (code : ExceptionCode) (msg : string) : M Status :=
  ALOGE (msg ++ " (" ++ CLib.fmt_d (code_value code) ++ ")")%string ;;
  ret (Status_exception code msg).

Section Call.

Variable c : Caller.
Variable w : World.

Definition checkUid (expectedUid : Z) : M Status :=
  let uid := AIBinder_getCallingUid c in
  if (uid =? expectedUid) || (uid =? AID_ROOT) then ret Status_ok
  else exception EX_SECURITY
         ("UID " ++ CLib.fmt_d uid ++ " is not expected UID "
                 ++ CLib.fmt_d expectedUid)%string.

(** [%s] of a null pointer prints [(null)] in bionic. *)
Definition fmt_s (p : option string) : string :=
  match p with Some s => s | None => "(null)" end.

Definition checkSid (expectedSid : string) : M Status :=
  let sid := if sid_api_available w then AIBinder_getCallingSid c else None in
  (* root (which is the uid in tests for example) has all permissions. *)
  let uid := AIBinder_getCallingUid c in
  if uid =? AID_ROOT then ret Status_ok
  else
    if match sid with Some s => String.eqb expectedSid s | None => false end
    then ret Status_ok
    else exception EX_SECURITY
           ("SID '" ++ fmt_s sid ++ "' is not expected SID '"
                    ++ expectedSid ++ "'")%string.

(** The macros [ENFORCE_UID] and [ENFORCE_SID]: a failed check returns
    from the enclosing method; [leave] builds what the method returns
    then (the status, with any output parameter as it was). *)
Definition enforce {A} (check : M Status) (leave : Status -> A) (body : M A)
  : M A :=
  status <- check ;;
  if isOk status then body else ret (leave status).

Definition ENFORCE_UID (uid : Z) (body : M Status) : M Status :=
  enforce (checkUid uid) (fun st => st) body.

Definition ENFORCE_UID_out {O} (uid : Z) (output : O) (body : M (Status * O))
  : M (Status * O) :=
  enforce (checkUid uid) (fun st => (st, output)) body.

Definition ENFORCE_SID (sid : string) (body : M Status) : M Status :=
  enforce (checkSid sid) (fun st => st) body.

(* ================================================================= *)
(** ** The RPC surface *)

Definition informAllUidData (fd : Z) : M Status :=
  ENFORCE_UID AID_SYSTEM (
    (* Parse fd into proto. *)
    if negb (UidData_parses w fd)
    then exception EX_ILLEGAL_ARGUMENT "Error parsing proto stream for UidData."
    else
      call (UidMap_updateMap (getElapsedRealtimeNs w) fd) ;;
      call (BootCompleteTrigger_markComplete kUidMapReceivedTag) ;;
      VLOG ;;
      ret Status_ok).

Definition informOnePackage (app : string) (uid version : Z)
    (versionString installer : string) (certificateHash : list uint8_t)
  : M Status :=
  ENFORCE_UID AID_SYSTEM (
    VLOG ;;
    call (UidMap_updateApp (getElapsedRealtimeNs w) app uid version
            versionString installer certificateHash) ;;
    ret Status_ok).

Definition informOnePackageRemoved (app : string) (uid : Z) : M Status :=
  ENFORCE_UID AID_SYSTEM (
    VLOG ;;
    call (UidMap_removeApp (getElapsedRealtimeNs w) app uid) ;;
    call (ConfigManager_RemoveConfigs uid) ;;
    ret Status_ok).

Definition informAnomalyAlarmFired : M Status :=
  ENFORCE_UID AID_SYSTEM (
    (* Anomaly alarms are handled internally now. *)
    ret Status_ok).

Definition informAlarmForSubscriberTriggeringFired : M Status :=
  ENFORCE_UID AID_SYSTEM (
    VLOG ;;
    let currentTimeSec := getElapsedRealtimeSec w in
    call (AlarmMonitor_popSoonerThan Periodic (to_uint32 currentTimeSec)) ;;
    let alarmSet_size := popSoonerThan_size w in
    (if (0 <? alarmSet_size)%nat
     then VLOG ;;
          call (Processor_onPeriodicAlarmFired (currentTimeSec * NS_PER_SEC w)
                  alarmSet_size)
     else ALOGW "Cannot find an periodic alarm that fired. Perhaps it was recently cancelled.") ;;
    ret Status_ok).

Definition informPollAlarmFired : M Status :=
  ENFORCE_UID AID_SYSTEM (
    VLOG ;;
    call (Processor_informPullAlarmFired (getElapsedRealtimeNs w)) ;;
    VLOG ;;
    ret Status_ok).

Definition sayHiToStatsCompanion : M unit :=
  let statsCompanion := getStatsCompanionService w in
  match statsCompanion with
  | Some _ => VLOG ;; call StatsCompanion_statsdReady
  | None => VLOG
  end.

Definition systemRunning : M Status :=
  ENFORCE_UID AID_SYSTEM (
    (* When system_server is up and running, schedule the dropbox task to run. *)
    VLOG ;;
    sayHiToStatsCompanion ;;
    ret Status_ok).

(** The flag is set under its mutex, then the condition variable is
    notified; the waiting side is [onStatsdInitCompleted]. *)
Definition onStatsdInitCompletedHandlerTermination : M unit :=
  set_TerminationRequested true.

Definition informDeviceShutdown : M Status :=
  ENFORCE_UID AID_SYSTEM (
    VLOG ;;
    onStatsdInitCompletedHandlerTermination ;;
    let elapsedRealtimeNs := getElapsedRealtimeNs w in
    let wallClockNs := getWallClockNs w in
    call (Processor_WriteDataToDisk DEVICE_SHUTDOWN FAST elapsedRealtimeNs
            wallClockNs) ;;
    call (Processor_SaveActiveConfigsToDisk elapsedRealtimeNs) ;;
    call (Processor_SaveMetadataToDisk wallClockNs elapsedRealtimeNs) ;;
    ret Status_ok).

Definition statsCompanionReady : M Status :=
  ENFORCE_UID AID_SYSTEM (
    VLOG ;;
    let statsCompanion := getStatsCompanionService w in
    match statsCompanion with
    | None =>
        exception EX_NULL_POINTER
          "StatsCompanion unavailable despite it contacting statsd."
    | Some _ =>
        VLOG ;;
        call (AIBinder_linkToDeath statsCompanion) ;;
        call (PullerManager_SetStatsCompanionService statsCompanion) ;;
        call (AlarmMonitor_setStatsCompanionService Anomaly statsCompanion) ;;
        call (AlarmMonitor_setStatsCompanionService Periodic statsCompanion) ;;
        ret Status_ok
    end).

Definition bootCompleted : M Status :=
  ENFORCE_UID AID_SYSTEM (
    VLOG ;;
    call (BootCompleteTrigger_markComplete kBootCompleteTag) ;;
    ret Status_ok).

Definition getDataChecked (key callingUid : Z) (output : list uint8_t)
  : M (list uint8_t) :=
  VLOG ;;
  let configKey := MkConfigKey callingUid key in
  (* The dump latency does not matter here since we do not include the
     current bucket, we do not need to pull any new data anyhow. *)
  call (Processor_onDumpReport configKey (getElapsedRealtimeNs w)
          (getWallClockNs w) false (* include_current_bucket *)
          true (* erase_data *) GET_DATA_CALLED FAST) ;;
  ret (onDumpReport_output w configKey output).

Definition getData (key callingUid : Z) (output : list uint8_t)
  : M (Status * list uint8_t) :=
  ENFORCE_UID_out AID_SYSTEM output (
    output <- getDataChecked key callingUid output ;;
    ret (Status_ok, output)).

(** [htonl] on the little-endian Android targets swaps the four bytes;
    [object_bytes_u32] is the object representation that
    [WriteFully(fd, &x, sizeof(uint32_t))] sends. *)
Definition htonl (x : Z) : Z :=
  Z.lor (Z.shiftl (Z.land x 255) 24)
    (Z.lor (Z.shiftl (Z.land (Z.shiftr x 8) 255) 16)
       (Z.lor (Z.shiftl (Z.land (Z.shiftr x 16) 255) 8)
          (Z.land (Z.shiftr x 24) 255))).

Definition object_bytes_u32 (x : Z) : list uint8_t :=
  [Z.land x 255; Z.land (Z.shiftr x 8) 255;
   Z.land (Z.shiftr x 16) 255; Z.land (Z.shiftr x 24) 255].

Definition getDataFd (key callingUid : Z) (fd : Z) : M Status :=
  ENFORCE_UID AID_SYSTEM (
    reportData <- getDataChecked key callingUid [] ;;
    if INT32_MAX <=? Z.of_nat (List.length reportData)
    then
      ALOGE "Report size is infeasible big and can not be returned" ;;
      exception EX_ILLEGAL_STATE "Report size is infeasible big."
    else
      let bytesToWrite := to_uint32 (Z.of_nat (List.length reportData)) in
      VLOG ;;
      (* write 4 bytes of report size for correct buffer allocation *)
      let bytesToWriteBE := htonl bytesToWrite in
      ok <- WriteFully fd (object_bytes_u32 bytesToWriteBE) ;;
      if negb ok
      then exception EX_ILLEGAL_STATE
             "Failed to write report data size to file descriptor"
      else
        ok <- WriteFully fd reportData ;;
        if negb ok
        then exception EX_ILLEGAL_STATE
               "Failed to write report data to file descriptor"
        else VLOG ;; ret Status_ok).

Definition getMetadata (output : list uint8_t) : M (Status * list uint8_t) :=
  ENFORCE_UID_out AID_SYSTEM output (
    call (StatsdStats_dumpStats false) ;; (* Don't reset the counters. *)
    ret (Status_ok, dumpStats_output w output)).

Definition addConfigurationChecked (uid key : Z) (config : list uint8_t)
  : M bool :=
  let configKey := MkConfigKey uid key in
  match config with
  | [] => (* If the config is empty, skip parsing. *)
      call (ConfigManager_UpdateConfig configKey StatsdConfig_default) ;;
      ret true
  | _ :: _ =>
      if negb (StatsdConfig_parses w config) then ret false
      else
        call (ConfigManager_UpdateConfig configKey (StatsdConfig_parsed config)) ;;
        ret true
  end.

Definition addConfiguration (key : Z) (config : list uint8_t) (callingUid : Z)
  : M Status :=
  ENFORCE_UID AID_SYSTEM (
    ok <- addConfigurationChecked callingUid key config ;;
    if ok then ret Status_ok
    else exception EX_ILLEGAL_ARGUMENT
           "Could not parse malformatted StatsdConfig.").

Definition removeDataFetchOperation (key callingUid : Z) : M Status :=
  ENFORCE_UID AID_SYSTEM (
    let configKey := MkConfigKey callingUid key in
    call (ConfigManager_RemoveConfigReceiver configKey) ;;
    ret Status_ok).

Definition setDataFetchOperation (key : Z) (pir : handle) (callingUid : Z)
  : M Status :=
  ENFORCE_UID AID_SYSTEM (
    let configKey := MkConfigKey callingUid key in
    call (ConfigManager_SetConfigReceiver configKey pir) ;;
    call (StorageManager_hasConfigMetricsReport configKey) ;;
    (if hasConfigMetricsReport w configKey
     then VLOG ;; call (Processor_noteOnDiskData configKey)
     else ret tt) ;;
    ret Status_ok).

Definition setActiveConfigsChangedOperation (pir : handle) (callingUid : Z)
    (output : option (list Z)) : M (Status * option (list Z)) :=
  ENFORCE_UID_out AID_SYSTEM output (
    call (ConfigManager_SetActiveConfigsChangedReceiver callingUid pir) ;;
    match output with
    | Some out =>
        call (Processor_GetActiveConfigs callingUid) ;;
        ret (Status_ok, Some (GetActiveConfigs w callingUid out))
    | None =>
        ALOGW "StatsService::setActiveConfigsChanged output was nullptr" ;;
        ret (Status_ok, None)
    end).

Definition removeActiveConfigsChangedOperation (callingUid : Z) : M Status :=
  ENFORCE_UID AID_SYSTEM (
    call (ConfigManager_RemoveActiveConfigsChangedReceiver callingUid) ;;
    ret Status_ok).

Definition removeConfiguration (key callingUid : Z) : M Status :=
  ENFORCE_UID AID_SYSTEM (
    let configKey := MkConfigKey callingUid key in
    call (ConfigManager_RemoveConfig configKey) ;;
    ret Status_ok).

Definition setBroadcastSubscriber (configId subscriberId : Z) (pir : handle)
    (callingUid : Z) : M Status :=
  VLOG ;;
  ENFORCE_UID AID_SYSTEM (
    match pir with
    | None =>
        exception EX_NULL_POINTER
          "setBroadcastSubscriber provided with null PendingIntentRef"
    | Some _ =>
        let configKey := MkConfigKey callingUid configId in
        call (SubscriberReporter_setBroadcastSubscriber configKey subscriberId
                pir) ;;
        ret Status_ok
    end).

Definition unsetBroadcastSubscriber (configId subscriberId callingUid : Z)
  : M Status :=
  ENFORCE_UID AID_SYSTEM (
    VLOG ;;
    let configKey := MkConfigKey callingUid configId in
    call (SubscriberReporter_unsetBroadcastSubscriber configKey subscriberId) ;;
    ret Status_ok).

Definition allPullersFromBootRegistered : M Status :=
  ENFORCE_UID AID_SYSTEM (
    VLOG ;;
    call (BootCompleteTrigger_markComplete kAllPullersRegisteredTag) ;;
    ret Status_ok).

Definition registerPullAtomCallback (uid atomTag coolDownMillis timeoutMillis : Z)
    (additiveFields : list Z) (pullerCallback : handle) : M Status :=
  ENFORCE_UID AID_SYSTEM (
    VLOG ;;
    call (PullerManager_RegisterPullAtomCallback uid atomTag
            (MillisToNano w coolDownMillis) (MillisToNano w timeoutMillis)
            additiveFields pullerCallback) ;;
    ret Status_ok).

Definition unregisterPullAtomCallback (uid atomTag : Z) : M Status :=
  ENFORCE_UID AID_SYSTEM (
    VLOG ;;
    call (PullerManager_UnregisterPullAtomCallback uid atomTag) ;;
    ret Status_ok).

Definition getRegisteredExperimentIds (experimentIdsOut : list Z)
  : M (Status * list Z) :=
  ENFORCE_UID_out AID_SYSTEM experimentIdsOut (
    let experimentIdsOut : list Z := [] in
    (* Read the latest train info *)
    call StorageManager_readAllTrainInfo ;;
    let trainInfoList := readAllTrainInfo w in
    match trainInfoList with
    | [] =>
        (* No train info means no experiment IDs, return an empty list *)
        ret (Status_ok, experimentIdsOut)
    | _ :: _ =>
        (* Copy the experiment IDs to the out vector *)
        ret (Status_ok,
             fold_left (fun out experimentIds => out ++ experimentIds)
               trainInfoList experimentIdsOut)
    end).

Definition updateProperties : M Status :=
  ENFORCE_UID AID_SYSTEM (
    ret Status_ok).

Definition setRestrictedMetricsChangedOperation (configId : Z)
    (configPackage : string) (pir : handle) (callingUid : Z)
    (output : option (list Z)) : M (Status * option (list Z)) :=
  ENFORCE_UID_out AID_SYSTEM output (
    if negb (isAtLeastU w)
    then
      ALOGW "setRestrictedMetricsChangedOperation invoked on U- device" ;;
      ret (Status_ok, output)
    else
      call (ConfigManager_SetRestrictedMetricsChangedReceiver configPackage
              configId callingUid pir) ;;
      match output with
      | Some out =>
          call (Processor_fillRestrictedMetrics configId configPackage
                  callingUid) ;;
          ret (Status_ok,
               Some (fillRestrictedMetrics w configId configPackage callingUid
                       out))
      | None =>
          ALOGW "StatsService::setRestrictedMetricsChangedOperation output was nullptr" ;;
          ret (Status_ok, None)
      end).

Definition removeRestrictedMetricsChangedOperation (configId : Z)
    (configPackage : string) (callingUid : Z) : M Status :=
  ENFORCE_UID AID_SYSTEM (
    if negb (isAtLeastU w)
    then
      ALOGW "removeRestrictedMetricsChangedOperation invoked on U- device" ;;
      ret Status_ok
    else
      call (ConfigManager_RemoveRestrictedMetricsChangedReceiver configPackage
              configId callingUid) ;;
      ret Status_ok).

Definition querySql (sqlQuery : string) (minSqlClientVersion : Z)
    (policyConfig : option (list uint8_t)) (callback : handle)
    (configKey : Z) (configPackage : string) (callingUid : Z) : M Status :=
  ENFORCE_UID AID_SYSTEM (
    match callback with
    | None =>
        ALOGW "querySql called with null callback." ;;
        call (StatsdStats_noteQueryRestrictedMetricFailed configKey
                configPackage callingUid) ;;
        ret Status_ok
    | Some _ =>
        call (Processor_querySql sqlQuery minSqlClientVersion policyConfig
                callback configKey configPackage callingUid) ;;
        ret Status_ok
    end).

(** [initShellSubscriber], under [mShellSubscriberMutex]. *)
Definition initShellSubscriber : M unit :=
  isSet <- get mShellSubscriber ;;
  if negb isSet
  then call ShellSubscriber_new ;; set_mShellSubscriber true
  else ret tt.

Definition addSubscription (subscriptionConfig : list uint8_t)
    (callback : handle) : M Status :=
  ENFORCE_SID kTracedProbesSid (
    initShellSubscriber ;;
    call (ShellSubscriber_startNewSubscription subscriptionConfig callback) ;;
    ret Status_ok).

Definition removeSubscription (callback : handle) : M Status :=
  ENFORCE_SID kTracedProbesSid (
    isSet <- get mShellSubscriber ;;
    (if isSet then call (ShellSubscriber_unsubscribe callback) else ret tt) ;;
    ret Status_ok).

Definition flushSubscription (callback : handle) : M Status :=
  ENFORCE_SID kTracedProbesSid (
    isSet <- get mShellSubscriber ;;
    (if isSet then call (ShellSubscriber_flushSubscription callback)
     else ret tt) ;;
    ret Status_ok).

(* ================================================================= *)
(** ** The shell command surface *)

Definition nl : string := CLib.newline.

(** The texts [print_cmd_help] prints, one entry per [dprintf]. *)
Definition cmd_help_text : list string := [
  ("usage: adb shell cmd stats print-stats-log [tag_required] [timestamp_nsec_optional]" ++ nl);
  (nl);
  (nl);
  ("usage: adb shell cmd stats meminfo" ++ nl);
  (nl);
  ("  Prints the malloc debug information. You need to run the following first: " ++ nl);
  ("   # adb shell stop" ++ nl);
  ("   # adb shell setprop libc.debug.malloc.program statsd " ++ nl);
  ("   # adb shell setprop libc.debug.malloc.options backtrace " ++ nl);
  ("   # adb shell start" ++ nl);
  (nl);
  (nl);
  ("usage: adb shell cmd stats print-uid-map [PKG]" ++ nl);
  ("usage: adb shell cmd stats print-uid-map --with_certificate_hash" ++ nl);
  (nl);
  ("  Prints the UID, app name, version mapping." ++ nl);
  ("  PKG                         Optional package name to print the uids of the package" ++ nl);
  ("  --with_certificate_hash     Print package certificate hash in hex" ++ nl);
  (nl);
  (nl);
  ("usage: adb shell cmd stats pull-source ATOM_TAG [PACKAGE] " ++ nl);
  (nl);
  ("  Prints the output of a pulled atom" ++ nl);
  ("  UID           The atom to pull" ++ nl);
  ("  PACKAGE       The package to pull from. Default is AID_SYSTEM" ++ nl);
  (nl);
  (nl);
  ("usage: adb shell cmd stats write-to-disk " ++ nl);
  (nl);
  ("  Flushes all data on memory to disk." ++ nl);
  (nl);
  (nl);
  ("usage: adb shell cmd stats log-app-breadcrumb [UID] LABEL STATE" ++ nl);
  ("  Writes an AppBreadcrumbReported event to the statslog buffer." ++ nl);
  ("  UID           The uid to use. It is only possible to pass a UID" ++ nl);
  ("                parameter on eng builds. If UID is omitted the calling" ++ nl);
  ("                uid is used." ++ nl);
  ("  LABEL         Integer in [0, 15], as per atoms.proto." ++ nl);
  ("  STATE         Integer in [0, 3], as per atoms.proto." ++ nl);
  (nl);
  (nl);
  ("usage: adb shell cmd stats log-binary-push NAME VERSION STAGING ROLLBACK_ENABLED LOW_LATENCY STATE EXPERIMENT_IDS" ++ nl);
  ("  Log a binary push state changed event." ++ nl);
  ("  NAME                The train name." ++ nl);
  ("  VERSION             The train version code." ++ nl);
  ("  STAGING             If this train requires a restart." ++ nl);
  ("  ROLLBACK_ENABLED    If rollback should be enabled for this install." ++ nl);
  ("  LOW_LATENCY         If the train requires low latency monitoring." ++ nl);
  ("  STATE               The status of the train push." ++ nl);
  ("                      Integer value of the enum in atoms.proto." ++ nl);
  ("  EXPERIMENT_IDS      Comma separated list of experiment ids." ++ nl);
  ("                      Leave blank for none." ++ nl);
  (nl);
  (nl);
  ("usage: adb shell cmd stats config remove [UID] [NAME]" ++ nl);
  ("usage: adb shell cmd stats config update [UID] NAME" ++ nl);
  (nl);
  ("  Adds, updates or removes a configuration. The proto should be in" ++ nl);
  ("  wire-encoded protobuf format and passed via stdin. If no UID and name is" ++ nl);
  ("  provided, then all configs will be removed from memory and disk." ++ nl);
  (nl);
  ("  UID           The uid to use. It is only possible to pass the UID" ++ nl);
  ("                parameter on eng builds. If UID is omitted the calling" ++ nl);
  ("                uid is used." ++ nl);
  ("  NAME          The per-uid name to use" ++ nl);
  (nl);
  (nl ++ "              *Note: If both UID and NAME are omitted then all configs will" ++ nl);
  (nl ++ "                     be removed from memory and disk!" ++ nl);
  (nl);
  ("usage: adb shell cmd stats dump-report [UID] NAME [--keep_data] [--include_current_bucket] [--proto]" ++ nl);
  ("  Dump all metric data for a configuration." ++ nl);
  ("  UID           The uid of the configuration. It is only possible to pass" ++ nl);
  ("                the UID parameter on eng builds. If UID is omitted the" ++ nl);
  ("                calling uid is used." ++ nl);
  ("  NAME          The name of the configuration" ++ nl);
  ("  --keep_data   Do NOT erase the data upon dumping it." ++ nl);
  ("  --proto       Print proto binary." ++ nl);
  (nl);
  (nl);
  ("usage: adb shell cmd stats send-broadcast [UID] NAME" ++ nl);
  ("  Send a broadcast that triggers the subscriber to fetch metrics." ++ nl);
  ("  UID           The uid of the configuration. It is only possible to pass" ++ nl);
  ("                the UID parameter on eng builds. If UID is omitted the" ++ nl);
  ("                calling uid is used." ++ nl);
  ("  NAME          The name of the configuration" ++ nl);
  (nl);
  (nl);
  ("usage: adb shell cmd stats send-active-configs [--uid=UID] [--configs] [NAME1] [NAME2] [NAME3..]" ++ nl);
  ("  Send a broadcast that informs the subscriber of the current active configs." ++ nl);
  ("  --uid=UID     The uid of the configurations. It is only possible to pass" ++ nl);
  ("                the UID parameter on eng builds. If UID is omitted the" ++ nl);
  ("                calling uid is used." ++ nl);
  ("  --configs     Send the list of configs in the name list instead of" ++ nl);
  ("                the currently active configs" ++ nl);
  ("  NAME LIST     List of configuration names to be included in the broadcast." ++ nl);
  (nl);
  (nl);
  ("usage: adb shell cmd stats print-stats" ++ nl);
  ("  Prints some basic stats." ++ nl);
  ("  --proto       Print proto binary instead of string format." ++ nl);
  (nl);
  (nl);
  ("usage: adb shell cmd stats clear-puller-cache" ++ nl);
  ("  Clear cached puller data." ++ nl);
  (nl);
  ("usage: adb shell cmd stats print-logs" ++ nl);
  ("  Requires root privileges." ++ nl);
  ("  Can be disabled by calling adb shell cmd stats print-logs 0" ++ nl)
]%string.

Definition print_cmd_help (out : Z) : M unit :=
  fold_right (fun text k => dprintf out text ;; k) (ret tt) cmd_help_text.

(** [args[i]]; [None] is the out-of-range access on which
    [Vector::operator[]] aborts the process. *)
Definition arg_at (args : list string) (i : Z) : option string :=
  if i <? 0 then None else nth_error args (Z.to_nat i).

(** [endp == s]: no character was converted ([rest] is a suffix of [s]). *)
Definition at_start (s rest : string) : bool :=
  (String.length rest =? String.length s)%nat.

Definition cmd_remove_all_configs (out : Z) : M Z :=
  dprintf out ("Removing all configs..." ++ nl)%string ;;
  VLOG ;;
  call ConfigManager_RemoveAllConfigs ;;
  call (StorageManager_deleteAllFiles STATS_SERVICE_DIR) ;;
  ret NO_ERROR.

Definition cmd_config_update (err : Z) (in_ : Z) (uid : Z) (name : string)
  : M Z :=
  let '(configID, endp) := CLib.strtoll name 10 in
  if at_start name endp || negb (String.eqb endp "")
  then dprintf err ("Error parsing config ID." ++ nl)%string ;;
       ret UNKNOWN_ERROR
  else
    (* Read stream into buffer. *)
    match ReadFdToString w in_ with
    | None =>
        dprintf err ("Error reading stream for StatsConfig." ++ nl)%string ;;
        ret UNKNOWN_ERROR
    | Some buffer =>
        (* Parse buffer. *)
        if negb (StatsdConfig_parses w buffer)
        then dprintf err
               ("Error parsing proto stream for StatsConfig." ++ nl)%string ;;
             ret UNKNOWN_ERROR
        else
          (* Add / update the config. *)
          call (ConfigManager_UpdateConfig (MkConfigKey uid configID)
                  (StatsdConfig_parsed buffer)) ;;
          ret NO_ERROR
    end.

Definition cmd_config (in_ out err : Z) (args : list string) : M Z :=
  let argCount := Z.of_nat (List.length args) in
  let arg1 := nth 1 args "" in
  if (2 <=? argCount) && (String.eqb arg1 "update" || String.eqb arg1 "remove")
  then
    mEngBuild <- get mEngBuild ;;
    let uid : Z := -1 in
    let name : string := "" in
    '(good, uid, name) <-
      (if argCount =? 3 then
         (* Automatically pick the UID *)
         ret (true, to_int32 (AIBinder_getCallingUid c), nth 2 args "")
       else if argCount =? 4 then
         let '(good, uid) :=
           getUidFromString mEngBuild (AIBinder_getCallingUid c)
             (nth 2 args "") uid in
         (if negb good
          then dprintf err
                 ("Invalid UID. Note that the config can only be set for "
                  ++ "other UIDs on eng or userdebug builds." ++ nl)%string
          else ret tt) ;;
         ret (good, uid, nth 3 args "")
       else if (argCount =? 2) && String.eqb arg1 "remove" then
         ret (true, uid, name)
       else ret (false, uid, name)) ;;
    if negb good then
      (* If arg parsing failed, print the help text and return an error. *)
      print_cmd_help out ;;
      ret UNKNOWN_ERROR
    else if String.eqb arg1 "update" then
      cmd_config_update err in_ uid name
    else
      (if argCount =? 2 then
         _ <- cmd_remove_all_configs out ;; ret tt
       else
         (* Remove the config. *)
         call (ConfigManager_RemoveConfig
                 (MkConfigKey uid (StrToInt64 w name)))) ;;
      ret NO_ERROR
  else
    print_cmd_help out ;;
    ret UNKNOWN_ERROR.

(** One of the three tests at the head of [cmd_dump_report]:
    [if (!std::strcmp(flag, args[argCount-1].c_str())) { ...; argCount -= 1; }].
    Returns whether the flag was there and the new [argCount]. *)
Definition strip_flag (flag : string) (args : list string) (argCount : Z)
  : option (bool * Z) :=
  match arg_at args (argCount - 1) with
  | Some a => if String.eqb flag a then Some (true, argCount - 1)
              else Some (false, argCount)
  | None => None
  end.

Record DumpReportFlags := MkDumpReportFlags {
  flags_argCount : Z;
  flags_proto : bool;
  flags_includeCurrentBucket : bool;
  flags_eraseData : bool
}.

(** The flag-stripping head of [cmd_dump_report]. *)
Definition cmd_dump_report_flags (args : list string) : option DumpReportFlags :=
  let argCount := Z.of_nat (List.length args) in
  match strip_flag "--proto" args argCount with
  | None => None
  | Some (proto, argCount) =>
      match strip_flag "--include_current_bucket" args argCount with
      | None => None
      | Some (includeCurrentBucket, argCount) =>
          match strip_flag "--keep_data" args argCount with
          | None => None
          | Some (keepData, argCount) =>
              Some (MkDumpReportFlags argCount proto includeCurrentBucket
                      (negb keepData))
          end
      end
  end.

Definition dprintf_bytes (out : Z) (data : list uint8_t) : M unit :=
  fold_right (fun b k => dprintf_c out b ;; k) (ret tt) data.

(** The rest of [cmd_dump_report], from [if (argCount == 2)] on, with
    the flags and the [argCount] the head has left. *)
Definition cmd_dump_report_positional (out : Z) (f : DumpReportFlags)
    (args : list string) : M Z :=
  let argCount := flags_argCount f in
  mEngBuild <- get mEngBuild ;;
  let uid : Z := 0 (* declared without an initialiser *) in
  '(good, uid, name) <-
    (if argCount =? 2 then
       (* Automatically pick the UID *)
       ret (true, to_int32 (AIBinder_getCallingUid c), nth 1 args "")
     else if argCount =? 3 then
       let '(good, uid) :=
         getUidFromString mEngBuild (AIBinder_getCallingUid c)
           (nth 1 args "") uid in
       (if negb good
        then dprintf out
               ("Invalid UID. Note that the metrics can only be dumped for "
                ++ "other UIDs on eng or userdebug builds." ++ nl)%string
        else ret tt) ;;
       ret (good, uid, nth 2 args "")
     else ret (false, uid, "")) ;;
  if good then
    let key := MkConfigKey uid (StrToInt64 w name) in
    call (Processor_onDumpReport key (getElapsedRealtimeNs w)
            (getWallClockNs w) (flags_includeCurrentBucket f)
            (flags_eraseData f) ADB_DUMP NO_TIME_CONSTRAINTS) ;;
    let data := onDumpReport_output w key [] in
    (if flags_proto f then dprintf_bytes out data
     else dprintf out
            ("Non-proto stats data dump not currently supported." ++ nl)%string) ;;
    ret OK
  else
    (* If arg parsing failed, print the help text and return an error. *)
    print_cmd_help out ;;
    ret UNKNOWN_ERROR.

(** [cmd_dump_report]; [None] is the abort on an out-of-range [args]
    access. *)
Definition cmd_dump_report (out : Z) (args : list string) : M (option Z) :=
  hasProcessor <- get mProcessor ;;
  if hasProcessor then
    match cmd_dump_report_flags args with
    | None => ret None
    | Some f =>
        status <- cmd_dump_report_positional out f args ;;
        ret (Some status)
    end
  else
    dprintf out ("Log processor does not exist..." ++ nl)%string ;;
    ret (Some UNKNOWN_ERROR).

Definition cmd_log_app_breadcrumb (out : Z) (args : list string) : M Z :=
  mEngBuild <- get mEngBuild ;;
  let uid : Z := 0 (* declared without an initialiser *) in
  let label : Z := 0 in
  let state : Z := 0 in
  let argCount := Z.of_nat (List.length args) in
  '(good, uid, label, state) <-
    (if argCount =? 3 then
       (* Automatically pick the UID *)
       ret (true, to_int32 (AIBinder_getCallingUid c),
            CLib.atoi (nth 1 args ""), CLib.atoi (nth 2 args ""))
     else if argCount =? 4 then
       let '(good, uid) :=
         getUidFromString mEngBuild (AIBinder_getCallingUid c)
           (nth 1 args "") uid in
       (if negb good
        then dprintf out
               ("Invalid UID. Note that selecting a UID for writing AppBreadcrumb can only be "
                ++ "done for other UIDs on eng or userdebug builds." ++ nl)%string
        else ret tt) ;;
       ret (good, uid, CLib.atoi (nth 2 args ""), CLib.atoi (nth 3 args ""))
     else ret (false, uid, label, state)) ;;
  if good then
    dprintf out
      ("Logging AppBreadcrumbReported(" ++ CLib.fmt_d uid ++ ", "
       ++ CLib.fmt_d label ++ ", " ++ CLib.fmt_d state ++ ") to statslog."
       ++ nl)%string ;;
    call (stats_write_APP_BREADCRUMB_REPORTED uid label state) ;;
    ret NO_ERROR
  else
    print_cmd_help out ;;
    ret UNKNOWN_ERROR.

(* ================================================================= *)
(** ** The calls gathered in one type *)

(** What a call hands back through its output parameter. *)
Inductive Reply :=
| NoReply
| ReplyBytes (output : list uint8_t)
| ReplyInt64s (output : option (list Z)).

(** The binder methods that open with [ENFORCE_UID(AID_SYSTEM)],
    with their arguments. *)
Inductive SystemRpc :=
| Rpc_informAllUidData (fd : Z)
| Rpc_informOnePackage (app : string) (uid version : Z)
    (versionString installer : string) (certificateHash : list uint8_t)
| Rpc_informOnePackageRemoved (app : string) (uid : Z)
| Rpc_informAnomalyAlarmFired
| Rpc_informAlarmForSubscriberTriggeringFired
| Rpc_informPollAlarmFired
| Rpc_systemRunning
| Rpc_informDeviceShutdown
| Rpc_statsCompanionReady
| Rpc_bootCompleted
| Rpc_getData (key callingUid : Z) (output : list uint8_t)
| Rpc_getDataFd (key callingUid : Z) (fd : Z)
| Rpc_getMetadata (output : list uint8_t)
| Rpc_addConfiguration (key : Z) (config : list uint8_t) (callingUid : Z)
| Rpc_removeDataFetchOperation (key callingUid : Z)
| Rpc_setDataFetchOperation (key : Z) (pir : handle) (callingUid : Z)
| Rpc_setActiveConfigsChangedOperation (pir : handle) (callingUid : Z)
    (output : option (list Z))
| Rpc_removeActiveConfigsChangedOperation (callingUid : Z)
| Rpc_removeConfiguration (key callingUid : Z)
| Rpc_setBroadcastSubscriber (configId subscriberId : Z) (pir : handle)
    (callingUid : Z)
| Rpc_unsetBroadcastSubscriber (configId subscriberId callingUid : Z)
| Rpc_allPullersFromBootRegistered
| Rpc_registerPullAtomCallback (uid atomTag coolDownMillis timeoutMillis : Z)
    (additiveFields : list Z) (pullerCallback : handle)
| Rpc_unregisterPullAtomCallback (uid atomTag : Z)
| Rpc_getRegisteredExperimentIds (experimentIdsOut : list Z)
| Rpc_updateProperties
| Rpc_setRestrictedMetricsChangedOperation (configId : Z)
    (configPackage : string) (pir : handle) (callingUid : Z)
    (output : option (list Z))
| Rpc_removeRestrictedMetricsChangedOperation (configId : Z)
    (configPackage : string) (callingUid : Z)
| Rpc_querySql (sqlQuery : string) (minSqlClientVersion : Z)
    (policyConfig : option (list uint8_t)) (callback : handle)
    (configKey : Z) (configPackage : string) (callingUid : Z).

Definition no_reply (m : M Status) : M (Status * Reply) :=
  st <- m ;; ret (st, NoReply).

Definition reply_with {O} (wrap : O -> Reply) (m : M (Status * O))
  : M (Status * Reply) :=
  '(st, o) <- m ;; ret (st, wrap o).

(** The output parameter as the caller passed it. *)
Definition output_before (r : SystemRpc) : Reply :=
  match r with
  | Rpc_getData _ _ output => ReplyBytes output
  | Rpc_getMetadata output => ReplyBytes output
  | Rpc_setActiveConfigsChangedOperation _ _ output => ReplyInt64s output
  | Rpc_getRegisteredExperimentIds out => ReplyInt64s (Some out)
  | Rpc_setRestrictedMetricsChangedOperation _ _ _ _ output =>
      ReplyInt64s output
  | _ => NoReply
  end.

Definition serve (r : SystemRpc) : M (Status * Reply) :=
  match r with
  | Rpc_informAllUidData fd => no_reply (informAllUidData fd)
  | Rpc_informOnePackage app uid version versionString installer hash =>
      no_reply (informOnePackage app uid version versionString installer hash)
  | Rpc_informOnePackageRemoved app uid =>
      no_reply (informOnePackageRemoved app uid)
  | Rpc_informAnomalyAlarmFired => no_reply informAnomalyAlarmFired
  | Rpc_informAlarmForSubscriberTriggeringFired =>
      no_reply informAlarmForSubscriberTriggeringFired
  | Rpc_informPollAlarmFired => no_reply informPollAlarmFired
  | Rpc_systemRunning => no_reply systemRunning
  | Rpc_informDeviceShutdown => no_reply informDeviceShutdown
  | Rpc_statsCompanionReady => no_reply statsCompanionReady
  | Rpc_bootCompleted => no_reply bootCompleted
  | Rpc_getData key callingUid output =>
      reply_with ReplyBytes (getData key callingUid output)
  | Rpc_getDataFd key callingUid fd => no_reply (getDataFd key callingUid fd)
  | Rpc_getMetadata output => reply_with ReplyBytes (getMetadata output)
  | Rpc_addConfiguration key config callingUid =>
      no_reply (addConfiguration key config callingUid)
  | Rpc_removeDataFetchOperation key callingUid =>
      no_reply (removeDataFetchOperation key callingUid)
  | Rpc_setDataFetchOperation key pir callingUid =>
      no_reply (setDataFetchOperation key pir callingUid)
  | Rpc_setActiveConfigsChangedOperation pir callingUid output =>
      reply_with ReplyInt64s
        (setActiveConfigsChangedOperation pir callingUid output)
  | Rpc_removeActiveConfigsChangedOperation callingUid =>
      no_reply (removeActiveConfigsChangedOperation callingUid)
  | Rpc_removeConfiguration key callingUid =>
      no_reply (removeConfiguration key callingUid)
  | Rpc_setBroadcastSubscriber configId subscriberId pir callingUid =>
      no_reply (setBroadcastSubscriber configId subscriberId pir callingUid)
  | Rpc_unsetBroadcastSubscriber configId subscriberId callingUid =>
      no_reply (unsetBroadcastSubscriber configId subscriberId callingUid)
  | Rpc_allPullersFromBootRegistered => no_reply allPullersFromBootRegistered
  | Rpc_registerPullAtomCallback uid atomTag coolDown timeout fields cb =>
      no_reply (registerPullAtomCallback uid atomTag coolDown timeout fields cb)
  | Rpc_unregisterPullAtomCallback uid atomTag =>
      no_reply (unregisterPullAtomCallback uid atomTag)
  | Rpc_getRegisteredExperimentIds out =>
      reply_with (fun o => ReplyInt64s (Some o)) (getRegisteredExperimentIds out)
  | Rpc_updateProperties => no_reply updateProperties
  | Rpc_setRestrictedMetricsChangedOperation configId pkg pir callingUid out =>
      reply_with ReplyInt64s
        (setRestrictedMetricsChangedOperation configId pkg pir callingUid out)
  | Rpc_removeRestrictedMetricsChangedOperation configId pkg callingUid =>
      no_reply (removeRestrictedMetricsChangedOperation configId pkg callingUid)
  | Rpc_querySql sqlQuery version policy callback configKey pkg callingUid =>
      no_reply (querySql sqlQuery version policy callback configKey pkg
                  callingUid)
  end.

(** The three subscription calls, which open with
    [ENFORCE_SID(kTracedProbesSid)]. *)
Inductive SubscriptionRpc :=
| Rpc_addSubscription (subscriptionConfig : list uint8_t) (callback : handle)
| Rpc_removeSubscription (callback : handle)
| Rpc_flushSubscription (callback : handle).

Definition serve_subscription (r : SubscriptionRpc) : M Status :=
  match r with
  | Rpc_addSubscription cfg callback => addSubscription cfg callback
  | Rpc_removeSubscription callback => removeSubscription callback
  | Rpc_flushSubscription callback => flushSubscription callback
  end.

End Call.

(* ================================================================= *)
(** ** The deferred init-completion handler *)

(** [std::condition_variable::wait_for(lk, rel_time, pred)] on
    [mStatsdInitCompletedHandlerTerminationFlag], in milliseconds counted
    from the moment the handler takes the lock.  The answer is [pred()]
    as evaluated when the wait ends: at once if the flag is already set,
    on the notification of a termination request that arrives while
    waiting, or at the time-out.  [concurrent] is the moment another
    thread runs [onStatsdInitCompletedHandlerTermination], if one does;
    [wakeLatency] is how long after the deadline the waiting thread gets
    to re-evaluate the predicate. *)
Definition wait_for_termination (rel_ms : Z) (concurrent : option Z)
    (wakeLatency : Z) : M bool :=
  requested <- get mStatsdInitCompletedHandlerTerminationRequested ;;
  if requested then ret true
  else
    match concurrent with
    | Some at_ms =>
        if at_ms <=? rel_ms + wakeLatency
        then set_TerminationRequested true ;; ret true
        else ret false
    | None => ret false
    end.

Definition onStatsdInitCompleted (w : World) (mInitEventDelaySecs : Z)
    (concurrent : option Z) (wakeLatency : Z) : M unit :=
  stop <-
    (if 0 <? mInitEventDelaySecs then
       terminated <- wait_for_termination (1000 * mInitEventDelaySecs)
                       concurrent wakeLatency ;;
       if terminated then VLOG ;; ret true else ret false
     else ret false) ;;
  if stop then ret tt
  else call (Processor_onStatsdInitCompleted (getElapsedRealtimeNs w)).

(* ================================================================= *)
(** ** The log-reading thread and its shutdown *)

(** The threads are interleaved statement by statement;
    [mIsStopRequested] is a [std::atomic<bool>] and the queue
    synchronises internally, so every thread sees the others' steps in
    the order they were taken. *)

Module Ingestion.

(** Who put an event into the queue; kept beside the event so that the
    event pushed by [stopReadingLogs] can be told from real ones. *)
Inductive Origin := FromSocket | FromStopReadingLogs.

Record Item := MkItem { item_event : LogEvent; item_origin : Origin }.

Inductive Sink := ToProcessor | ToShellSubscriber.

(** Where the thread running [readLogs] stands. *)
Inductive ReaderPc :=
| AtWaitPop                (* in [mEventQueue->waitPop()] *)
| AtStopCheck (e : Item)   (* [waitPop] returned [e]; [if (mIsStopRequested)] is next *)
| AtOnLogEvent (e : Item)  (* [mProcessor->OnLogEvent(event.get())] is next *)
| AtSubscriber (e : Item)  (* [if (mShellSubscriber != nullptr)] is next *)
| Returned.                (* left the loop *)

(** Where the thread running [stopReadingLogs] stands. *)
Inductive StopperPc :=
| NotCalled
| FlagStored   (* [mIsStopRequested = true] done, the push is next *)
| Pushed.

Record Sys := MkSys {
  queue : list Item;             (* [mEventQueue], oldest first *)
  mIsStopRequested : bool;
  shellSubscriber : bool;        (* [mShellSubscriber != nullptr] *)
  reader : ReaderPc;
  stopper : StopperPc;
  dispatched : list (Sink * Item)   (* oldest first *)
}.

(** The event [stopReadingLogs] makes: [LogEvent(/*uid=*/0, /*pid=*/0)]. *)
Definition stop_event : LogEvent := MkLogEvent 0 0 [].

Inductive Action :=
| Socket_push (e : LogEvent)   (* the socket listener enqueues an event *)
| Reader_step                  (* [readLogs] runs to its next point *)
| Stopper_step                 (* [stopReadingLogs] runs its next statement *)
| Shell_initSubscriber.        (* another thread runs [initShellSubscriber] *)

Definition reader_step (s : Sys) : option Sys :=
  match reader s with
  | AtWaitPop =>
      match queue s with
      | e :: q => Some (MkSys q (mIsStopRequested s) (shellSubscriber s)
                          (AtStopCheck e) (stopper s) (dispatched s))
      | [] => None   (* blocked until an event is available *)
      end
  | AtStopCheck e =>
      Some (MkSys (queue s) (mIsStopRequested s) (shellSubscriber s)
              (if mIsStopRequested s then Returned else AtOnLogEvent e)
              (stopper s) (dispatched s))
  | AtOnLogEvent e =>
      Some (MkSys (queue s) (mIsStopRequested s) (shellSubscriber s)
              (AtSubscriber e) (stopper s)
              (dispatched s ++ [(ToProcessor, e)]))
  | AtSubscriber e =>
      Some (MkSys (queue s) (mIsStopRequested s) (shellSubscriber s)
              AtWaitPop (stopper s)
              (if shellSubscriber s
               then dispatched s ++ [(ToShellSubscriber, e)]
               else dispatched s))
  | Returned => None
  end.

Definition stopper_step (s : Sys) : option Sys :=
  match stopper s with
  | NotCalled =>
      Some (MkSys (queue s) true (shellSubscriber s) (reader s) FlagStored
              (dispatched s))
  | FlagStored =>
      (* Push this event so that readLogs will process and break out of
         the loop after the stop is requested. *)
      Some (MkSys (queue s ++ [MkItem stop_event FromStopReadingLogs])
              (mIsStopRequested s) (shellSubscriber s) (reader s) Pushed
              (dispatched s))
  | Pushed => None
  end.

Definition step (a : Action) (s : Sys) : option Sys :=
  match a with
  | Socket_push e =>
      Some (MkSys (queue s ++ [MkItem e FromSocket]) (mIsStopRequested s)
              (shellSubscriber s) (reader s) (stopper s) (dispatched s))
  | Reader_step => reader_step s
  | Stopper_step => stopper_step s
  | Shell_initSubscriber =>
      Some (MkSys (queue s) (mIsStopRequested s) true (reader s) (stopper s)
              (dispatched s))
  end.

Fixpoint run (acts : list Action) (s : Sys) : option Sys :=
  match acts with
  | [] => Some s
  | a :: rest =>
      match step a s with
      | Some s' => run rest s'
      | None => None
      end
  end.

(** The service as constructed: the reader thread just started. *)
Definition init : Sys := MkSys [] false false AtWaitPop NotCalled [].

Definition from_stop (e : Item) : bool :=
  match item_origin e with FromStopReadingLogs => true | FromSocket => false end.

(** What holds of every state the threads can reach. *)
Record Inv (s : Sys) : Prop := MkInv {
  inv_flag : stopper s <> NotCalled -> mIsStopRequested s = true;
  inv_queue : forall e, In e (queue s) -> from_stop e = true ->
                        stopper s = Pushed /\ item_event e = stop_event;
  inv_check : forall e, reader s = AtStopCheck e -> from_stop e = true ->
                        stopper s = Pushed;
  inv_processor : forall e, reader s = AtOnLogEvent e -> from_stop e = false;
  inv_subscriber : forall e, reader s = AtSubscriber e -> from_stop e = false;
  inv_dispatched : forall d, In d (dispatched s) -> from_stop (snd d) = false
}.

(** The reader has seen the stop flag set, or is about to. *)
Definition leaving (s : Sys) : Prop :=
  mIsStopRequested s = true
  /\ ((exists e, reader s = AtStopCheck e) \/ reader s = Returned).

End Ingestion.

(* ================================================================= *)
(** ** Reading the call log *)

(** The configuration keys a collaborator is handed in a call. *)
Definition config_keys (call : Call) : list ConfigKey :=
  match call with
  | Processor_onDumpReport key _ _ _ _ _ _ => [key]
  | Processor_noteOnDiskData key => [key]
  | ConfigManager_UpdateConfig key _ => [key]
  | ConfigManager_RemoveConfig key => [key]
  | ConfigManager_SetConfigReceiver key _ => [key]
  | ConfigManager_RemoveConfigReceiver key => [key]
  | SubscriberReporter_setBroadcastSubscriber key _ _ => [key]
  | SubscriberReporter_unsetBroadcastSubscriber key _ => [key]
  | StorageManager_hasConfigMetricsReport key => [key]
  | _ => []
  end.

(** For the calls that take a configuration id together with a
    [callingUid] argument: the key built from the two arguments. *)
Definition declared_key (r : SystemRpc) : option ConfigKey :=
  match r with
  | Rpc_getData key callingUid _ => Some (MkConfigKey callingUid key)
  | Rpc_getDataFd key callingUid _ => Some (MkConfigKey callingUid key)
  | Rpc_addConfiguration key _ callingUid => Some (MkConfigKey callingUid key)
  | Rpc_removeDataFetchOperation key callingUid =>
      Some (MkConfigKey callingUid key)
  | Rpc_setDataFetchOperation key _ callingUid =>
      Some (MkConfigKey callingUid key)
  | Rpc_removeConfiguration key callingUid => Some (MkConfigKey callingUid key)
  | Rpc_setBroadcastSubscriber configId _ _ callingUid =>
      Some (MkConfigKey callingUid configId)
  | Rpc_unsetBroadcastSubscriber configId _ callingUid =>
      Some (MkConfigKey callingUid configId)
  | _ => None
  end.

(** The label the transport gives for the caller, as [checkSid] reads it. *)
Definition looked_up_sid (c : Caller) (w : World) : option string :=
  if sid_api_available w then AIBinder_getCallingSid c else None.

(** Four bytes, most significant first. *)
Definition big_endian_u32 (n : Z) : list uint8_t :=
  [n / 2 ^ 24 mod 256; n / 2 ^ 16 mod 256; n / 2 ^ 8 mod 256; n mod 256].

(* ================================================================= *)
(** ** The flag stripping of [dump-report], as the specification words it *)

(** A recognised flag that is the last remaining argument is taken off
    the argument list. *)
Definition strip_trailing (flag : string) (args : list string)
  : bool * list string :=
  match rev args with
  | a :: before =>
      if String.eqb flag a then (true, rev before) else (false, args)
  | [] => (false, args)
  end.

(** First the proto-format flag, then include-current-bucket, then
    keep-data; what is left is parsed by position. *)
Definition spec_dump_report_flags (args : list string)
  : bool * bool * bool * list string :=
  let '(proto, args) := strip_trailing "--proto" args in
  let '(includeCurrentBucket, args) :=
    strip_trailing "--include_current_bucket" args in
  let '(keepData, args) := strip_trailing "--keep_data" args in
  (proto, includeCurrentBucket, keepData, args).

Definition is_dump_report_flag (a : string) : bool :=
  String.eqb "--proto" a || String.eqb "--include_current_bucket" a
  || String.eqb "--keep_data" a.

(** A string [strtol] converts to its end in the given base. *)
Definition numeric (base : Z) (s : string) : bool :=
  let '(_, rest) := CLib.strtol s base in
  negb (at_start s rest) && String.eqb rest "".

(* ================================================================= *)
(** ** What a refused binder call does *)

Definition uid_mismatch (uid expectedUid : Z) : string :=
  ("UID " ++ CLib.fmt_d uid ++ " is not expected UID "
          ++ CLib.fmt_d expectedUid)%string.

Definition sid_mismatch (sid : option string) (expectedSid : string) : string :=
  ("SID '" ++ fmt_s sid ++ "' is not expected SID '" ++ expectedSid ++ "'")%string.

(** The state after [exception(EX_SECURITY, msg)]: one more log line. *)
Definition security_logged (msg : string) (s : Service) : Service :=
  log_line (msg ++ " (-1)")%string s.

Definition uid_allowed (c : Caller) (expectedUid : Z) : bool :=
  (AIBinder_getCallingUid c =? expectedUid) || (AIBinder_getCallingUid c =? AID_ROOT).

(* ================================================================= *)
(** ** What a refused shell command does *)

(** The usage block, then the generic failure code. *)
Definition usage_error (out : Z) : M Z :=
  print_cmd_help out ;; ret UNKNOWN_ERROR.

(** Nothing but descriptors differs between two states. *)
Definition only_printed (s s' : Service) : Prop :=
  calls s' = calls s
  /\ logcat s' = logcat s
  /\ mEngBuild s' = mEngBuild s
  /\ mProcessor s' = mProcessor s
  /\ mShellSubscriber s' = mShellSubscriber s
  /\ mStatsdInitCompletedHandlerTerminationRequested s'
     = mStatsdInitCompletedHandlerTerminationRequested s.

(** The shapes [cmd_config] has no use for. *)
Definition config_args_unusable (args : list string) : Prop :=
  (List.length args < 2)%nat
  \/ (4 < List.length args)%nat
  \/ (nth 1 args "" <> "update" /\ nth 1 args "" <> "remove")
  \/ (List.length args = 2%nat /\ nth 1 args "" = "update").

Definition invalid_uid_config : string :=
  ("Invalid UID. Note that the config can only be set for "
   ++ "other UIDs on eng or userdebug builds." ++ nl)%string.

Definition invalid_uid_dump : string :=
  ("Invalid UID. Note that the metrics can only be dumped for "
   ++ "other UIDs on eng or userdebug builds." ++ nl)%string.

Definition invalid_uid_breadcrumb : string :=
  ("Invalid UID. Note that selecting a UID for writing AppBreadcrumb can only be "
   ++ "done for other UIDs on eng or userdebug builds." ++ nl)%string.

(* ================================================================= *)
(** ** [dump-report] after the stripping, as the specification words it *)

(** The report of [(uid, NAME)] is asked for with the options the flags
    gave and goes to [out]: the bytes when the proto format was asked
    for, a fixed line otherwise. *)
Definition spec_dump (w : World) (out : Z)
    (proto includeCurrentBucket keepData : bool) (uid : Z) (name : string)
  : M (option Z) :=
  let key := MkConfigKey uid (StrToInt64 w name) in
  call (Processor_onDumpReport key (getElapsedRealtimeNs w) (getWallClockNs w)
          includeCurrentBucket (negb keepData) ADB_DUMP NO_TIME_CONSTRAINTS) ;;
  (if proto then dprintf_bytes out (onDumpReport_output w key [])
   else dprintf out
          ("Non-proto stats data dump not currently supported." ++ nl)%string) ;;
  ret (Some OK).

(** Positional parsing of what the stripping left: the subcommand name
    and a NAME, or the subcommand name, a UID and a NAME; anything else
    is answered with the usage block. *)
Definition spec_dump_positional (c : Caller) (w : World) (out : Z)
    (proto includeCurrentBucket keepData : bool) (remaining : list string)
  : M (option Z) :=
  match remaining with
  | [_; name] =>
      spec_dump w out proto includeCurrentBucket keepData
        (to_int32 (AIBinder_getCallingUid c)) name
  | [_; uid_text; name] =>
      mEngBuild <- get mEngBuild ;;
      match getUidFromString mEngBuild (AIBinder_getCallingUid c) uid_text 0
      with
      | (true, uid) =>
          spec_dump w out proto includeCurrentBucket keepData uid name
      | (false, _) =>
          dprintf out invalid_uid_dump ;;
          print_cmd_help out ;;
          ret (Some UNKNOWN_ERROR)
      end
  | _ =>
      print_cmd_help out ;;
      ret (Some UNKNOWN_ERROR)
  end.

(* ================================================================= *)
(** ** Concrete surroundings used in examples *)

Module Scenario.

(** A service just constructed on a user build; every descriptor is open
    and takes [room] more bytes. *)
Definition fresh (engBuild : bool) (room : nat) : Service :=
  MkService engBuild true false false [] [] (fun _ => MkDescriptor [] room).

(** Surroundings in which the processor reports [report] for every key,
    every parse succeeds and the companion is absent. *)
Definition world (report : list uint8_t) : World :=
  MkWorld 5000000000 5 1700000000000000000
    (fun s => let '(v, rest) := CLib.strtoll s 0 in
              if at_start s rest || negb (String.eqb rest "") then 0 else v)
    (fun ms => ms * 1000000)
    1000000000
    true true
    (fun _ output => output ++ report)
    (fun _ => true)
    (fun _ => true)
    (fun _ => false)
    (fun _ output => output)
    (fun _ _ _ output => output)
    None
    0%nat
    []
    (fun output => output)
    (fun _ => Some []).

(** The same, with a protobuf parser that rejects every input. *)
Definition rejecting_world (report : list uint8_t) : World :=
  let w := world report in
  MkWorld (getElapsedRealtimeNs w) (getElapsedRealtimeSec w) (getWallClockNs w)
    (StrToInt64 w) (MillisToNano w) (NS_PER_SEC w) (sid_api_available w)
    (isAtLeastU w) (onDumpReport_output w) (fun _ => false) (UidData_parses w)
    (hasConfigMetricsReport w) (GetActiveConfigs w) (fillRestrictedMetrics w)
    (getStatsCompanionService w) (popSoonerThan_size w) (readAllTrainInfo w)
    (dumpStats_output w) (ReadFdToString w).

Definition system_server : Caller := MkCaller 1234 AID_SYSTEM None.
Definition shell_user : Caller := MkCaller 4321 AID_SHELL None.
Definition app_10123 : Caller := MkCaller 5555 10123 None.
Definition traced_probes : Caller :=
  MkCaller 777 9999 (Some "u:r:traced_probes:s0").

End Scenario.

(* ================================================================= *)
(** ** Order of delivery in the log-reading thread *)

Module IngestionOrder.
Import Ingestion.

(** The events the socket listener has pushed, in order. *)
Fixpoint pushed (acts : list Action) : list LogEvent :=
  match acts with
  | [] => []
  | Socket_push e :: rest => e :: pushed rest
  | _ :: rest => pushed rest
  end.

Definition to_processor (d : Sink * Item) : bool :=
  match fst d with ToProcessor => true | ToShellSubscriber => false end.

(** What [mProcessor->OnLogEvent] has been called with, in order. *)
Definition given_to_processor (s : Sys) : list LogEvent :=
  map (fun d => item_event (snd d)) (filter to_processor (dispatched s)).

(** The event [waitPop()] returned and the processor has not seen yet. *)
Definition awaiting_processor (s : Sys) : list Item :=
  match reader s with
  | AtStopCheck e => [e]
  | AtOnLogEvent e => [e]
  | _ => []
  end.

Definition real_events (l : list Item) : list LogEvent :=
  map item_event (filter (fun e => negb (from_stop e)) l).

(** The history is what the processor has seen, then what is still to
    come; while the reader runs, what is to come is exactly what it
    holds and what is queued. *)
Definition Fifo (history : list LogEvent) (s : Sys) : Prop :=
  exists rest,
    history = given_to_processor s ++ rest
    /\ (reader s <> Returned ->
        rest = real_events (awaiting_processor s ++ queue s)).

(** Every delivery to the shell subscriber comes right after the
    delivery of the same event to the processor. *)
Inductive EngineFirst : list (Sink * Item) -> Prop :=
| ef_nil : EngineFirst []
| ef_processor l e :
    EngineFirst l -> EngineFirst (l ++ [(ToProcessor, e)])
| ef_both l e :
    EngineFirst l ->
    EngineFirst (l ++ [(ToProcessor, e); (ToShellSubscriber, e)]).

(** With [stopReadingLogs] done, the reader is on its way out or has
    something to pop. *)
Definition Woken (s : Sys) : Prop :=
  stopper s = Pushed ->
  mIsStopRequested s = true
  /\ (reader s = Returned \/ (exists e, reader s = AtStopCheck e)
      \/ queue s <> []).

End IngestionOrder.

(* ================================================================= *)
(** ** Sequences of binder calls *)

(** One binder call of either family, with the caller it comes from. *)
Inductive Request :=
| SystemCall (c : Caller) (r : SystemRpc)
| SubscriptionCall (c : Caller) (r : SubscriptionRpc).

Definition serve_request (w : World) (q : Request) : M Status :=
  match q with
  | SystemCall c r => res <- serve c w r ;; ret (fst res)
  | SubscriptionCall c r => serve_subscription c w r
  end.

Fixpoint serve_requests (w : World) (qs : list Request) : M unit :=
  match qs with
  | [] => ret tt
  | q :: rest => serve_request w q ;; serve_requests w rest
  end.

Definition is_ShellSubscriber_new (c : Call) : bool :=
  match c with ShellSubscriber_new => true | _ => false end.

(** [mShellSubscriber] was built at most once, and not at all while the
    pointer is null. *)
Definition subscriber_built_once (s : Service) : Prop :=
  (mShellSubscriber s = false ->
   filter is_ShellSubscriber_new (calls s) = [])
  /\ (List.length (filter is_ShellSubscriber_new (calls s)) <= 1)%nat.

Definition is_onStatsdInitCompleted (c : Call) : bool :=
  match c with Processor_onStatsdInitCompleted _ => true | _ => false end.

(* ================================================================= *)
(** ** Reading back what [getDataFd] wrote *)

Definition decode_big_endian_u32 (b : list uint8_t) : option Z :=
  match b with
  | [b3; b2; b1; b0] => Some (b3 * 2 ^ 24 + b2 * 2 ^ 16 + b1 * 2 ^ 8 + b0)
  | _ => None
  end.

(** The receiving end: four bytes of size, most significant first, then
    that many bytes of report; what follows is returned unread. *)
Definition read_frame (stream : list uint8_t)
  : option (list uint8_t * list uint8_t) :=
  match decode_big_endian_u32 (firstn 4 stream) with
  | Some size =>
      let rest := skipn 4 stream in
      if size <=? Z.of_nat (List.length rest)
      then Some (firstn (Z.to_nat size) rest, skipn (Z.to_nat size) rest)
      else None
  | None => None
  end.

(* ================================================================= *)
(** ** Whom a shell caller may act as *)

(** The last line of [getUidFromString], on the [int32_t] values it
    compares. *)
Definition may_act_as (mEngBuild : bool) (callingUid_t uid : Z) : Prop :=
  mEngBuild = true
  \/ to_int32 callingUid_t = uid
  \/ (to_int32 callingUid_t = AID_ROOT /\ uid = AID_SHELL).

(** What a shell command may ask of the collaborators of the binder
    surface: for one uid, only what is for a uid the caller may act as;
    for every uid at once -- removing all configurations and the files
    stored for them, writing the data to disk, reading the statistics
    without resetting them, building the shell subscriber -- what every
    shell caller may ask.  No other call is a shell command's to make. *)
Definition call_permitted (mEngBuild : bool) (callingUid_t : Z) (call : Call)
  : Prop :=
  match call with
  | ConfigManager_UpdateConfig key _ =>
      may_act_as mEngBuild callingUid_t (GetUid key)
  | ConfigManager_RemoveConfig key =>
      may_act_as mEngBuild callingUid_t (GetUid key)
  | Processor_onDumpReport key _ _ _ _ _ _ =>
      may_act_as mEngBuild callingUid_t (GetUid key)
  | Processor_GetActiveConfigs uid => may_act_as mEngBuild callingUid_t uid
  | stats_write_APP_BREADCRUMB_REPORTED uid _ _ =>
      may_act_as mEngBuild callingUid_t uid
  | ConfigManager_RemoveAllConfigs => True
  | StorageManager_deleteAllFiles dir => dir = STATS_SERVICE_DIR
  | Processor_WriteDataToDisk reason latency _ _ =>
      reason = ADB_DUMP /\ latency = NO_TIME_CONSTRAINTS
  | StatsdStats_dumpStats reset => reset = false
  | ShellSubscriber_new => True
  | _ => False
  end.

(** Every call among [made] is one a shell command may make. *)
Definition acts_allowed (mEngBuild : bool) (callingUid_t : Z)
    (made : list Call) : Prop :=
  Forall (call_permitted mEngBuild callingUid_t) made.

(* ================================================================= *)
(** ** Termination *)

Definition ALOGI (line : string) : M unit := fun s => (tt, log_line line s).

Definition Terminate (w : World) : M unit :=
  ALOGI "StatsService::Terminating" ;;
  onStatsdInitCompletedHandlerTermination ;;
  hasProcessor <- get mProcessor ;;
  if hasProcessor then
    let elapsedRealtimeNs := getElapsedRealtimeNs w in
    let wallClockNs := getWallClockNs w in
    call (Processor_WriteDataToDisk TERMINATION_SIGNAL_RECEIVED FAST
            elapsedRealtimeNs wallClockNs) ;;
    call (Processor_SaveActiveConfigsToDisk elapsedRealtimeNs) ;;
    call (Processor_SaveMetadataToDisk wallClockNs elapsedRealtimeNs)
  else ret tt.

(* ================================================================= *)
(** ** What a computation calls *)

(** [Runs e m R]: started on a service whose [mEngBuild] is [e], [m]
    appends some calls [made] to the call log, leaves [mEngBuild] as it
    was, and its result [a] satisfies [R a made]. *)
Definition Runs {A} (e : bool) (m : M A) (R : A -> list Call -> Prop) : Prop :=
  forall s, mEngBuild s = e ->
    exists made,
      calls (snd (m s)) = calls s ++ made
      /\ mEngBuild (snd (m s)) = e
      /\ R (fst (m s)) made.

(* ----------------------------------------------------------------- *)
(** *** Decimal numerals *)

(** The decimal numeral of [z], as [%d] and [%ld] print it. *)
Definition decimal (z : Z) : string := NilZero.string_of_int (Z.to_int z).

(** Horner value of a digit sequence continued from [acc]. *)
Fixpoint uint_value (d : Decimal.uint) (acc : Z) : Z :=
  match d with
  | Decimal.Nil => acc
  | Decimal.D0 d => uint_value d (acc * 10 + 0)
  | Decimal.D1 d => uint_value d (acc * 10 + 1)
  | Decimal.D2 d => uint_value d (acc * 10 + 2)
  | Decimal.D3 d => uint_value d (acc * 10 + 3)
  | Decimal.D4 d => uint_value d (acc * 10 + 4)
  | Decimal.D5 d => uint_value d (acc * 10 + 5)
  | Decimal.D6 d => uint_value d (acc * 10 + 6)
  | Decimal.D7 d => uint_value d (acc * 10 + 7)
  | Decimal.D8 d => uint_value d (acc * 10 + 8)
  | Decimal.D9 d => uint_value d (acc * 10 + 9)
  end.

(* ================================================================= *)
(** ** The shell and dumpsys surface *)

(** What the further collaborators of the shell commands, of [dump] and
    of the companion's death answer. *)
Record Platform := MkPlatform {
  checkPermissionForIds : string -> Z -> Z -> bool;
  ro_build_type : option string;  (* [None]: the property is not set *)
  getWallClockSec : Z;
  GetAllConfigKeys : list ConfigKey;
  ConfigKey_ToString : ConfigKey -> string;
  GetMetricsSize : ConfigKey -> Z;
  GetConfigReceiver : ConfigKey -> handle;
  GetActiveConfigsChangedReceiver : Z -> handle;
  getLastReportTimeNs : ConfigKey -> Z;
  sendDataBroadcast_isOk : handle -> Z -> bool;
  sendActiveConfigsChangedBroadcast_isOk : handle -> list Z -> bool;
  sAidToUidMapping : string -> option Z;   (* values are [uint32_t] *)
  getAppUid : string -> list Z;            (* a [std::set<int32_t>], in its order *)
  Pull : Z -> list Z -> Z -> option (list string);
    (* [None] when [Pull] returns false, else [ToString()] of each event *)
  ForceClearPullerCache : Z;
  writeExperimentIdsToProto : list Z -> list uint8_t;
  activeConfigs_serializeToString : bool;
  activeConfigs_ParseFromString : bool
}.

(** One thing done to a collaborator: a call of the binder surface's
    log, or one of those only this surface makes.  What a collaborator
    itself writes to a descriptor it is handed is not followed. *)
Inductive Effect :=
| Base (call : Call)
| StatsdStats_dumpStats_fd (out : Z)
| StatsdStats_noteSystemServerRestart (timeSec : Z)
| Processor_dumpStates (out : Z) (verbose : bool)
| Processor_setPrintLogs (enabled : bool)
| Processor_GetMetricsSize (key : ConfigKey)
| Processor_getLastReportTimeNs (key : ConfigKey)
| Processor_OnLogEvent_BinaryPush (trainName : string) (trainVersion : Z)
    (requiresStaging rollbackEnabled requiresLowLatencyMonitor : string)
    (state : Z) (experimentIdBytes : list uint8_t) (userId : Z)
| Processor_WriteActiveConfigsToProtoOutputStream (currentTimeNs : Z)
    (reason : DumpReportReason)
| Processor_WriteMetadataToProto (wallClockNs elapsedRealtimeNs : Z)
| Processor_resetConfigs
| Processor_SetConfigsActiveState (currentTimeNs : Z)
| Processor_SetMetadataState (wallClockNs elapsedRealtimeNs : Z)
| ConfigManager_GetAllConfigKeys
| ConfigManager_GetConfigReceiver (key : ConfigKey)
| ConfigManager_GetActiveConfigsChangedReceiver (uid : Z)
| Receiver_sendDataBroadcast (receiver : handle) (lastReportTimeNs : Z)
| Receiver_sendActiveConfigsChangedBroadcast (receiver : handle)
    (configIds : list Z)
| UidMap_printUidMap (out : Z) (includeCertificateHash : bool)
| UidMap_getAppUid (package : string)
| PullerManager_Pull (tagId : Z) (uids : list Z) (eventTimeNs : Z)
| PullerManager_ForceClearPullerCache
| ProtoOutputStream_flush (out : Z)
| ShellSubscriber_startNewSubscription_fd (in_ out timeoutSec : Z).

(** The service together with everything done so far, oldest first. *)
Record Daemon := MkDaemon { service : Service; trace : list Effect }.

(** A computation that may abort the process ([None]): an out-of-range
    [Vector::operator[]]. *)
Definition D (A : Type) : Type := Daemon -> option (A * Daemon).

Definition retD {A} (a : A) : D A := fun d => Some (a, d).

Definition bindD {A B} (m : D A) (k : A -> D B) : D B :=
  fun d => match m d with
           | Some (a, d') => k a d'
           | None => None
           end.

Declare Scope daemon_scope.
Delimit Scope daemon_scope with D.
Bind Scope daemon_scope with D.

Notation "x <- m ;; k" := (bindD m (fun x => k))
  (at level 61, m at next level, right associativity) : daemon_scope.
Notation "m ;; k" := (bindD m (fun _ => k))
  (at level 61, right associativity) : daemon_scope.
Notation "' pat <- m ;; k" :=
  (bindD m (fun x => match x with pat => k end))
  (at level 61, pat pattern, m at next level, right associativity)
  : daemon_scope.

Definition abort {A} : D A := fun _ => None.

(** A computation of the binder surface, run on the service; the calls
    it appends to the service's log are appended to the trace. *)
Definition lift {A} (m : M A) : D A := fun d =>
  let (a, s') := m (service d) in
  Some (a, MkDaemon s'
             (trace d
              ++ map Base (skipn (List.length (calls (service d))) (calls s')))).

Definition effect (x : Effect) : D unit := fun d =>
  Some (tt, MkDaemon (service d) (trace d ++ [x])).

(** [args[i]] of a [Vector<String8>]. *)
Definition arg (args : list string) (i : Z) : D string := fun d =>
  match arg_at args i with
  | Some a => Some (a, d)
  | None => None
  end.

(** [android::base::Split(s, ",")] (libbase): the pieces between the
    separators; there is always at least one. *)
Fixpoint Split (s : string) (sep : ascii) : list string :=
  match s with
  | EmptyString => [""%string]
  | String ch r =>
      if Ascii.eqb ch sep then ""%string :: Split r sep
      else match Split r sep with
           | piece :: rest => String ch piece :: rest
           | [] => [String ch ""]
           end
  end.

(** [std::string::substr(pos)], for [pos] within the string. *)
Fixpoint substr (s : string) (pos : nat) : string :=
  match pos, s with
  | O, _ => s
  | S n, String _ r => substr r n
  | S _, EmptyString => EmptyString
  end.

(** [%zu] of a [size_t]. *)
Definition fmt_zu (z : Z) : string :=
  NilZero.string_of_int (Z.to_int (to_uint64 z)).

Definition kPermissionDump : string := "android.permission.DUMP".
Definition kPermissionRegisterPullAtom : string :=
  "android.permission.REGISTER_STATS_PULL_ATOM".

Definition set_mEngBuild (b : bool) : M unit := fun s =>
  (tt, MkService b (mProcessor s) (mShellSubscriber s)
         (mStatsdInitCompletedHandlerTerminationRequested s)
         (calls s) (logcat s) (fds s)).

Section Native.

Variable c : Caller.
Variable w : World.
Variable p : Platform.

(** The static [checkPermission]. *)
Definition checkPermission (permission : string) : bool :=
  let pid := AIBinder_getCallingPid c in
  let uid := AIBinder_getCallingUid c in
  checkPermissionForIds p permission pid uid.

(** [init_build_type_callback], on [this]. *)
Definition init_build_type_callback (value : string) : M unit :=
  if String.eqb "eng" value || String.eqb "userdebug" value
  then set_mEngBuild true
  else ret tt.

(** [init_system_properties]; the property is read through the callback
    when it is set. *)
Definition init_system_properties : M unit :=
  set_mEngBuild false ;;
  match ro_build_type p with
  | Some value => init_build_type_callback value
  | None => ret tt
  end.

Definition registerNativePullAtomCallback (atomTag coolDownMillis
    timeoutMillis : Z) (additiveFields : list Z) (pullerCallback : handle)
  : M Status :=
  if negb (checkPermission kPermissionRegisterPullAtom) then
    exception EX_SECURITY
      ("Uid " ++ CLib.fmt_d (AIBinder_getCallingUid c)
       ++ " does not have the " ++ kPermissionRegisterPullAtom
       ++ " permission when registering atom " ++ CLib.fmt_d atomTag)%string
  else
    VLOG ;;
    let uid := to_int32 (AIBinder_getCallingUid c) in
    call (PullerManager_RegisterPullAtomCallback uid atomTag
            (MillisToNano w coolDownMillis) (MillisToNano w timeoutMillis)
            additiveFields pullerCallback) ;;
    ret Status_ok.

Definition unregisterNativePullAtomCallback (atomTag : Z) : M Status :=
  if negb (checkPermission kPermissionRegisterPullAtom) then
    exception EX_SECURITY
      ("Uid " ++ CLib.fmt_d (AIBinder_getCallingUid c)
       ++ " does not have the " ++ kPermissionRegisterPullAtom
       ++ " permission when unregistering atom " ++ CLib.fmt_d atomTag)%string
  else
    VLOG ;;
    let uid := to_int32 (AIBinder_getCallingUid c) in
    call (PullerManager_UnregisterPullAtomCallback uid atomTag) ;;
    ret Status_ok.

(** The loops of [cmd_print_uid_map] and [cmd_print_pulled_metrics]. *)
Fixpoint print_uids (out : Z) (uids : list Z) : M unit :=
  match uids with
  | [] => ret tt
  | uid :: rest =>
      dprintf out (CLib.fmt_d uid ++ " ")%string ;; print_uids out rest
  end.

Fixpoint print_pulled (out : Z) (s : Z) (stats : list string) : M unit :=
  match stats with
  | [] => ret tt
  | it :: rest =>
      dprintf out ("Pull from " ++ CLib.fmt_d s ++ ": " ++ it ++ nl)%string ;;
      print_pulled out s rest
  end.

End Native.

(* ----------------------------------------------------------------- *)
(** *** [dump] *)

Section ShellCommands.

Variable c : Caller.
Variable w : World.
Variable p : Platform.

Local Open Scope daemon_scope.

Definition dumpStatsdStats (out : Z) (verbose proto : bool) : D unit :=
  if proto then
    lift (call (StatsdStats_dumpStats false)) ;; (* does not reset statsdStats. *)
    lift (dprintf_bytes out (dumpStats_output w []))
  else
    effect (StatsdStats_dumpStats_fd out) ;;
    effect (Processor_dumpStates out verbose).

(** The loop of [dumpIncidentSection] over the configuration keys. *)
Fixpoint dumpIncidentSection_keys (out : Z) (keys : list ConfigKey) : D unit :=
  match keys with
  | [] => retD tt
  | configKey :: rest =>
      (* Don't include the current bucket to avoid skipping buckets. *)
      lift (call (Processor_onDumpReport configKey (getElapsedRealtimeNs w)
                    (getWallClockNs w) false (* includeCurrentBucket *)
                    false (* erase_data *) ADB_DUMP FAST)) ;;
      effect (ProtoOutputStream_flush out) ;;
      dumpIncidentSection_keys out rest
  end.

Definition dumpIncidentSection (out : Z) : D unit :=
  effect ConfigManager_GetAllConfigKeys ;;
  dumpIncidentSection_keys out (GetAllConfigKeys p).

(** [dump(fd, args, numArgs)], with [numArgs] the length of [args]. *)
Definition dump (fd : Z) (args : list string) : D Z :=
  if negb (checkPermission c p kPermissionDump) then retD PERMISSION_DENIED
  else
    let numArgs := Z.of_nat (List.length args) in
    let lastArg := numArgs - 1 in
    '(asProto, lastArg) <-
      (if 0 <=? lastArg then
         last <- arg args lastArg ;;
         if String.eqb last "--proto" (* last argument *)
         then retD (true, lastArg - 1)
         else retD (false, lastArg)
       else retD (false, lastArg)) ;;
    isMetadata <-
      (if 0 <? numArgs then
         first <- arg args 0 ;; retD (String.eqb first "--metadata")
       else retD false) ;;
    (if isMetadata then (* first argument *)
       (* Request is to dump statsd stats. *)
       verbose <-
         (if 0 <=? lastArg then
            last <- arg args lastArg ;; retD (String.eqb last "-v")
          else retD false) ;;
       dumpStatsdStats fd verbose asProto
     else
       (* Request is to dump statsd report data. *)
       if asProto then dumpIncidentSection fd
       else lift (dprintf fd
                    ("Non-proto format of stats data dump not available; "
                     ++ "see proto version." ++ nl)%string)) ;;
    retD NO_ERROR.

(* ----------------------------------------------------------------- *)
(** *** The shell commands *)

(** The end of [cmd_trigger_broadcast], from the lookup of the receiver
    on. *)
Definition send_data_broadcast (key : ConfigKey) : D Z :=
  effect (ConfigManager_GetConfigReceiver key) ;;
  let receiver := GetConfigReceiver p key in
  match receiver with
  | None => lift VLOG ;; retD UNKNOWN_ERROR
  | Some _ =>
      effect (Processor_getLastReportTimeNs key) ;;
      effect (Receiver_sendDataBroadcast receiver (getLastReportTimeNs p key)) ;;
      if sendDataBroadcast_isOk p receiver (getLastReportTimeNs p key)
      then lift VLOG ;; retD NO_ERROR
      else lift VLOG ;; retD UNKNOWN_ERROR
  end.

Definition cmd_trigger_broadcast (out : Z) (args : list string) : D Z :=
  mEngBuild <- lift (get mEngBuild) ;;
  let name : string := "" in
  let uid : Z := 0 (* declared without an initialiser *) in
  let argCount := Z.of_nat (List.length args) in
  '(good, uid, name) <-
    (if argCount =? 2 then
       (* Automatically pick the UID *)
       a1 <- arg args 1 ;;
       retD (true, to_int32 (AIBinder_getCallingUid c), a1)
     else if argCount =? 3 then
       a1 <- arg args 1 ;;
       let '(good, uid) :=
         getUidFromString mEngBuild (AIBinder_getCallingUid c) a1 uid in
       (if negb good
        then lift (dprintf out
               ("Invalid UID. Note that the metrics can only be dumped for "
                ++ "other UIDs on eng or userdebug builds." ++ nl)%string)
        else retD tt) ;;
       a2 <- arg args 2 ;;
       retD (good, uid, a2)
     else retD (false, uid, name)) ;;
  if negb good then
    lift (print_cmd_help out) ;;
    retD UNKNOWN_ERROR
  else
    send_data_broadcast (MkConfigKey uid (StrToInt64 w name)).

(** The loop over the ids that follow [--configs]; [None] is the early
    return on an id that does not parse. *)
Fixpoint parse_config_ids (out : Z) (ids : list string) (configIds : list Z)
  : D (option (list Z)) :=
  match ids with
  | [] => retD (Some configIds)
  | a :: rest =>
      let '(configID, endp) := CLib.strtoll a 10 in
      if at_start a endp || negb (String.eqb endp "") then
        lift (dprintf out ("Error parsing config ID." ++ nl)%string) ;;
        retD None
      else
        lift VLOG ;;
        parse_config_ids out rest (configIds ++ [configID])
  end.

(** The end of [cmd_trigger_active_config_broadcast], from the lookup of
    the receiver on. *)
Definition send_active_configs_broadcast (uid : Z) (configIds : list Z) : D Z :=
  effect (ConfigManager_GetActiveConfigsChangedReceiver uid) ;;
  let receiver := GetActiveConfigsChangedReceiver p uid in
  match receiver with
  | None => lift VLOG ;; retD UNKNOWN_ERROR
  | Some _ =>
      effect (Receiver_sendActiveConfigsChangedBroadcast receiver configIds) ;;
      if sendActiveConfigsChangedBroadcast_isOk p receiver configIds
      then lift VLOG ;; retD NO_ERROR
      else lift VLOG ;; retD UNKNOWN_ERROR
  end.

(** [mProcessor->GetActiveConfigs(uid, configIds)] on the empty
    [configIds]. *)
Definition actual_active_configs (uid : Z) : D (list Z) :=
  lift (call (Processor_GetActiveConfigs uid)) ;;
  retD (GetActiveConfigs w uid []).

Definition cmd_trigger_active_config_broadcast (out : Z) (args : list string)
  : D Z :=
  mEngBuild <- lift (get mEngBuild) ;;
  let argCount := Z.of_nat (List.length args) in
  let uid : Z := 0 (* declared without an initialiser *) in
  let configIds : list Z := [] in
  (* [None] stands for the early [return UNKNOWN_ERROR]. *)
  picked <-
    (if argCount =? 1 then
       (* Automatically pick the uid and send a broadcast that has no
          active configs. *)
       let uid := to_int32 (AIBinder_getCallingUid c) in
       configIds <- actual_active_configs uid ;;
       retD (Some (uid, configIds))
     else
       let curArg := 1 in
       a1 <- arg args curArg ;;
       chosen <-
         (if String.prefix "--uid=" a1 then
            let uidStr := substr a1 6 in
            let '(good, uid) :=
              getUidFromString mEngBuild (AIBinder_getCallingUid c) uidStr uid in
            if negb good then
              lift (dprintf out
                      ("Invalid UID. Note that the config can only be set for "
                       ++ "other UIDs on eng or userdebug builds." ++ nl)%string) ;;
              retD None
            else retD (Some (uid, curArg + 1))
          else retD (Some (to_int32 (AIBinder_getCallingUid c), curArg))) ;;
       match chosen with
       | None => retD None
       | Some (uid, curArg) =>
           specified <-
             (if curArg =? argCount then retD false
              else a <- arg args curArg ;; retD (String.eqb a "--configs")) ;;
           if negb specified then
             lift VLOG ;;
             configIds <- actual_active_configs uid ;;
             retD (Some (uid, configIds))
           else
             (* Flag specified, use the given list of configs. *)
             let curArg := curArg + 1 in
             parsed <- parse_config_ids out (skipn (Z.to_nat curArg) args)
                         configIds ;;
             match parsed with
             | None => retD None
             | Some configIds => retD (Some (uid, configIds))
             end
       end) ;;
  match picked with
  | None => retD UNKNOWN_ERROR
  | Some (uid, configIds) => send_active_configs_broadcast uid configIds
  end.

(** The loop of [cmd_print_stats] over the configuration keys. *)
Fixpoint print_metrics_sizes (out : Z) (configs : list ConfigKey) : D unit :=
  match configs with
  | [] => retD tt
  | key :: rest =>
      effect (Processor_GetMetricsSize key) ;;
      lift (dprintf out
              ("Config " ++ ConfigKey_ToString p key ++ " uses "
               ++ fmt_zu (GetMetricsSize p key) ++ " bytes" ++ nl)%string) ;;
      print_metrics_sizes out rest
  end.

Definition cmd_print_stats (out : Z) (args : list string) : D Z :=
  let argCount := Z.of_nat (List.length args) in
  last <- arg args (argCount - 1) ;;
  let proto := String.eqb "--proto" last in
  (if proto then
     lift (call (StatsdStats_dumpStats false)) ;; (* does not reset statsdStats. *)
     lift (dprintf_bytes out (dumpStats_output w []))
   else
     effect ConfigManager_GetAllConfigKeys ;;
     print_metrics_sizes out (GetAllConfigKeys p) ;;
     effect (StatsdStats_dumpStats_fd out)) ;;
  retD NO_ERROR.

Definition cmd_print_uid_map (out : Z) (args : list string) : D Z :=
  (if (1 <? List.length args)%nat then
     a1 <- arg args 1 ;;
     if String.eqb "--with_certificate_hash" a1 then
       effect (UidMap_printUidMap out true) (* includeCertificateHash *)
     else
       let pkg := a1 in
       effect (UidMap_getAppUid pkg) ;;
       let uids := getAppUid p pkg in
       lift (dprintf out (pkg ++ " -> [ ")%string) ;;
       lift (print_uids out uids) ;;
       lift (dprintf out ("]" ++ nl)%string)
   else
     effect (UidMap_printUidMap out false)) ;;
  retD NO_ERROR.

Definition cmd_write_data_to_disk (out : Z) : D Z :=
  lift (dprintf out ("Writing data to disk" ++ nl)%string) ;;
  lift (call (Processor_WriteDataToDisk ADB_DUMP NO_TIME_CONSTRAINTS
                (getElapsedRealtimeNs w) (getWallClockNs w))) ;;
  retD NO_ERROR.

Definition cmd_log_binary_push (out : Z) (args : list string) : D Z :=
  (* Security checks are done in the sendBinaryPushStateChanged atom. *)
  let argCount := Z.of_nat (List.length args) in
  if negb (argCount =? 7) && negb (argCount =? 8) then
    lift (dprintf out ("Incorrect number of argument supplied" ++ nl)%string) ;;
    retD UNKNOWN_ERROR
  else
    trainName <- arg args 1 ;;
    a2 <- arg args 2 ;;
    let trainVersion := fst (CLib.strtoll a2 10) in
    a6 <- arg args 6 ;;
    let state := CLib.atoi a6 in
    experimentIds <-
      (if argCount =? 8 then
         a7 <- arg args 7 ;;
         retD (map (fun experimentIdString =>
                      fst (CLib.strtoll experimentIdString 10))
                   (Split a7 ","))
       else retD []) ;;
    lift (dprintf out ("Logging BinaryPushStateChanged" ++ nl)%string) ;;
    let experimentIdBytes := writeExperimentIdsToProto p experimentIds in
    a3 <- arg args 3 ;;
    a4 <- arg args 4 ;;
    a5 <- arg args 5 ;;
    effect (Processor_OnLogEvent_BinaryPush trainName trainVersion a3 a4 a5
              state experimentIdBytes 0) ;;
    retD NO_ERROR.

Definition cmd_print_pulled_metrics (out : Z) (args : list string) : D Z :=
  a1 <- arg args 1 ;;
  let s := CLib.atoi a1 in
  uids <-
    (if (2 <? List.length args)%nat then
       package <- arg args 2 ;;
       match sAidToUidMapping p package with
       | Some uid => retD [to_int32 uid]
       | None =>
           effect (UidMap_getAppUid package) ;;
           retD (getAppUid p package)
       end
     else retD [AID_SYSTEM]) ;;
  effect (PullerManager_Pull s uids (getElapsedRealtimeNs w)) ;;
  match Pull p s uids (getElapsedRealtimeNs w) with
  | Some stats =>
      lift (print_pulled out s stats) ;;
      lift (dprintf out
              ("Pull from " ++ CLib.fmt_d s ++ ": Received "
               ++ fmt_zu (Z.of_nat (List.length stats)) ++ " elements" ++ nl)%string) ;;
      retD NO_ERROR
  | None => retD UNKNOWN_ERROR
  end.

Definition cmd_dump_memory_info (out : Z) : D Z :=
  lift (dprintf out ("meminfo not available." ++ nl)%string) ;;
  retD NO_ERROR.

Definition cmd_clear_puller_cache (out : Z) : D Z :=
  lift VLOG ;;
  if checkPermission c p kPermissionDump then
    effect PullerManager_ForceClearPullerCache ;;
    let cleared := ForceClearPullerCache p in
    lift (dprintf out
            ("Puller removed " ++ CLib.fmt_d cleared ++ " cached data!" ++ nl)%string) ;;
    retD NO_ERROR
  else retD PERMISSION_DENIED.

Definition cmd_print_logs (out : Z) (args : list string) : D Z :=
  status <- lift (checkUid c AID_ROOT) ;;
  if negb (isOk status) then retD PERMISSION_DENIED
  else
    lift VLOG ;;
    enabled <-
      (if (2 <=? List.length args)%nat then
         a1 <- arg args 1 ;; retD (negb (CLib.atoi a1 =? 0))
       else retD true) ;;
    effect (Processor_setPrintLogs enabled) ;;
    retD NO_ERROR.

(** A command of the binder surface's model that may abort. *)
Definition lift_abortable {A} (m : M (option A)) : D A :=
  r <- lift m ;;
  match r with
  | Some a => retD a
  | None => abort
  end.

(** [handleShellCommand(in, out, err, argv, argc)], with [argc] the
    length of [argv]. *)
Definition handleShellCommand (in_ out err : Z) (argv : list string) : D Z :=
  let uid := AIBinder_getCallingUid c in
  if negb (uid =? AID_ROOT) && negb (uid =? AID_SHELL) then
    retD PERMISSION_DENIED
  else
    let utf8Args := argv in
    match utf8Args with
    | arg0 :: _ =>
        (* adb shell cmd stats config ... *)
        if String.eqb arg0 "config" then
          lift (cmd_config c w in_ out err utf8Args)
        else if String.eqb arg0 "print-uid-map" then
          cmd_print_uid_map out utf8Args
        else if String.eqb arg0 "dump-report" then
          lift_abortable (cmd_dump_report c w out utf8Args)
        else if String.eqb arg0 "pull-source" && (1 <? List.length argv)%nat then
          cmd_print_pulled_metrics out utf8Args
        else if String.eqb arg0 "send-broadcast" then
          cmd_trigger_broadcast out utf8Args
        else if String.eqb arg0 "print-stats" then
          cmd_print_stats out utf8Args
        else if String.eqb arg0 "meminfo" then
          cmd_dump_memory_info out
        else if String.eqb arg0 "write-to-disk" then
          cmd_write_data_to_disk out
        else if String.eqb arg0 "log-app-breadcrumb" then
          lift (cmd_log_app_breadcrumb c out utf8Args)
        else if String.eqb arg0 "log-binary-push" then
          cmd_log_binary_push out utf8Args
        else if String.eqb arg0 "clear-puller-cache" then
          cmd_clear_puller_cache out
        else if String.eqb arg0 "print-logs" then
          cmd_print_logs out utf8Args
        else if String.eqb arg0 "send-active-configs" then
          cmd_trigger_active_config_broadcast out utf8Args
        else if String.eqb arg0 "data-subscribe" then
          lift initShellSubscriber ;;
          let timeoutSec : Z := -1 in
          timeoutSec <-
            (if (2 <=? List.length argv)%nat then
               a1 <- arg utf8Args 1 ;; retD (CLib.atoi a1)
             else retD timeoutSec) ;;
          effect (ShellSubscriber_startNewSubscription_fd in_ out timeoutSec) ;;
          retD NO_ERROR
        else
          lift (print_cmd_help out) ;;
          retD NO_ERROR
    | [] =>
        lift (print_cmd_help out) ;;
        retD NO_ERROR
    end.

(* ----------------------------------------------------------------- *)
(** *** The death of the companion service *)

Definition statsCompanionServiceDiedImpl : D unit :=
  lift (ALOGW "statscompanion service died") ;;
  effect (StatsdStats_noteSystemServerRestart (getWallClockSec p)) ;;
  lift onStatsdInitCompletedHandlerTermination ;;
  hasProcessor <- lift (get mProcessor) ;;
  (if hasProcessor then
     lift (ALOGW "Reset statsd upon system server restarts.") ;;
     let systemServerRestartNs := getElapsedRealtimeNs w in
     let wallClockNs := getWallClockNs w in
     effect (Processor_WriteActiveConfigsToProtoOutputStream
               systemServerRestartNs STATSCOMPANION_DIED) ;;
     effect (Processor_WriteMetadataToProto wallClockNs systemServerRestartNs) ;;
     lift (call (Processor_WriteDataToDisk STATSCOMPANION_DIED FAST
                   systemServerRestartNs wallClockNs)) ;;
     effect Processor_resetConfigs ;;
     (if activeConfigs_serializeToString p then
        if activeConfigs_ParseFromString p then
          effect (Processor_SetConfigsActiveState systemServerRestartNs)
        else retD tt
      else retD tt) ;;
     effect (Processor_SetMetadataState wallClockNs systemServerRestartNs)
   else retD tt) ;;
  lift (call (AlarmMonitor_setStatsCompanionService Anomaly None)) ;;
  lift (call (AlarmMonitor_setStatsCompanionService Periodic None)) ;;
  lift (call (PullerManager_SetStatsCompanionService None)).

End ShellCommands.

(* ================================================================= *)
(** ** Reading the trace *)

(** What a shell command may bring about, effect by effect.
    - For one uid (a configuration updated, removed by key or dumped, a
      receiver looked up, the active configurations asked for, a
      breadcrumb written): only for a uid the caller may act as; and a
      broadcast goes only to a receiver looked up in this way.
    - Switching the processor's log printing: root only.
    - Clearing the puller cache: only with the dump permission.
    - For every uid at once, or for none: what [call_permitted] lists,
      the configuration keys and the size of each, the statistics and
      the uid map printed, a package's uids, a pull, a binary-push event
      and a subscription on the command's descriptors; these every shell
      caller may ask for.
    - Nothing else. *)
Definition permitted (e : bool) (c : Caller) (p : Platform) (x : Effect)
  : Prop :=
  let C := AIBinder_getCallingUid c in
  match x with
  | Base call => call_permitted e C call
  | ConfigManager_GetConfigReceiver key => may_act_as e C (GetUid key)
  | Processor_getLastReportTimeNs key => may_act_as e C (GetUid key)
  | Receiver_sendDataBroadcast receiver lastReportTimeNs =>
      exists key,
        may_act_as e C (GetUid key)
        /\ receiver = GetConfigReceiver p key
        /\ lastReportTimeNs = getLastReportTimeNs p key
  | ConfigManager_GetActiveConfigsChangedReceiver uid => may_act_as e C uid
  | Receiver_sendActiveConfigsChangedBroadcast receiver _ =>
      exists uid,
        may_act_as e C uid
        /\ receiver = GetActiveConfigsChangedReceiver p uid
  | Processor_setPrintLogs _ => C = AID_ROOT
  | PullerManager_ForceClearPullerCache =>
      checkPermission c p kPermissionDump = true
  | ConfigManager_GetAllConfigKeys => True
  | Processor_GetMetricsSize _ => True
  | StatsdStats_dumpStats_fd _ => True
  | UidMap_printUidMap _ _ => True
  | UidMap_getAppUid _ => True
  | PullerManager_Pull _ _ _ => True
  | Processor_OnLogEvent_BinaryPush _ _ _ _ _ _ _ _ => True
  | ShellSubscriber_startNewSubscription_fd _ _ _ => True
  | _ => False
  end.

(** What a dump may do: hand descriptors to the collaborators that
    print, and ask for reports and statistics without erasing or
    resetting them. *)
Definition read_only (x : Effect) : Prop :=
  match x with
  | Base (Processor_onDumpReport _ _ _ include_current_bucket erase_data _ _) =>
      include_current_bucket = false /\ erase_data = false
  | Base (StatsdStats_dumpStats reset) => reset = false
  | StatsdStats_dumpStats_fd _ => True
  | Processor_dumpStates _ _ => True
  | ConfigManager_GetAllConfigKeys => True
  | ProtoOutputStream_flush _ => True
  | _ => False
  end.

Definition is_status (status : Z) : Prop :=
  status = NO_ERROR \/ status = UNKNOWN_ERROR \/ status = PERMISSION_DENIED.

(** [Safe P e m Q]: started on a daemon whose [mEngBuild] is [e], [m]
    does not abort, appends effects that all satisfy [P] to the trace,
    leaves [mEngBuild] as it was, and its result satisfies [Q]. *)
Definition Safe {A} (P : Effect -> Prop) (e : bool) (m : D A)
    (Q : A -> Prop) : Prop :=
  forall d, mEngBuild (service d) = e ->
    exists a d' made,
      m d = Some (a, d')
      /\ trace d' = trace d ++ made
      /\ mEngBuild (service d') = e
      /\ Forall P made
      /\ Q a.

(* ================================================================= *)
(** ** Sample surroundings of the shell surface *)

Module ShellScenario.

(** A release build on which the shell holds the dump permission, two
    configurations are installed, and uid 10123 has a receiver for
    active-configuration changes. *)
Definition platform : Platform :=
  MkPlatform
    (fun permission _ uid =>
       String.eqb permission kPermissionDump && (uid =? AID_SHELL))
    (Some "user")
    1700000000
    [MkConfigKey 10123 1; MkConfigKey 10456 2]
    (fun key => ("(" ++ CLib.fmt_d (GetUid key) ++ " "
                 ++ CLib.fmt_d (GetId key) ++ ")")%string)
    (fun _ => 64)
    (fun _ => None)
    (fun uid => if uid =? 10123 then Some 1 else None)
    (fun _ => 0)
    (fun _ _ => true)
    (fun _ _ => true)
    (fun _ => None)
    (fun _ => [])
    (fun _ _ _ => None)
    0
    (fun _ => [])
    true
    true.

(** The same, where every caller holds every permission. *)
Definition permissive : Platform :=
  MkPlatform (fun _ _ _ => true) (ro_build_type platform)
    (getWallClockSec platform) (GetAllConfigKeys platform)
    (ConfigKey_ToString platform) (GetMetricsSize platform)
    (GetConfigReceiver platform) (GetActiveConfigsChangedReceiver platform)
    (getLastReportTimeNs platform) (sendDataBroadcast_isOk platform)
    (sendActiveConfigsChangedBroadcast_isOk platform)
    (sAidToUidMapping platform) (getAppUid platform) (Pull platform)
    (ForceClearPullerCache platform) (writeExperimentIdsToProto platform)
    (activeConfigs_serializeToString platform)
    (activeConfigs_ParseFromString platform).

(** The daemon just constructed. *)
Definition boot (engBuild : bool) : Daemon :=
  MkDaemon (Scenario.fresh engBuild 1000) [].

End ShellScenario.

(** [Always m a made]: from every daemon, [m] returns [a] and appends
    exactly [made] to the trace. *)
Definition Always {A} (m : D A) (a : A) (made : list Effect) : Prop :=
  forall d, exists d', m d = Some (a, d') /\ trace d' = trace d ++ made.

(** [Triple pre m post]: from a daemon whose service satisfies [pre],
    [m] does not abort, and its result, the effects it appends to the
    trace and the service it leaves satisfy [post]. *)
Definition Triple {A} (pre : Service -> Prop) (m : D A)
    (post : A -> list Effect -> Service -> Prop) : Prop :=
  forall d, pre (service d) ->
    exists a d' made,
      m d = Some (a, d')
      /\ trace d' = trace d ++ made
      /\ post a made (service d').

(* ================================================================= *)
(** ** Everything that reaches the service *)

(** One thing that reaches the service from outside or from its own
    threads: a binder call of either family, a shell command, a dump
    request, a native client registering or unregistering a puller, the
    death of the companion service, the deferred init completion, the
    termination signal. *)
Inductive Incoming :=
| Binder (q : Request)
| ShellCommand (c : Caller) (in_ out err : Z) (argv : list string)
| DumpRequest (c : Caller) (fd : Z) (args : list string)
| RegisterNativePuller (c : Caller) (atomTag coolDownMillis timeoutMillis : Z)
    (additiveFields : list Z) (pullerCallback : handle)
| UnregisterNativePuller (c : Caller) (atomTag : Z)
| CompanionDied
| InitCompleted (mInitEventDelaySecs : Z) (concurrent : option Z)
    (wakeLatency : Z)
| TerminationSignal.

Definition receive (w : World) (p : Platform) (i : Incoming) : D unit :=
  match i with
  | Binder q => bindD (lift (serve_request w q)) (fun _ => retD tt)
  | ShellCommand c in_ out err argv =>
      bindD (handleShellCommand c w p in_ out err argv) (fun _ => retD tt)
  | DumpRequest c fd args => bindD (dump c w p fd args) (fun _ => retD tt)
  | RegisterNativePuller c atomTag coolDownMillis timeoutMillis additiveFields
      pullerCallback =>
      bindD (lift (registerNativePullAtomCallback c w p atomTag coolDownMillis
                     timeoutMillis additiveFields pullerCallback))
        (fun _ => retD tt)
  | UnregisterNativePuller c atomTag =>
      bindD (lift (unregisterNativePullAtomCallback c p atomTag))
        (fun _ => retD tt)
  | CompanionDied => statsCompanionServiceDiedImpl w p
  | InitCompleted mInitEventDelaySecs concurrent wakeLatency =>
      lift (onStatsdInitCompleted w mInitEventDelaySecs concurrent wakeLatency)
  | TerminationSignal => lift (Terminate w)
  end.

Fixpoint receive_all (w : World) (p : Platform) (incoming : list Incoming)
  : D unit :=
  match incoming with
  | [] => retD tt
  | i :: rest => bindD (receive w p i) (fun _ => receive_all w p rest)
  end.

(** [m] neither builds the shell subscriber nor touches the pointer to
    it. *)
Definition LeavesSubscriber {A} (m : M A) : Prop :=
  forall s,
    mShellSubscriber (snd (m s)) = mShellSubscriber s
    /\ filter is_ShellSubscriber_new (calls (snd (m s)))
       = filter is_ShellSubscriber_new (calls s).

(** [m], unless it aborts, keeps [subscriber_built_once]. *)
Definition Preserves {A} (m : D A) : Prop :=
  forall d, subscriber_built_once (service d) ->
    match m d with
    | Some (_, d') => subscriber_built_once (service d')
    | None => True
    end.

(** [m] run on the service, the trace left as it is. *)
Definition untraced {A} (m : M A) : D A := fun d =>
  let (a, s') := m (service d) in
  Some (a, MkDaemon s' (trace d)).

(** [m] returns: it does not read past its arguments. *)
Definition Total {A} (m : D A) : Prop :=
  forall d, exists a d', m d = Some (a, d').

(* ================================================================= *)
(** * Properties *)

(** ** Integer casts *)

Lemma to_int32_cases (z : Z) :
  0 <= z < 2 ^ 32 ->
  (z < 2 ^ 31 /\ to_int32 z = z) \/ (2 ^ 31 <= z /\ to_int32 z = z - 2 ^ 32).
Proof.
  intros Hz. unfold to_int32.
  destruct (Z_lt_ge_dec z (2 ^ 31)) as [Hlt | Hge].
  - left. split; [assumption |].
    rewrite Z.mod_small by lia. lia.
  - right. split; [lia |].
    replace (z + 2 ^ 31) with ((z - 2 ^ 31) + 1 * 2 ^ 32) by lia.
    rewrite Z.mod_add by lia.
    rewrite Z.mod_small by lia. lia.
Qed.

Lemma to_int32_small (z : Z) : 0 <= z < 2 ^ 31 -> to_int32 z = z.
Proof.
  intros Hz. destruct (to_int32_cases z) as [[_ E] | [Hge _]]; lia.
Qed.

Lemma to_uint32_to_int32 (z : Z) :
  0 <= z < 2 ^ 32 -> to_uint32 (to_int32 z) = z.
Proof.
  intros Hz. unfold to_uint32.
  destruct (to_int32_cases z Hz) as [[Hlt E] | [Hge E]]; rewrite E.
  - apply Z.mod_small; lia.
  - replace (z - 2 ^ 32) with (z + (-1) * 2 ^ 32) by lia.
    rewrite Z.mod_add by lia. apply Z.mod_small; lia.
Qed.

Lemma to_int32_eqb (a b : Z) :
  0 <= a < 2 ^ 32 -> 0 <= b < 2 ^ 32 ->
  (to_int32 a =? to_int32 b) = (a =? b).
Proof.
  intros Ha Hb.
  destruct (Z.eqb_spec a b) as [E | NE].
  - subst b. apply Z.eqb_refl.
  - apply Z.eqb_neq.
    destruct (to_int32_cases a Ha) as [[? Ea] | [? Ea]];
      destruct (to_int32_cases b Hb) as [[? Eb] | [? Eb]];
      rewrite Ea, Eb; lia.
Qed.

Lemma to_int32_eqb_small (a k : Z) :
  0 <= a < 2 ^ 32 -> 0 <= k < 2 ^ 31 -> (to_int32 a =? k) = (a =? k).
Proof.
  intros Ha Hk. rewrite <- (to_int32_small k Hk) at 1.
  apply to_int32_eqb; lia.
Qed.

(** ** C2: the impersonation rule of the shell surface *)

(** What [getUidFromString] answers on a string that [strtol] reads to
    its end as a value in the [uid_t] range. *)
Lemma getUidFromString_in_range (mEngBuild : bool) (C : Z) (s : string)
    (uid0 T : Z) :
  0 <= C < 2 ^ 32 ->
  s <> "" ->
  CLib.strtol s 0 = (T, "") ->
  0 <= T < 2 ^ 32 ->
  getUidFromString mEngBuild C s uid0
  = (mEngBuild || (C =? T) || ((C =? AID_ROOT) && (T =? AID_SHELL)),
     to_int32 T).
Proof.
  intros HC Hs Hparse HT.
  unfold getUidFromString.
  destruct s as [| ch s']; [congruence |].
  rewrite Hparse.
  assert (Hneg : (T <? 0) = false) by (apply Z.ltb_ge; lia).
  assert (Hu64 : to_uint64 T = T) by (unfold to_uint64; apply Z.mod_small; lia).
  rewrite Hneg, Hu64, (to_uint32_to_int32 T HT), Z.eqb_refl. cbn [negb orb].
  rewrite (to_int32_eqb C T HC HT).
  rewrite (to_int32_eqb_small C AID_ROOT HC) by (unfold AID_ROOT; lia).
  rewrite (to_int32_eqb_small T AID_SHELL HT) by (unfold AID_SHELL; lia).
  reflexivity.
Qed.

Lemma strtol_range (s : string) (base : Z) :
  LONG_MIN <= fst (CLib.strtol s base) <= LONG_MAX.
Proof.
  unfold CLib.strtol.
  destruct (CLib.take_sign (CLib.skip_space s)) as [neg s2].
  destruct (CLib.take_base base s2) as [b s3].
  destruct (CLib.digits b 0 false s3) as [[mag any] rest].
  destruct any; cbn [fst].
  - unfold CLib.clamp, LONG_MIN, LONG_MAX. lia.
  - unfold LONG_MIN, LONG_MAX. lia.
Qed.

(** X10. [getUidFromString] answers no, and leaves [uid] alone, on the
    empty string, on text that [strtol] does not read to its end as a
    number, on a negative number and on one beyond the [uid_t] range,
    whatever the build type and the caller. *)
Lemma getUidFromString_not_a_uid (mEngBuild : bool) (C : Z) (s : string)
    (uid0 : Z) :
  s = ""
  \/ snd (CLib.strtol s 0) <> ""
  \/ fst (CLib.strtol s 0) < 0
  \/ 2 ^ 32 <= fst (CLib.strtol s 0) ->
  getUidFromString mEngBuild C s uid0 = (false, uid0).
Proof.
  intros Hbad. unfold getUidFromString.
  destruct s as [| ch s']; [reflexivity |].
  pose proof (strtol_range (String ch s') 0) as Hrange.
  destruct (CLib.strtol (String ch s') 0) as [T rest]. cbn [fst snd] in *.
  destruct rest as [| r rest']; [| reflexivity].
  destruct Hbad as [Hbad | [Hbad | Hbad]]; try congruence.
  destruct (Z.ltb_spec T 0) as [Hneg | Hpos]; [reflexivity |].
  destruct Hbad as [Hbad | Hbig]; [lia |].
  cbn [orb].
  assert (Hu64 : to_uint64 T = T).
  { unfold to_uint64. apply Z.mod_small. unfold LONG_MAX in Hrange. lia. }
  assert (Hu32 : to_uint32 (to_int32 T) < 2 ^ 32).
  { unfold to_uint32. apply Z.mod_pos_bound. lia. }
  rewrite Hu64.
  replace (T =? to_uint32 (to_int32 T)) with false
    by (symmetry; apply Z.eqb_neq; lia).
  reflexivity.
Qed.

(** C2. For a caller whose transport uid is [C], and a target string
    that is a well-formed number [T] of the [uid_t] range (read by
    [strtol] to its end), [getUidFromString] -- and so [getUidFromArgs],
    which hands it [args[uidArgIndex]] -- accepts if and only if
    [mEngBuild] is set, or [C = T], or [C] is root and [T] is shell; the
    accepted target is stored in [uid].  The witness below instantiates
    it at debug-build false/true, caller 1000, target 2000. *)
Theorem impersonation_rule (mEngBuild : bool) (C : Z) (args : list string)
    (uidArgIndex : nat) (s : string) (uid0 T : Z) :
  0 <= C < 2 ^ 32 ->
  nth_error args uidArgIndex = Some s ->
  s <> "" ->
  CLib.strtol s 0 = (T, "") ->
  0 <= T < 2 ^ 32 ->
  (fst (getUidFromString mEngBuild C s uid0) = true
   <-> (mEngBuild = true \/ C = T \/ (C = AID_ROOT /\ T = AID_SHELL)))
  /\ snd (getUidFromString mEngBuild C s uid0) = to_int32 T
  /\ getUidFromArgs mEngBuild C args uidArgIndex uid0
     = Some (getUidFromString mEngBuild C s uid0).
Proof.
  intros HC Harg Hs Hparse HT.
  rewrite (getUidFromString_in_range mEngBuild C s uid0 T HC Hs Hparse HT).
  cbn [fst snd]. split; [| split].
  - rewrite !orb_true_iff, andb_true_iff, !Z.eqb_eq. tauto.
  - reflexivity.
  - unfold getUidFromArgs. rewrite Harg.
    rewrite (getUidFromString_in_range mEngBuild C s uid0 T HC Hs Hparse HT).
    reflexivity.
Qed.

Lemma impersonation_rule_witness :
  (fst (getUidFromString false 1000 "2000" 0) = true
   <-> (false = true \/ 1000 = 2000 \/ (1000 = AID_ROOT /\ 2000 = AID_SHELL)))
  /\ (fst (getUidFromString true 1000 "2000" 0) = true
      <-> (true = true \/ 1000 = 2000 \/ (1000 = AID_ROOT /\ 2000 = AID_SHELL))).
Proof.
  split.
  - apply (impersonation_rule false 1000 ["dump-report"; "2000"; "42"] 1
             "2000" 0 2000); try reflexivity; try lia; discriminate.
  - apply (impersonation_rule true 1000 ["dump-report"; "2000"; "42"] 1
             "2000" 0 2000); try reflexivity; try lia; discriminate.
Defined.

(** The two cases the impersonation rule is tested on. *)
Example impersonation_denied_on_user_build :
  getUidFromString false 1000 "2000" 0 = (false, 2000).
Proof. reflexivity. Qed.

Example impersonation_allowed_on_debug_build :
  getUidFromString true 1000 "2000" 0 = (true, 2000).
Proof. reflexivity. Qed.

Example root_may_act_as_shell :
  getUidFromString false 0 "2000" 0 = (true, 2000).
Proof. reflexivity. Qed.

(** ** Identity checks *)

Lemma checkUid_allowed (c : Caller) (expectedUid : Z) (s : Service) :
  uid_allowed c expectedUid = true ->
  checkUid c expectedUid s = (Status_ok, s).
Proof.
  unfold uid_allowed, checkUid. intros ->. reflexivity.
Qed.

Lemma checkUid_denied (c : Caller) (expectedUid : Z) (s : Service) :
  uid_allowed c expectedUid = false ->
  checkUid c expectedUid s
  = (Status_exception EX_SECURITY
       (uid_mismatch (AIBinder_getCallingUid c) expectedUid),
     security_logged (uid_mismatch (AIBinder_getCallingUid c) expectedUid) s).
Proof.
  unfold uid_allowed, checkUid. intros ->. reflexivity.
Qed.

Lemma enforce_denied {A} (check : M Status) (leave : Status -> A)
    (body : M A) (s s' : Service) (code : ExceptionCode) (msg : string) :
  check s = (Status_exception code msg, s') ->
  enforce check leave body s = (leave (Status_exception code msg), s').
Proof.
  intros H. unfold enforce, bind. rewrite H. reflexivity.
Qed.

Lemma enforce_allowed {A} (check : M Status) (leave : Status -> A)
    (body : M A) (s : Service) :
  check s = (Status_ok, s) ->
  enforce check leave body s = body s.
Proof.
  intros H. unfold enforce, bind. rewrite H. reflexivity.
Qed.

Lemma enforce_unfold {A} (check : M Status) (leave : Status -> A)
    (body : M A) (s : Service) :
  enforce check leave body s
  = let (status, s') := check s in
    if isOk status then body s' else (leave status, s').
Proof.
  unfold enforce, bind. destruct (check s) as [status s'].
  destruct (isOk status); reflexivity.
Qed.

Lemma serve_denied (c : Caller) (w : World) (r : SystemRpc) (s : Service) :
  uid_allowed c AID_SYSTEM = false ->
  serve c w r s
  = (Status_exception EX_SECURITY
       (uid_mismatch (AIBinder_getCallingUid c) AID_SYSTEM),
     output_before r,
     security_logged (uid_mismatch (AIBinder_getCallingUid c) AID_SYSTEM) s).
Proof.
  intros Hden.
  pose proof (checkUid_denied c AID_SYSTEM s Hden) as Hchk.
  destruct r; cbn [serve output_before];
    unfold no_reply, reply_with, bind;
    unfold informAllUidData, informOnePackage, informOnePackageRemoved,
      informAnomalyAlarmFired, informAlarmForSubscriberTriggeringFired,
      informPollAlarmFired, systemRunning, informDeviceShutdown,
      statsCompanionReady, bootCompleted, getData, getDataFd, getMetadata,
      addConfiguration, removeDataFetchOperation, setDataFetchOperation,
      setActiveConfigsChangedOperation, removeActiveConfigsChangedOperation,
      removeConfiguration, setBroadcastSubscriber, unsetBroadcastSubscriber,
      allPullersFromBootRegistered, registerPullAtomCallback,
      unregisterPullAtomCallback, getRegisteredExperimentIds,
      updateProperties, setRestrictedMetricsChangedOperation,
      removeRestrictedMetricsChangedOperation, querySql,
      ENFORCE_UID, ENFORCE_UID_out;
    try (unfold bind, VLOG, ret);
    rewrite (enforce_denied _ _ _ _ _ _ _ Hchk); reflexivity.
Qed.

Ltac unfold_rpc :=
  unfold informAllUidData, informOnePackage, informOnePackageRemoved,
    informAnomalyAlarmFired, informAlarmForSubscriberTriggeringFired,
    informPollAlarmFired, systemRunning, informDeviceShutdown,
    statsCompanionReady, bootCompleted, getData, getDataFd, getMetadata,
    addConfiguration, removeDataFetchOperation, setDataFetchOperation,
    setActiveConfigsChangedOperation, removeActiveConfigsChangedOperation,
    removeConfiguration, setBroadcastSubscriber, unsetBroadcastSubscriber,
    allPullersFromBootRegistered, registerPullAtomCallback,
    unregisterPullAtomCallback, getRegisteredExperimentIds,
    updateProperties, setRestrictedMetricsChangedOperation,
    removeRestrictedMetricsChangedOperation, querySql,
    addSubscription, removeSubscription, flushSubscription,
    ENFORCE_UID, ENFORCE_UID_out, ENFORCE_SID.

Ltac unfold_monad :=
  unfold getDataChecked, addConfigurationChecked, sayHiToStatsCompanion,
    onStatsdInitCompletedHandlerTermination, initShellSubscriber, exception,
    WriteFully, dprintf, dprintf_c, call, ALOGE, ALOGW, VLOG, get,
    set_mShellSubscriber, set_TerminationRequested, bind, ret.

Ltac split_tests :=
  repeat (cbn;
          match goal with
          | |- context [if ?b then _ else _] => destruct b eqn:?
          | |- context [match ?x with Some _ => _ | None => _ end] =>
              destruct x eqn:?
          | |- context [match ?x with nil => _ | cons _ _ => _ end] =>
              destruct x eqn:?
          end).

Lemma serve_allowed_not_security (c : Caller) (w : World) (r : SystemRpc)
    (s : Service) :
  uid_allowed c AID_SYSTEM = true ->
  getExceptionCode (fst (fst (serve c w r s))) <> Some EX_SECURITY.
Proof.
  intros Hok.
  pose proof (fun s => checkUid_allowed c AID_SYSTEM s Hok) as Hchk.
  destruct r; cbn [serve]; unfold no_reply, reply_with; unfold_rpc;
    unfold bind at 1; try (unfold bind at 1, VLOG at 1, ret at 1);
    rewrite (enforce_allowed _ _ _ _ (Hchk _));
    unfold_monad; split_tests; cbn; discriminate.
Qed.

(** ** C4: the privileged system identity *)

(** C4. Each binder method that requires the system identity, called by
    a transport uid that is neither [AID_SYSTEM] nor [AID_ROOT], returns
    the security error whose message is
    ["UID <actual> is not expected UID <expected>"] (both printed with
    [%d]), leaves any output parameter as it was and does nothing but
    log that message: no call reaches a collaborator, no descriptor is
    written, no field of the service changes.  For the system uid and
    for root the check passes and the method does not answer with a
    security error. *)
Theorem system_identity_enforced (c : Caller) (w : World) (r : SystemRpc)
    (s : Service) :
  let uid := AIBinder_getCallingUid c in
  let msg := ("UID " ++ CLib.fmt_d uid ++ " is not expected UID 1000")%string in
  if (uid =? AID_SYSTEM) || (uid =? AID_ROOT)
  then checkUid c AID_SYSTEM s = (Status_ok, s)
       /\ getExceptionCode (fst (fst (serve c w r s))) <> Some EX_SECURITY
  else serve c w r s
       = (Status_exception EX_SECURITY msg, output_before r,
          log_line (msg ++ " (-1)")%string s)
       /\ calls (snd (serve c w r s)) = calls s
       /\ fds (snd (serve c w r s)) = fds s
       /\ mShellSubscriber (snd (serve c w r s)) = mShellSubscriber s
       /\ mStatsdInitCompletedHandlerTerminationRequested (snd (serve c w r s))
          = mStatsdInitCompletedHandlerTerminationRequested s
       /\ logcat (snd (serve c w r s)) = logcat s ++ [(msg ++ " (-1)")%string].
Proof.
  intros uid msg.
  destruct ((uid =? AID_SYSTEM) || (uid =? AID_ROOT)) eqn:Hallowed.
  - split.
    + apply checkUid_allowed. exact Hallowed.
    + apply serve_allowed_not_security. exact Hallowed.
  - rewrite (serve_denied c w r s Hallowed).
    repeat split; reflexivity.
Qed.

(** The message names the caller: for a uid below [2^31], [%d] prints
    its decimal digits. *)
Lemma fmt_d_uid (uid : Z) :
  0 <= uid < 2 ^ 31 ->
  CLib.fmt_d uid = NilZero.string_of_int (Z.to_int uid).
Proof.
  intros H. unfold CLib.fmt_d. rewrite to_int32_small by assumption.
  reflexivity.
Qed.

Example getData_from_an_app_is_refused :
  getData Scenario.app_10123 (Scenario.world [1; 2; 3]) 42 10123 []
    (Scenario.fresh false 100)
  = (Status_exception EX_SECURITY "UID 10123 is not expected UID 1000", [],
     log_line "UID 10123 is not expected UID 1000 (-1)"
       (Scenario.fresh false 100)).
Proof. reflexivity. Qed.

(** ** C5: the trusted tracing label *)

Lemma checkSid_spec (c : Caller) (w : World) (s : Service) :
  checkSid c w kTracedProbesSid s
  = if (AIBinder_getCallingUid c =? AID_ROOT)
       || match looked_up_sid c w with
          | Some sid => String.eqb kTracedProbesSid sid
          | None => false
          end
    then (Status_ok, s)
    else (Status_exception EX_SECURITY
            (sid_mismatch (looked_up_sid c w) kTracedProbesSid),
          security_logged (sid_mismatch (looked_up_sid c w) kTracedProbesSid) s).
Proof.
  unfold checkSid, looked_up_sid.
  destruct (AIBinder_getCallingUid c =? AID_ROOT); [reflexivity |].
  cbn [orb].
  destruct (if sid_api_available w then AIBinder_getCallingSid c else None)
    as [sid |]; [| reflexivity].
  destruct (String.eqb kTracedProbesSid sid); reflexivity.
Qed.




(** ** C1: which uid keys a configuration *)

(** The transport uid of the system server is 1000; the configuration
    it asks for on behalf of uid 10123 is looked up under 10123, the
    [callingUid] argument, not under 1000. *)
Lemma config_key_is_not_the_transport_uid :
  AIBinder_getCallingUid Scenario.system_server = 1000
  /\ calls (snd (getData Scenario.system_server (Scenario.world [1; 2; 3])
                   42 10123 [] (Scenario.fresh false 100)))
     = [Processor_onDumpReport (MkConfigKey 10123 42) 5000000000
          1700000000000000000 false true GET_DATA_CALLED FAST]
  /\ GetUid (MkConfigKey 10123 42)
     <> AIBinder_getCallingUid Scenario.system_server.
Proof.
  split; [reflexivity | split; [reflexivity | discriminate]].
Qed.

Ltac keys_of_made :=
  let call := fresh "call" in
  let k' := fresh "k'" in
  let Hin := fresh "Hin" in
  let Hk := fresh "Hk" in
  intros call k' Hin Hk; cbn in Hin;
  repeat (destruct Hin as [<- | Hin]; [cbn in Hk; intuition congruence |]);
  contradiction.

(** C1, as the code has it. For the calls that take a configuration id
    and a [callingUid] argument (getData, getDataFd, addConfiguration,
    removeConfiguration, set/removeDataFetchOperation,
    set/unsetBroadcastSubscriber), every [ConfigKey] handed to a
    collaborator is [ConfigKey(callingUid, key)], built from the
    [callingUid] argument; a call that returns ok has used that key.
    The transport uid decides admission only: unless it is the system
    uid or root, no collaborator is called at all. *)
Theorem config_key_from_declared_uid (c : Caller) (w : World) (r : SystemRpc)
    (s : Service) (k : ConfigKey) :
  declared_key r = Some k ->
  exists made : list Call,
    calls (snd (serve c w r s)) = calls s ++ made
    /\ (forall call k', In call made -> In k' (config_keys call) -> k' = k)
    /\ (fst (fst (serve c w r s)) = Status_ok ->
        exists call, In call made /\ In k (config_keys call))
    /\ (uid_allowed c AID_SYSTEM = false -> made = []).
Proof.
  intros Hkey.
  destruct (uid_allowed c AID_SYSTEM) eqn:Hallowed.
  - pose proof (fun s => checkUid_allowed c AID_SYSTEM s Hallowed) as Hchk.
    destruct r; cbn [declared_key] in Hkey; try discriminate;
      injection Hkey as <-;
      cbn [serve]; unfold no_reply, reply_with; unfold_rpc; unfold enforce;
      unfold_monad; rewrite !Hchk;
      split_tests; cbn; rewrite <- ?app_assoc; cbn;
      eexists; (split; [try reflexivity; symmetry; apply app_nil_r |]);
      (split; [keys_of_made |]);
      (split; [| discriminate]);
      intros E; try discriminate E;
      eexists; (split; cbn; try (left; reflexivity)).
  - rewrite (serve_denied c w r s Hallowed). cbn [snd fst].
    exists []. split; [symmetry; apply app_nil_r |].
    split; [intros ? ? [] |]. split; [discriminate | reflexivity].
Qed.

Lemma config_key_from_declared_uid_witness :
  exists made : list Call,
    calls (snd (serve Scenario.system_server (Scenario.world [1; 2; 3])
                  (Rpc_removeConfiguration 42 10123) (Scenario.fresh false 100)))
    = calls (Scenario.fresh false 100) ++ made
    /\ (forall call k', In call made -> In k' (config_keys call) ->
                        k' = MkConfigKey 10123 42)
    /\ (fst (fst (serve Scenario.system_server (Scenario.world [1; 2; 3])
                    (Rpc_removeConfiguration 42 10123)
                    (Scenario.fresh false 100))) = Status_ok ->
        exists call, In call made /\ In (MkConfigKey 10123 42) (config_keys call))
    /\ (uid_allowed Scenario.system_server AID_SYSTEM = false -> made = []).
Proof.
  apply (config_key_from_declared_uid Scenario.system_server
           (Scenario.world [1; 2; 3]) (Rpc_removeConfiguration 42 10123)
           (Scenario.fresh false 100) (MkConfigKey 10123 42)).
  reflexivity.
Defined.

(** ** Byte order of the length prefix *)

Lemma testbit_byte (x j : Z) :
  Z.testbit (Z.land x 255) j = Z.testbit x j && ((0 <=? j) && (j <? 8)).
Proof.
  rewrite Z.land_spec. change 255 with (Z.ones 8).
  rewrite Z.testbit_ones by lia. reflexivity.
Qed.

Lemma testbit_shiftl_byte (x a b p : Z) :
  0 <= a -> 0 <= b -> 0 <= p ->
  Z.testbit (Z.shiftl (Z.land (Z.shiftr x a) 255) b) p
  = Z.testbit x (p - b + a) && ((b <=? p) && (p <? b + 8)).
Proof.
  intros Ha Hb Hp.
  rewrite Z.shiftl_spec by lia. rewrite testbit_byte.
  destruct (Z.leb_spec b p) as [Hle | Hlt].
  - rewrite Z.shiftr_spec by lia.
    replace (0 <=? p - b) with true by (symmetry; apply Z.leb_le; lia).
    replace (p - b <? 8) with (p <? b + 8)
      by (destruct (Z.ltb_spec (p - b) 8), (Z.ltb_spec p (b + 8)); lia || reflexivity).
    reflexivity.
  - replace (0 <=? p - b) with false by (symmetry; apply Z.leb_gt; lia).
    cbn [andb]. rewrite !andb_false_r. reflexivity.
Qed.

Lemma htonl_testbit (n p : Z) :
  0 <= p ->
  Z.testbit (htonl n) p
  = Z.testbit n (p - 24) && ((24 <=? p) && (p <? 32))
    || (Z.testbit n (p - 16 + 8) && ((16 <=? p) && (p <? 24))
        || (Z.testbit n (p - 8 + 16) && ((8 <=? p) && (p <? 16))
            || Z.testbit n (p + 24) && ((0 <=? p) && (p <? 8)))).
Proof.
  intros Hp. unfold htonl.
  rewrite !Z.lor_spec.
  rewrite <- (Z.shiftr_0_r n) at 1.
  rewrite !testbit_shiftl_byte by lia.
  rewrite testbit_byte, Z.shiftr_spec by lia.
  rewrite Z.add_0_r. reflexivity.
Qed.

Lemma byte_of_htonl (n i : Z) :
  0 <= i < 4 ->
  Z.land (Z.shiftr (htonl n) (8 * i)) 255 = Z.land (Z.shiftr n (24 - 8 * i)) 255.
Proof.
  intros Hi. apply Z.bits_inj'. intros j Hj.
  rewrite !testbit_byte.
  destruct (Z.ltb_spec j 8) as [Hlt | Hge];
    [| rewrite !andb_false_r; reflexivity].
  rewrite !Z.shiftr_spec by lia.
  rewrite htonl_testbit by lia.
  replace (0 <=? j) with true by (symmetry; apply Z.leb_le; lia).
  assert (Hcases : i = 0 \/ i = 1 \/ i = 2 \/ i = 3) by lia.
  destruct Hcases as [-> | [-> | [-> | ->]]];
    repeat match goal with
      | |- context [?a <=? ?b] =>
          destruct (Z.leb_spec a b); try lia
      | |- context [?a <? ?b] =>
          destruct (Z.ltb_spec a b); try lia
      end;
    cbn [andb orb]; rewrite ?andb_false_r, ?andb_true_r, ?orb_false_r;
    cbn [andb orb]; f_equal; lia.
Qed.

Lemma object_bytes_of_htonl (n : Z) :
  0 <= n < 2 ^ 32 ->
  object_bytes_u32 (htonl n) = big_endian_u32 n.
Proof.
  intros Hn. unfold object_bytes_u32, big_endian_u32.
  rewrite <- (Z.shiftr_0_r (htonl n)) at 1.
  change 0 with (8 * 0) at 1.
  change 8 with (8 * 1) at 2. change 16 with (8 * 2). change 24 with (8 * 3).
  rewrite !byte_of_htonl by lia.
  change 255 with (Z.ones 8).
  rewrite !Z.land_ones by lia.
  rewrite !Z.shiftr_div_pow2 by lia.
  cbn. rewrite Z.div_1_r. reflexivity.
Qed.

(** ** C10: an empty configuration *)

(** C10. [addConfiguration] with an empty byte vector, from an admitted
    caller: [ParseFromArray] is not consulted, a default-constructed
    [StatsdConfig] is installed under [ConfigKey(callingUid, key)] and the
    call returns ok.  The illegal-argument error is returned exactly for
    the non-empty vectors that fail to parse. *)
Theorem addConfiguration_empty_is_accepted (c : Caller) (w : World)
    (key callingUid : Z) (config : list uint8_t) (s : Service) :
  uid_allowed c AID_SYSTEM = true ->
  addConfiguration c w key [] callingUid s
  = (Status_ok,
     snd (call (ConfigManager_UpdateConfig (MkConfigKey callingUid key)
                  StatsdConfig_default) s))
  /\ (getExceptionCode (fst (addConfiguration c w key config callingUid s))
      = Some EX_ILLEGAL_ARGUMENT
      <-> config <> [] /\ StatsdConfig_parses w config = false).
Proof.
  intros Hallowed.
  pose proof (fun s => checkUid_allowed c AID_SYSTEM s Hallowed) as Hchk.
  unfold addConfiguration, ENFORCE_UID.
  rewrite !(enforce_allowed _ _ _ _ (Hchk _)).
  split; [reflexivity |].
  unfold addConfigurationChecked, bind.
  destruct config as [| b rest].
  - cbn. split; [discriminate | intros [H _]; contradiction].
  - destruct (StatsdConfig_parses w (b :: rest)); cbn.
    + split; [discriminate | intros [_ H]; discriminate].
    + split; [intros _; split; [discriminate | reflexivity] | reflexivity].
Qed.

Lemma addConfiguration_empty_is_accepted_witness :
  addConfiguration Scenario.system_server (Scenario.rejecting_world []) 42 []
    10123 (Scenario.fresh false 100)
  = (Status_ok,
     snd (call (ConfigManager_UpdateConfig (MkConfigKey 10123 42)
                  StatsdConfig_default) (Scenario.fresh false 100)))
  /\ (getExceptionCode
        (fst (addConfiguration Scenario.system_server
                (Scenario.rejecting_world []) 42 [8; 1] 10123
                (Scenario.fresh false 100)))
      = Some EX_ILLEGAL_ARGUMENT
      <-> [8; 1] <> [] /\
          StatsdConfig_parses (Scenario.rejecting_world []) [8; 1] = false).
Proof.
  apply (addConfiguration_empty_is_accepted Scenario.system_server
           (Scenario.rejecting_world []) 42 10123 [8; 1]
           (Scenario.fresh false 100)).
  reflexivity.
Defined.

Example addConfiguration_empty_installs_default :
  calls (snd (addConfiguration Scenario.system_server
                (Scenario.rejecting_world []) 42 [] 10123
                (Scenario.fresh false 100)))
  = [ConfigManager_UpdateConfig (MkConfigKey 10123 42) StatsdConfig_default].
Proof. reflexivity. Qed.

(** ** C3: the report through a descriptor *)

Lemma set_fd_same (fd : Z) (d : Descriptor) (s : Service) :
  fds (set_fd fd d s) fd = d.
Proof. cbn. rewrite Z.eqb_refl. reflexivity. Qed.

Lemma set_fd_other (fd other : Z) (d : Descriptor) (s : Service) :
  other <> fd -> fds (set_fd fd d s) other = fds s other.
Proof. intros H. cbn. apply Z.eqb_neq in H. rewrite H. reflexivity. Qed.

(** Two writes in a row take what one write of both pieces would. *)
Lemma raw_write_twice (d : Descriptor) (a b : list uint8_t) :
  (List.length a <= room d)%nat ->
  written (raw_write (raw_write d a) b)
  = written d ++ firstn (room d) (a ++ b).
Proof.
  intros H. cbn.
  rewrite (firstn_all2 a) by assumption.
  rewrite firstn_app, (firstn_all2 a) by assumption.
  rewrite <- app_assoc. reflexivity.
Qed.

Lemma raw_write_short (d : Descriptor) (a b : list uint8_t) :
  (room d < List.length a)%nat ->
  written (raw_write d a) = written d ++ firstn (room d) (a ++ b).
Proof.
  intros H. cbn. rewrite firstn_app.
  replace (room d - List.length a)%nat with 0%nat by lia.
  cbn. rewrite app_nil_r. reflexivity.
Qed.

(** [getDataFd] for an admitted caller, statement by statement. *)
Lemma getDataFd_admitted (c : Caller) (w : World) (key callingUid fd : Z)
    (s : Service) :
  uid_allowed c AID_SYSTEM = true ->
  let report := onDumpReport_output w (MkConfigKey callingUid key) [] in
  let size := Z.of_nat (List.length report) in
  let prefix := object_bytes_u32 (htonl (to_uint32 size)) in
  let s1 := snd (call (Processor_onDumpReport (MkConfigKey callingUid key)
                         (getElapsedRealtimeNs w) (getWallClockNs w) false true
                         GET_DATA_CALLED FAST) s) in
  let d := fds s fd in
  let s2 := set_fd fd (raw_write d prefix) s1 in
  let s3 := set_fd fd (raw_write (raw_write d prefix) report) s2 in
  getDataFd c w key callingUid fd s
  = if INT32_MAX <=? size
    then (Status_exception EX_ILLEGAL_STATE "Report size is infeasible big.",
          log_line "Report size is infeasible big. (-5)"
            (log_line "Report size is infeasible big and can not be returned"
               s1))
    else if (4 <=? room d)%nat
    then if (List.length report <=? room (raw_write d prefix))%nat
         then (Status_ok, s3)
         else (Status_exception EX_ILLEGAL_STATE
                 "Failed to write report data to file descriptor",
               log_line "Failed to write report data to file descriptor (-5)"
                 s3)
    else (Status_exception EX_ILLEGAL_STATE
            "Failed to write report data size to file descriptor",
          log_line "Failed to write report data size to file descriptor (-5)"
            s2).
Proof.
  intros Hallowed report size prefix s1 d s2 s3.
  pose proof (fun s => checkUid_allowed c AID_SYSTEM s Hallowed) as Hchk.
  unfold getDataFd, ENFORCE_UID.
  rewrite (enforce_allowed _ _ _ _ (Hchk _)).
  unfold getDataChecked, bind, VLOG, ret, exception, ALOGE, WriteFully.
  cbn [fst snd call]. fold report. fold size. fold prefix.
  destruct (INT32_MAX <=? size); [reflexivity |].
  change (List.length prefix) with 4%nat.
  cbn [fds]. fold d.
  destruct (4 <=? room d)%nat; cbn [negb]; [| reflexivity].
  cbv beta. rewrite !set_fd_same.
  destruct (List.length report <=? room (raw_write d prefix))%nat;
    reflexivity.
Qed.

(** C3, as the code has it. For an admitted caller [getDataFd] fetches
    the same report, with the same call on the processor, as [getData].
    When the report has [INT32_MAX] (2^31 - 1) bytes or more it returns
    the illegal-state error and leaves every descriptor untouched.
    Below that size it writes, as far as the descriptor takes them, the
    4-byte big-endian size followed by the report bytes: when everything
    fits the descriptor has received exactly prefix and report and the
    call returns ok; when a write fails the call also returns the
    illegal-state error, with part of the output already written.  No
    other descriptor is touched. *)
Theorem getDataFd_prefix_and_report (c : Caller) (w : World)
    (key callingUid fd : Z) (s : Service) :
  uid_allowed c AID_SYSTEM = true ->
  let report := onDumpReport_output w (MkConfigKey callingUid key) [] in
  let size := Z.of_nat (List.length report) in
  let before := fds s fd in
  let result := getDataFd c w key callingUid fd s in
  fst (getData c w key callingUid [] s) = (Status_ok, report)
  /\ calls (snd result) = calls (snd (getData c w key callingUid [] s))
  /\ (INT32_MAX <= size ->
      fst result
      = Status_exception EX_ILLEGAL_STATE "Report size is infeasible big."
      /\ fds (snd result) = fds s)
  /\ (size < INT32_MAX ->
      written (fds (snd result) fd)
      = written before ++ firstn (room before) (big_endian_u32 size ++ report)
      /\ (forall other, other <> fd -> fds (snd result) other = fds s other)
      /\ ((4 + List.length report <= room before)%nat ->
          fst result = Status_ok
          /\ written (fds (snd result) fd)
             = written before ++ big_endian_u32 size ++ report)
      /\ ((room before < 4 + List.length report)%nat ->
          getExceptionCode (fst result) = Some EX_ILLEGAL_STATE)).
Proof.
  intros Hallowed report size before result.
  pose proof (fun s => checkUid_allowed c AID_SYSTEM s Hallowed) as Hchk.
  assert (HgetData :
    getData c w key callingUid [] s
    = (Status_ok, report,
       snd (call (Processor_onDumpReport (MkConfigKey callingUid key)
                    (getElapsedRealtimeNs w) (getWallClockNs w) false true
                    GET_DATA_CALLED FAST) s))).
  { unfold getData, ENFORCE_UID_out.
    rewrite (enforce_allowed _ _ _ _ (Hchk _)). reflexivity. }
  rewrite HgetData. cbn [fst snd].
  split; [reflexivity |].
  subst result.
  rewrite (getDataFd_admitted c w key callingUid fd s Hallowed).
  fold report. fold size. fold before.
  destruct (Z.leb_spec INT32_MAX size) as [Hbig | Hsmall].
  - split; [reflexivity |].
    split; [intros _; split; reflexivity | intros H; lia].
  - assert (Hrange : 0 <= size < 2 ^ 32) by (unfold INT32_MAX in Hsmall; lia).
    assert (Hsize : to_uint32 size = size)
      by (unfold to_uint32; apply Z.mod_small; exact Hrange).
    rewrite Hsize, (object_bytes_of_htonl size Hrange).
    assert (Hlen : List.length (big_endian_u32 size) = 4%nat) by reflexivity.
    destruct (Nat.leb_spec 4 (room before)) as [Hroom4 | Hroom4].
    + (* the prefix goes through *)
      assert (Hroom' : room (raw_write before (big_endian_u32 size))
                       = (room before - 4)%nat) by reflexivity.
      rewrite Hroom'.
      destruct (Nat.leb_spec (List.length report) (room before - 4))
        as [Hfits | Hshort].
      * split; [reflexivity |]. split; [intros H; lia |]. intros _.
        cbn [fst snd]. unfold log_line; cbn [fds]. rewrite !set_fd_same.
        assert (Hall : written (raw_write (raw_write before (big_endian_u32 size)) report)
                       = written before ++ big_endian_u32 size ++ report).
        { rewrite raw_write_twice by (rewrite Hlen; exact Hroom4).
          rewrite firstn_all2; [reflexivity |].
          rewrite length_app, Hlen. lia. }
        split; [| split; [| split]].
        -- rewrite raw_write_twice by (rewrite Hlen; exact Hroom4). reflexivity.
        -- intros other Hother. rewrite !set_fd_other by assumption. reflexivity.
        -- intros _. split; [reflexivity | exact Hall].
        -- intros H. lia.
      * split; [reflexivity |]. split; [intros H; lia |]. intros _.
        cbn [fst snd]. unfold log_line; cbn [fds]. rewrite !set_fd_same.
        split; [| split; [| split]].
        -- rewrite raw_write_twice by (rewrite Hlen; exact Hroom4). reflexivity.
        -- intros other Hother. rewrite !set_fd_other by assumption. reflexivity.
        -- intros H. lia.
        -- intros _. reflexivity.
    + (* the prefix itself does not fit *)
      split; [reflexivity |]. split; [intros H; lia |]. intros _.
      cbn [fst snd]. unfold log_line; cbn [fds]. rewrite !set_fd_same.
      split; [| split; [| split]].
      * apply raw_write_short. rewrite Hlen. exact Hroom4.
      * intros other Hother. rewrite !set_fd_other by assumption. reflexivity.
      * intros H. lia.
      * intros _. reflexivity.
Qed.

Lemma getDataFd_prefix_and_report_witness :
  fst (getDataFd Scenario.system_server (Scenario.world [1; 2; 3]) 42 10123 3
         (Scenario.fresh false 100)) = Status_ok
  /\ written (fds (snd (getDataFd Scenario.system_server
                          (Scenario.world [1; 2; 3]) 42 10123 3
                          (Scenario.fresh false 100))) 3)
     = [0; 0; 0; 3; 1; 2; 3].
Proof.
  destruct (getDataFd_prefix_and_report Scenario.system_server
              (Scenario.world [1; 2; 3]) 42 10123 3 (Scenario.fresh false 100)
              eq_refl) as (_ & _ & _ & Hsmall).
  destruct (Hsmall eq_refl) as (_ & _ & Hfits & _).
  destruct (Hfits ltac:(cbn; lia)) as [Hok Hwritten].
  split; [exact Hok | exact Hwritten].
Defined.

(** A three-byte report, far below any 32-bit limit, into a descriptor
    that takes two more bytes: the call returns the illegal-state error,
    and two bytes of the prefix have been written. *)
Lemma getDataFd_state_error_without_oversize :
  fst (getDataFd Scenario.system_server (Scenario.world [7; 7; 7]) 42 10123 3
         (Scenario.fresh false 2))
  = Status_exception EX_ILLEGAL_STATE
      "Failed to write report data size to file descriptor"
  /\ written (fds (snd (getDataFd Scenario.system_server
                          (Scenario.world [7; 7; 7]) 42 10123 3
                          (Scenario.fresh false 2))) 3)
     = [0; 0]
  /\ Z.of_nat (List.length (onDumpReport_output (Scenario.world [7; 7; 7])
                              (MkConfigKey 10123 42) [])) = 3.
Proof.
  split; [reflexivity | split; reflexivity].
Qed.

(** ** C6: shutting down the log-reading thread *)

Module IngestionFacts.
Import Ingestion.

Lemma inv_init : Inv init.
Proof.
  constructor; cbn; try discriminate; try contradiction; congruence.
Qed.

Ltac other_pc :=
  solve [ intros; match goal with
                  | H : _ = _ |- _ => discriminate H
                  end ].

Ltac in_snoc H :=
  apply in_app_or in H as [H | [<- | []]].

Lemma inv_step (a : Action) (s s' : Sys) :
  Inv s -> step a s = Some s' -> Inv s'.
Proof.
  intros [Hflag Hqueue Hcheck Hproc Hsub Hdisp] Hstep.
  destruct a; cbn in Hstep.
  - (* the socket listener pushes *)
    injection Hstep as <-. constructor; cbn; auto.
    intros e' Hin Hstop. in_snoc Hin; [auto | discriminate].
  - (* the reader *)
    unfold reader_step in Hstep.
    destruct (reader s) as [| e | e | e |] eqn:Hpc; try discriminate.
    + (* waitPop returns *)
      destruct (queue s) as [| e q] eqn:Hq; [discriminate |].
      injection Hstep as <-. constructor; cbn; auto; try other_pc.
      * intros e' Hin. apply Hqueue. right. exact Hin.
      * intros e' [= <-] Hstop.
        apply (Hqueue e); [left; reflexivity | exact Hstop].
    + (* the stop check *)
      injection Hstep as <-.
      destruct (mIsStopRequested s) eqn:Hstopflag;
        constructor; cbn; auto; try other_pc.
      intros e' [= <-].
      destruct (from_stop e) eqn:Hstop; [| reflexivity].
      pose proof (Hcheck e eq_refl Hstop) as Hpushed.
      assert (Habs : false = true)
        by (apply Hflag; rewrite Hpushed; discriminate).
      discriminate Habs.
    + (* OnLogEvent *)
      injection Hstep as <-. constructor; cbn; auto; try other_pc.
      * intros e' [= <-]. apply Hproc. reflexivity.
      * intros d Hin. in_snoc Hin; [auto |]. cbn. apply Hproc. reflexivity.
    + (* the shell subscriber *)
      injection Hstep as <-. constructor; cbn; auto; try other_pc.
      destruct (shellSubscriber s); [| exact Hdisp].
      intros d Hin. in_snoc Hin; [auto |]. cbn. apply Hsub. reflexivity.
  - (* stopReadingLogs *)
    unfold stopper_step in Hstep.
    destruct (stopper s) eqn:Hst; try discriminate;
      injection Hstep as <-; constructor; cbn; auto.
    + intros e Hin Hstop. destruct (Hqueue e Hin Hstop); discriminate.
    + intros e Hpc Hstop. pose proof (Hcheck e Hpc Hstop). discriminate.
    + intros _. apply Hflag. discriminate.
    + intros e Hin Hstop. in_snoc Hin.
      * destruct (Hqueue e Hin Hstop); discriminate.
      * split; reflexivity.
  - (* initShellSubscriber *)
    injection Hstep as <-. constructor; cbn; auto.
Qed.

Lemma inv_run (acts : list Action) (s s' : Sys) :
  Inv s -> run acts s = Some s' -> Inv s'.
Proof.
  revert s. induction acts as [| a acts IH]; intros s Hinv Hrun; cbn in Hrun.
  - injection Hrun as <-. exact Hinv.
  - destruct (step a s) as [s1 |] eqn:Hstep; [| discriminate].
    apply (IH s1); [apply (inv_step a s); assumption | exact Hrun].
Qed.

Lemma leaving_step (a : Action) (s s' : Sys) :
  leaving s -> step a s = Some s' ->
  leaving s' /\ dispatched s' = dispatched s.
Proof.
  intros [Hflag Hpc] Hstep. unfold leaving.
  destruct a; cbn in Hstep.
  - injection Hstep as <-. cbn. auto.
  - unfold reader_step in Hstep.
    destruct Hpc as [[e Hpc] | Hpc]; rewrite Hpc in Hstep; [| discriminate].
    injection Hstep as <-. cbn. rewrite Hflag. auto.
  - unfold stopper_step in Hstep.
    destruct (stopper s); try discriminate; injection Hstep as <-; cbn; auto.
  - injection Hstep as <-. cbn. auto.
Qed.

Lemma leaving_run (acts : list Action) (s s' : Sys) :
  leaving s -> run acts s = Some s' -> dispatched s' = dispatched s.
Proof.
  revert s. induction acts as [| a acts IH]; intros s Hl Hrun; cbn in Hrun.
  - injection Hrun as <-. reflexivity.
  - destruct (step a s) as [s1 |] eqn:Hstep; [| discriminate].
    destruct (leaving_step a s s1 Hl Hstep) as [Hl1 Hd1].
    rewrite <- Hd1. apply (IH s1); assumption.
Qed.

Lemma from_stop_origin (e : Item) :
  from_stop e = false <-> item_origin e = FromSocket.
Proof.
  unfold from_stop. destruct (item_origin e); split; congruence.
Qed.

End IngestionFacts.

(** C6. In every execution of the reader thread, the socket listener,
    [stopReadingLogs] and [initShellSubscriber], interleaved in any
    order from the service as constructed:
    - nothing that [stopReadingLogs] pushed is ever dispatched, to the
      processor or to the shell subscriber;
    - when [waitPop()] has returned and the stop flag is set, the
      reader's next step leaves the loop, and nothing more is ever
      dispatched, whatever the threads do afterwards;
    - an event of [stopReadingLogs] is in the queue only with the flag
      already set, and it is the sentinel [LogEvent(0, 0)];
    - [stopReadingLogs] is these two statements in this order: store
      the flag, then push one sentinel. *)
Theorem stop_is_flag_then_sentinel (acts : list Ingestion.Action)
    (s : Ingestion.Sys) :
  Ingestion.run acts Ingestion.init = Some s ->
  (forall sink e, In (sink, e) (Ingestion.dispatched s) ->
                  Ingestion.item_origin e = Ingestion.FromSocket)
  /\ (forall e, Ingestion.reader s = Ingestion.AtStopCheck e ->
                Ingestion.mIsStopRequested s = true ->
        (exists s', Ingestion.reader_step s = Some s'
                    /\ Ingestion.reader s' = Ingestion.Returned
                    /\ Ingestion.dispatched s' = Ingestion.dispatched s)
        /\ (forall more s', Ingestion.run more s = Some s' ->
                            Ingestion.dispatched s' = Ingestion.dispatched s))
  /\ (forall e, In e (Ingestion.queue s) ->
                Ingestion.item_origin e = Ingestion.FromStopReadingLogs ->
                Ingestion.mIsStopRequested s = true
                /\ Ingestion.item_event e = Ingestion.stop_event)
  /\ (Ingestion.stopper s = Ingestion.NotCalled ->
      exists s1 s2,
        Ingestion.stopper_step s = Some s1
        /\ Ingestion.mIsStopRequested s1 = true
        /\ Ingestion.queue s1 = Ingestion.queue s
        /\ Ingestion.stopper_step s1 = Some s2
        /\ Ingestion.queue s2
           = Ingestion.queue s
             ++ [Ingestion.MkItem Ingestion.stop_event
                   Ingestion.FromStopReadingLogs]
        /\ Ingestion.stopper_step s2 = None).
Proof.
  intros Hrun.
  pose proof (IngestionFacts.inv_run acts _ s IngestionFacts.inv_init Hrun)
    as [Hflag Hqueue Hcheck Hproc Hsub Hdisp].
  split; [| split; [| split]].
  - intros sink e Hin. apply IngestionFacts.from_stop_origin.
    apply (Hdisp (sink, e) Hin).
  - intros e Hpc Hstop. split.
    + unfold Ingestion.reader_step. rewrite Hpc, Hstop.
      eexists. split; [reflexivity |]. split; reflexivity.
    + intros more s' Hmore.
      apply (IngestionFacts.leaving_run more s s'); [| exact Hmore].
      split; [exact Hstop | left; exists e; exact Hpc].
  - intros e Hin Horigin.
    assert (Hstop : Ingestion.from_stop e = true)
      by (unfold Ingestion.from_stop; rewrite Horigin; reflexivity).
    destruct (Hqueue e Hin Hstop) as [Hpushed Hev].
    split; [| exact Hev]. apply Hflag. rewrite Hpushed. discriminate.
  - intros Hnot. unfold Ingestion.stopper_step. rewrite Hnot.
    eexists. eexists. cbn.
    repeat split; reflexivity.
Qed.

(** One real event is served, then the service is stopped while the
    reader waits: the sentinel wakes the reader, which finds the flag
    set and leaves the loop; only the real event was dispatched. *)
Lemma stop_is_flag_then_sentinel_witness :
  exists s',
    Ingestion.reader_step
      (Ingestion.MkSys [] true false
         (Ingestion.AtStopCheck
            (Ingestion.MkItem Ingestion.stop_event
               Ingestion.FromStopReadingLogs))
         Ingestion.Pushed
         [(Ingestion.ToProcessor,
           Ingestion.MkItem (MkLogEvent 10123 77 [10; 3]) Ingestion.FromSocket)])
    = Some s'
    /\ Ingestion.reader s' = Ingestion.Returned
    /\ Ingestion.dispatched s'
       = [(Ingestion.ToProcessor,
           Ingestion.MkItem (MkLogEvent 10123 77 [10; 3]) Ingestion.FromSocket)].
Proof.
  destruct (stop_is_flag_then_sentinel
              [Ingestion.Socket_push (MkLogEvent 10123 77 [10; 3]);
               Ingestion.Reader_step; Ingestion.Reader_step;
               Ingestion.Reader_step; Ingestion.Reader_step;
               Ingestion.Stopper_step; Ingestion.Stopper_step;
               Ingestion.Reader_step]
              (Ingestion.MkSys [] true false
                 (Ingestion.AtStopCheck
                    (Ingestion.MkItem Ingestion.stop_event
                       Ingestion.FromStopReadingLogs))
                 Ingestion.Pushed
                 [(Ingestion.ToProcessor,
                   Ingestion.MkItem (MkLogEvent 10123 77 [10; 3])
                     Ingestion.FromSocket)])
              eq_refl) as (_ & Hleave & _).
  destruct (Hleave _ eq_refl eq_refl) as [Hnext _].
  exact Hnext.
Defined.

Example reader_returns_on_the_sentinel :
  Ingestion.run
    [Ingestion.Stopper_step; Ingestion.Stopper_step;
     Ingestion.Reader_step; Ingestion.Reader_step]
    Ingestion.init
  = Some (Ingestion.MkSys [] true false Ingestion.Returned Ingestion.Pushed []).
Proof. reflexivity. Qed.

(** A flag alone does not wake the reader: with an empty queue it stays
    in [waitPop()]. *)
Example flag_alone_leaves_the_reader_blocked :
  Ingestion.run [Ingestion.Stopper_step; Ingestion.Reader_step] Ingestion.init
  = None.
Proof. reflexivity. Qed.

(** ** C7: cancelling the deferred init completion *)

(** Outside the case the handler is configured for: with a delay of
    zero the [if] around the wait is not entered, and the handler makes
    its call whatever the flag says. *)
Lemma init_completed_runs_despite_termination_without_delay :
  mStatsdInitCompletedHandlerTerminationRequested
    (snd (onStatsdInitCompletedHandlerTermination (Scenario.fresh false 100)))
  = true
  /\ calls (snd (onStatsdInitCompleted (Scenario.world []) 0 None 0
                   (snd (onStatsdInitCompletedHandlerTermination
                           (Scenario.fresh false 100)))))
     = [Processor_onStatsdInitCompleted 5000000000].
Proof.
  split; reflexivity.
Qed.



(** ** C8: the trailing flags of dump-report *)

Lemma firstn_snoc {A} (l : list A) (m : nat) (a : A) :
  nth_error l m = Some a -> firstn (S m) l = firstn m l ++ [a].
Proof.
  revert m. induction l as [| x l IH]; intros [| m] H; cbn in H;
    try discriminate.
  - injection H as ->. reflexivity.
  - change (x :: firstn (S m) l = x :: (firstn m l ++ [a])).
    rewrite (IH m H). reflexivity.
Qed.

Lemma nth_firstn_below {A} (l : list A) (i n : nat) (d : A) :
  (i < n)%nat -> nth i (firstn n l) d = nth i l d.
Proof.
  revert i n. induction l as [| x l IH]; intros i n Hlt.
  - rewrite firstn_nil. reflexivity.
  - destruct n as [| n]; [lia |].
    destruct i as [| i]; [reflexivity |].
    cbn. apply IH. lia.
Qed.

Lemma arg_at_last (args : list string) (m : nat) :
  arg_at args (Z.of_nat (S m) - 1) = nth_error args m.
Proof.
  unfold arg_at.
  replace (Z.of_nat (S m) - 1) with (Z.of_nat m) by lia.
  replace (Z.of_nat m <? 0) with false by (symmetry; apply Z.ltb_ge; lia).
  rewrite Nat2Z.id. reflexivity.
Qed.

(** One test of the code against one stripping of the specification:
    the code's [argCount] counts the arguments the specification has
    left. *)
Lemma strip_flag_refines (flag : string) (args : list string) (n : nat) :
  (1 <= n <= List.length args)%nat ->
  String.eqb flag (hd "" args) = false ->
  exists (b : bool) (n' : nat),
    strip_flag flag args (Z.of_nat n) = Some (b, Z.of_nat n')
    /\ strip_trailing flag (firstn n args) = (b, firstn n' args)
    /\ (1 <= n' <= List.length args)%nat.
Proof.
  intros [Hpos Hlen] Hhead.
  destruct n as [| m]; [lia |].
  unfold strip_flag. rewrite arg_at_last.
  destruct (nth_error args m) as [a |] eqn:Ha;
    [| apply nth_error_None in Ha; lia].
  unfold strip_trailing.
  rewrite (firstn_snoc args m a Ha), rev_unit.
  destruct (String.eqb flag a) eqn:Hflag.
  - exists true, m. rewrite rev_involutive.
    replace (Z.of_nat (S m) - 1) with (Z.of_nat m) by lia.
    split; [reflexivity | split; [reflexivity |]].
    destruct m as [| m]; [| lia].
    destruct args as [| a0 rest]; [discriminate |].
    cbn in Ha, Hhead. injection Ha as ->. congruence.
  - exists false, (S m). rewrite <- (firstn_snoc args m a Ha).
    split; [reflexivity | split; [reflexivity | lia]].
Qed.

Lemma positional_sees_remaining (c : Caller) (w : World) (out : Z)
    (f : DumpReportFlags) (args : list string) (n : nat) (s : Service) :
  flags_argCount f = Z.of_nat n ->
  cmd_dump_report_positional c w out f (firstn n args) s
  = cmd_dump_report_positional c w out f args s.
Proof.
  intros Hn. unfold cmd_dump_report_positional. rewrite Hn.
  destruct (Z.eqb_spec (Z.of_nat n) 2) as [E2 | N2].
  - assert (n = 2%nat) by lia. subst n.
    rewrite (nth_firstn_below args 1 2) by lia. reflexivity.
  - destruct (Z.eqb_spec (Z.of_nat n) 3) as [E3 | N3]; [| reflexivity].
    assert (n = 3%nat) by lia. subst n.
    rewrite (nth_firstn_below args 1 3), (nth_firstn_below args 2 3) by lia.
    reflexivity.
Qed.

Lemma of_nat_eqb (n k : nat) : (Z.of_nat n =? Z.of_nat k) = (n =? k)%nat.
Proof.
  destruct (Nat.eqb_spec n k) as [-> | N];
    [apply Z.eqb_refl | apply Z.eqb_neq; lia].
Qed.

(** The rest of the command, run on the arguments the stripping left,
    is the positional parsing of the specification. *)
Lemma positional_as_spec (c : Caller) (w : World) (out : Z)
    (proto includeCurrentBucket keepData : bool) (remaining : list string)
    (s : Service) :
  (let (status, s1) :=
     cmd_dump_report_positional c w out
       (MkDumpReportFlags (Z.of_nat (List.length remaining)) proto
          includeCurrentBucket (negb keepData)) remaining s in
   (Some status, s1))
  = spec_dump_positional c w out proto includeCurrentBucket keepData
      remaining s.
Proof.
  unfold cmd_dump_report_positional, spec_dump_positional, spec_dump.
  cbn [flags_argCount flags_proto flags_includeCurrentBucket flags_eraseData].
  change 2 with (Z.of_nat 2). change 3 with (Z.of_nat 3).
  rewrite !of_nat_eqb.
  destruct remaining as [| a0 [| a1 [| a2 [| a3 rest]]]];
    cbn [List.length Nat.eqb nth];
    unfold bind, get, ret, call; cbv beta iota.
  - destruct (print_cmd_help out s); reflexivity.
  - destruct (print_cmd_help out s); reflexivity.
  - destruct proto.
    + destruct (dprintf_bytes out _ _); reflexivity.
    + unfold dprintf. reflexivity.
  - destruct (getUidFromString (mEngBuild s) (AIBinder_getCallingUid c) a1 0)
      as [good uid].
    destruct good; cbn [negb]; cbv beta iota.
    + destruct proto.
      * destruct (dprintf_bytes out _ _); reflexivity.
      * unfold dprintf. reflexivity.
    + unfold invalid_uid_dump, dprintf. cbv beta iota.
      destruct (print_cmd_help out _); reflexivity.
  - destruct (print_cmd_help out s); reflexivity.
Qed.

(** [cmd_dump_report] is the stripping of the specification followed by
    its positional parsing. *)
Lemma dump_report_as_spec (c : Caller) (w : World) (out : Z)
    (args : list string) (s : Service) :
  args <> [] ->
  is_dump_report_flag (hd "" args) = false ->
  mProcessor s = true ->
  let '(proto, includeCurrentBucket, keepData, remaining) :=
    spec_dump_report_flags args in
  remaining = firstn (List.length remaining) args
  /\ cmd_dump_report c w out args s
     = spec_dump_positional c w out proto includeCurrentBucket keepData
         remaining s.
Proof.
  intros Hne Hhead Hproc.
  unfold is_dump_report_flag in Hhead.
  apply orb_false_elim in Hhead as [Hhead Hkeep].
  apply orb_false_elim in Hhead as [Hproto Hinc].
  assert (Hlen : (1 <= List.length args <= List.length args)%nat).
  { destruct args; [congruence | cbn; lia]. }
  destruct (strip_flag_refines "--proto" args _ Hlen Hproto)
    as (proto & n1 & Hc1 & Hs1 & Hn1).
  destruct (strip_flag_refines "--include_current_bucket" args n1 Hn1 Hinc)
    as (inc & n2 & Hc2 & Hs2 & Hn2).
  destruct (strip_flag_refines "--keep_data" args n2 Hn2 Hkeep)
    as (keep & n3 & Hc3 & Hs3 & Hn3).
  rewrite firstn_all in Hs1.
  assert (Hlen3 : List.length (firstn n3 args) = n3)
    by (apply firstn_length_le; lia).
  unfold spec_dump_report_flags. rewrite Hs1, Hs2, Hs3.
  split.
  - rewrite Hlen3. reflexivity.
  - rewrite <- positional_as_spec. rewrite Hlen3.
    rewrite (positional_sees_remaining c w out
               (MkDumpReportFlags (Z.of_nat n3) proto inc (negb keep)) args n3 s
               eq_refl).
    unfold cmd_dump_report, cmd_dump_report_flags.
    rewrite Hc1, Hc2, Hc3. unfold bind, get, ret. cbv beta iota.
    rewrite Hproc. reflexivity.
Qed.

(** C8. [cmd_dump_report], given the subcommand name first (so not
    itself a flag) on a service that has its processor, does what the
    specification says: the trailing flags are stripped in the order
    [--proto], then [--include_current_bucket], then [--keep_data], each
    only when it is, character for character, the last remaining
    argument; and the command then is the positional parsing of UID and
    NAME on exactly the arguments that remain, asking for the report in
    the format, with the bucket and with the erasure the stripped flags
    chose. *)
Theorem dump_report_flags_in_order (c : Caller) (w : World) (out : Z)
    (args : list string) (s : Service) :
  args <> [] ->
  is_dump_report_flag (hd "" args) = false ->
  mProcessor s = true ->
  exists (proto includeCurrentBucket keepData : bool) (remaining : list string),
    spec_dump_report_flags args
    = (proto, includeCurrentBucket, keepData, remaining)
    /\ remaining = firstn (List.length remaining) args
    /\ cmd_dump_report c w out args s
       = spec_dump_positional c w out proto includeCurrentBucket keepData
           remaining s.
Proof.
  intros Hne Hhead Hproc.
  pose proof (dump_report_as_spec c w out args s Hne Hhead Hproc) as H.
  destruct (spec_dump_report_flags args)
    as [[[proto includeCurrentBucket] keepData] remaining].
  exists proto, includeCurrentBucket, keepData, remaining.
  split; [reflexivity | exact H].
Qed.

Lemma dump_report_flags_in_order_witness :
  exists (proto includeCurrentBucket keepData : bool) (remaining : list string),
    spec_dump_report_flags ["dump-report"; "42"; "--keep_data"; "--proto"]
    = (proto, includeCurrentBucket, keepData, remaining)
    /\ remaining
       = firstn (List.length remaining)
           ["dump-report"; "42"; "--keep_data"; "--proto"]
    /\ cmd_dump_report Scenario.shell_user (Scenario.world [9]) 1
         ["dump-report"; "42"; "--keep_data"; "--proto"]
         (Scenario.fresh false 1000)
       = spec_dump_positional Scenario.shell_user (Scenario.world [9]) 1
           proto includeCurrentBucket keepData remaining
           (Scenario.fresh false 1000).
Proof.
  apply (dump_report_flags_in_order Scenario.shell_user (Scenario.world [9]) 1
           ["dump-report"; "42"; "--keep_data"; "--proto"]
           (Scenario.fresh false 1000)).
  - discriminate.
  - reflexivity.
  - reflexivity.
Defined.

(** The same run, read off: the report of configuration 42 of the shell
    is asked for once, kept, and its byte goes to the descriptor. *)
Example dump_report_keep_data_then_proto_run :
  let after :=
    snd (cmd_dump_report Scenario.shell_user (Scenario.world [9]) 1
           ["dump-report"; "42"; "--keep_data"; "--proto"]
           (Scenario.fresh false 1000)) in
  calls after
  = [Processor_onDumpReport (MkConfigKey 2000 42) 5000000000
       1700000000000000000 false false ADB_DUMP NO_TIME_CONSTRAINTS]
  /\ written (fds after 1) = [9].
Proof. split; reflexivity. Qed.

Example dump_report_keep_data_then_proto :
  cmd_dump_report_flags ["dump-report"; "42"; "--keep_data"; "--proto"]
  = Some (MkDumpReportFlags 2 true false false).
Proof. reflexivity. Qed.

Example dump_report_all_three_flags :
  cmd_dump_report_flags
    ["dump-report"; "2000"; "42"; "--keep_data"; "--include_current_bucket";
     "--proto"]
  = Some (MkDumpReportFlags 3 true true false).
Proof. reflexivity. Qed.

(** The order matters: [--proto] before [--keep_data] is not the last
    argument when it is tested, and is left as a positional argument. *)
Example dump_report_proto_before_keep_data :
  cmd_dump_report_flags ["dump-report"; "42"; "--proto"; "--keep_data"]
  = Some (MkDumpReportFlags 3 false false false).
Proof. reflexivity. Qed.

Example dump_report_flag_needs_exact_match :
  cmd_dump_report_flags ["dump-report"; "42"; "--Proto"]
  = Some (MkDumpReportFlags 3 false false true).
Proof. reflexivity. Qed.

(** ** C9: malformed shell arguments *)

Lemma only_printed_refl (s : Service) : only_printed s s.
Proof. repeat split. Qed.

Lemma only_printed_trans (s1 s2 s3 : Service) :
  only_printed s1 s2 -> only_printed s2 s3 -> only_printed s1 s3.
Proof.
  unfold only_printed. intros (?&?&?&?&?&?) (?&?&?&?&?&?).
  repeat split; congruence.
Qed.

Lemma dprintf_only_prints (fd : Z) (text : string) (s : Service) :
  only_printed s (snd (dprintf fd text s)).
Proof. repeat split. Qed.

Lemma print_cmd_help_only_prints (out : Z) (s : Service) :
  only_printed s (snd (print_cmd_help out s)).
Proof.
  unfold print_cmd_help. generalize cmd_help_text. intros texts. revert s.
  induction texts as [| text texts IH]; intros s.
  - apply only_printed_refl.
  - cbn [fold_right]. unfold bind at 1.
    destruct (dprintf out text s) as [u s1] eqn:Hd.
    apply (only_printed_trans s s1).
    + change s1 with (snd (u, s1)). rewrite <- Hd. apply dprintf_only_prints.
    + apply IH.
Qed.

Lemma usage_error_only_prints (out : Z) (s : Service) :
  fst (usage_error out s) = UNKNOWN_ERROR
  /\ only_printed s (snd (usage_error out s)).
Proof.
  unfold usage_error, bind, ret.
  pose proof (print_cmd_help_only_prints out s) as H.
  destruct (print_cmd_help out s) as [u s1]. split; [reflexivity | exact H].
Qed.

Lemma numeric_false_rejects (mEngBuild : bool) (C : Z) (u : string) (uid0 : Z) :
  numeric 0 u = false ->
  getUidFromString mEngBuild C u uid0 = (false, uid0).
Proof.
  unfold numeric, getUidFromString. intros H.
  destruct u as [| ch u']; [reflexivity |].
  destruct (CLib.strtol (String ch u') 0) as [v rest].
  destruct rest as [| r rest']; [| reflexivity].
  discriminate H.
Qed.

Lemma breadcrumb_bad_count (c : Caller) (out : Z)
    (args : list string) (s : Service) :
  List.length args <> 3%nat -> List.length args <> 4%nat ->
  cmd_log_app_breadcrumb c out args s = usage_error out s.
Proof.
  intros H3 H4. unfold cmd_log_app_breadcrumb, usage_error.
  change 3 with (Z.of_nat 3). change 4 with (Z.of_nat 4).
  rewrite !of_nat_eqb.
  apply Nat.eqb_neq in H3, H4. rewrite H3, H4.
  reflexivity.
Qed.

Lemma breadcrumb_bad_uid (c : Caller) (out : Z)
    (a0 u l st : string) (s : Service) :
  numeric 0 u = false ->
  cmd_log_app_breadcrumb c out [a0; u; l; st] s
  = (dprintf out invalid_uid_breadcrumb ;; usage_error out) s.
Proof.
  intros Hu. unfold cmd_log_app_breadcrumb, usage_error.
  cbn [List.length Z.of_nat Pos.of_succ_nat Pos.succ Z.eqb Pos.eqb nth].
  unfold bind at 1. unfold get at 1.
  rewrite (numeric_false_rejects _ _ u 0 Hu).
  cbn [negb]. unfold invalid_uid_breadcrumb, bind, ret, dprintf.
  cbv beta iota. reflexivity.
Qed.

Lemma breadcrumb_three_args (c : Caller) (out : Z)
    (a0 l st : string) (s : Service) :
  fst (cmd_log_app_breadcrumb c out [a0; l; st] s) = NO_ERROR
  /\ calls (snd (cmd_log_app_breadcrumb c out [a0; l; st] s))
     = calls s
       ++ [stats_write_APP_BREADCRUMB_REPORTED
             (to_int32 (AIBinder_getCallingUid c)) (CLib.atoi l) (CLib.atoi st)].
Proof.
  unfold cmd_log_app_breadcrumb.
  cbn [List.length Z.of_nat Pos.of_succ_nat Pos.succ Z.eqb Pos.eqb nth].
  split; reflexivity.
Qed.

Lemma of_nat_leb (k n : nat) : (Z.of_nat k <=? Z.of_nat n) = (k <=? n)%nat.
Proof.
  destruct (Nat.leb_spec k n); [apply Z.leb_le | apply Z.leb_gt]; lia.
Qed.

Lemma config_bad_shape (c : Caller) (w : World) (in_ out err : Z)
    (args : list string) (s : Service) :
  config_args_unusable args ->
  cmd_config c w in_ out err args s = usage_error out s.
Proof.
  intros Hbad. unfold cmd_config, usage_error.
  change 2 with (Z.of_nat 2). change 3 with (Z.of_nat 3).
  change 4 with (Z.of_nat 4).
  rewrite !of_nat_eqb, of_nat_leb.
  destruct ((2 <=? List.length args)%nat
            && (String.eqb (nth 1 args "") "update"
                || String.eqb (nth 1 args "") "remove")) eqn:Hhead;
    [| reflexivity].
  apply andb_true_iff in Hhead as [Hlen Hverb].
  apply Nat.leb_le in Hlen.
  assert (Hgood :
    (List.length args =? 3)%nat = false
    /\ (List.length args =? 4)%nat = false
    /\ ((List.length args =? 2)%nat && String.eqb (nth 1 args "") "remove")
       = false).
  { destruct Hbad as [Hlt | [Hgt | [[Hu Hr] | [H2 Hupd]]]].
    - lia.
    - repeat split; try (apply Nat.eqb_neq; lia).
      replace (List.length args =? 2)%nat with false
        by (symmetry; apply Nat.eqb_neq; lia).
      reflexivity.
    - apply orb_true_iff in Hverb as [E | E]; apply String.eqb_eq in E;
        contradiction.
    - repeat split; try (apply Nat.eqb_neq; lia).
      rewrite Hupd. rewrite andb_false_r. reflexivity. }
  destruct Hgood as (H3 & H4 & H2).
  rewrite H3, H4, H2.
  unfold bind, get, ret. cbv beta iota. reflexivity.
Qed.

Lemma config_bad_uid (c : Caller) (w : World) (in_ out err : Z)
    (a0 verb u name : string) (s : Service) :
  verb = "update" \/ verb = "remove" ->
  numeric 0 u = false ->
  cmd_config c w in_ out err [a0; verb; u; name] s
  = (dprintf err invalid_uid_config ;; usage_error out) s.
Proof.
  intros Hverb Hu. unfold cmd_config, usage_error.
  cbn [List.length Z.of_nat Pos.of_succ_nat Pos.succ Z.eqb Z.leb Z.compare
         Pos.compare Pos.compare_cont Pos.eqb nth andb].
  replace (String.eqb verb "update" || String.eqb verb "remove") with true
    by (destruct Hverb as [-> | ->]; reflexivity).
  unfold bind at 1. unfold get at 1.
  rewrite (numeric_false_rejects _ _ u (-1) Hu).
  cbn [negb]. unfold invalid_uid_config, bind, ret, dprintf.
  cbv beta iota. reflexivity.
Qed.

Lemma config_bad_id (c : Caller) (w : World) (in_ out err : Z)
    (a0 name : string) (s : Service) :
  numeric 10 name = false ->
  cmd_config c w in_ out err [a0; "update"; name] s
  = (dprintf err ("Error parsing config ID." ++ nl)%string ;;
     ret UNKNOWN_ERROR) s.
Proof.
  intros Hname. unfold cmd_config.
  cbn [List.length Z.of_nat Pos.of_succ_nat Pos.succ Z.eqb Z.leb Z.compare
         Pos.compare Pos.compare_cont Pos.eqb nth andb orb].
  change (String.eqb "update" "update") with true. cbn [orb andb].
  unfold bind at 1. unfold get at 1. unfold bind at 1. unfold ret at 1.
  cbn [negb]. change (String.eqb "update" "update") with true. cbv iota.
  unfold cmd_config_update.
  unfold numeric, CLib.strtoll in *.
  destruct (CLib.strtol name 10) as [configID endp].
  replace (at_start name endp || negb (String.eqb endp "")) with true.
  - reflexivity.
  - symmetry. destruct (at_start name endp); [reflexivity |].
    cbn [negb andb orb] in *. rewrite Hname. reflexivity.
Qed.

Lemma dump_report_bad_count (c : Caller) (w : World) (out : Z)
    (f : DumpReportFlags) (args : list string) (s : Service) :
  flags_argCount f <> 2 -> flags_argCount f <> 3 ->
  cmd_dump_report_positional c w out f args s = usage_error out s.
Proof.
  intros H2 H3. unfold cmd_dump_report_positional, usage_error.
  apply Z.eqb_neq in H2, H3. rewrite H2, H3.
  unfold bind, get, ret. cbv beta iota. reflexivity.
Qed.

Lemma dump_report_bad_uid (c : Caller) (w : World) (out : Z)
    (f : DumpReportFlags) (args : list string) (s : Service) :
  flags_argCount f = 3 -> numeric 0 (nth 1 args "") = false ->
  cmd_dump_report_positional c w out f args s
  = (dprintf out invalid_uid_dump ;; usage_error out) s.
Proof.
  intros H3 Hu. unfold cmd_dump_report_positional, usage_error.
  rewrite H3. cbn [Z.eqb Pos.eqb].
  unfold bind at 1. unfold get at 1.
  rewrite (numeric_false_rejects _ _ _ 0 Hu).
  cbn [negb]. unfold invalid_uid_dump, bind, ret, dprintf.
  cbv beta iota. reflexivity.
Qed.

Lemma error_line_then_usage_only_prints (fd out : Z) (text : string)
    (s : Service) :
  fst ((dprintf fd text ;; usage_error out) s) = UNKNOWN_ERROR
  /\ only_printed s (snd ((dprintf fd text ;; usage_error out) s)).
Proof.
  assert (E : (dprintf fd text ;; usage_error out) s
              = usage_error out (snd (dprintf fd text s))).
  { unfold bind at 1. unfold dprintf. cbv beta iota. reflexivity. }
  rewrite E.
  destruct (usage_error_only_prints out (snd (dprintf fd text s)))
    as [Hcode Hquiet].
  split; [exact Hcode |].
  apply (only_printed_trans s _ _ (dprintf_only_prints fd text s)).
  exact Hquiet.
Qed.

(** [log-app-breadcrumb] with a LABEL and a STATE that are not numbers:
    the event is written all the same, with both read as 0, and the
    command reports success. *)
Lemma breadcrumb_with_non_numeric_fields_is_logged :
  numeric 10 "high" = false
  /\ numeric 10 "on" = false
  /\ fst (cmd_log_app_breadcrumb Scenario.shell_user 1
            ["log-app-breadcrumb"; "high"; "on"] (Scenario.fresh false 1000))
     = NO_ERROR
  /\ calls (snd (cmd_log_app_breadcrumb Scenario.shell_user 1
                   ["log-app-breadcrumb"; "high"; "on"]
                   (Scenario.fresh false 1000)))
     = [stats_write_APP_BREADCRUMB_REPORTED 2000 0 0].
Proof.
  repeat split.
Qed.

(* ================================================================= *)
(** * Further properties *)

(** ** Delivery order in [readLogs] *)

Lemma list_snoc_cases {A} (l : list A) :
  l = [] \/ exists l' x, l = l' ++ [x].
Proof.
  destruct (rev l) as [| x r] eqn:E.
  - left. rewrite <- (rev_involutive l), E. reflexivity.
  - right. exists (rev r), x. rewrite <- (rev_involutive l), E. reflexivity.
Qed.

Module IngestionOrderFacts.
Import Ingestion IngestionFacts IngestionOrder.

Lemma real_events_app (a b : list Item) :
  real_events (a ++ b) = real_events a ++ real_events b.
Proof.
  unfold real_events. rewrite filter_app, map_app. reflexivity.
Qed.

Ltac fields :=
  cbn [queue mIsStopRequested shellSubscriber reader stopper dispatched].

Lemma real_events_stop (l : list Item) :
  real_events (l ++ [MkItem stop_event FromStopReadingLogs]) = real_events l.
Proof. rewrite real_events_app. cbn. apply app_nil_r. Qed.

Lemma real_events_real (l : list Item) (e : LogEvent) :
  real_events (l ++ [MkItem e FromSocket]) = real_events l ++ [e].
Proof. rewrite real_events_app. reflexivity. Qed.

Lemma fifo_step (a : Action) (history : list LogEvent) (s s' : Sys) :
  Inv s -> Fifo history s -> step a s = Some s' ->
  Fifo (history ++ pushed [a]) s'.
Proof.
  intros Hinv (rest & Hhist & Hrest) Hstep.
  unfold Fifo.
  destruct a; cbn [pushed]; cbn [step] in Hstep; rewrite ?app_nil_r.
  - (* a push *)
    injection Hstep as <-.
    unfold given_to_processor; fields; fold (given_to_processor s).
    unfold awaiting_processor in *. fields.
    exists (rest ++ [e]). split.
    + rewrite Hhist, <- app_assoc. reflexivity.
    + intros Hrun. rewrite (Hrest Hrun), app_assoc.
      rewrite real_events_real. reflexivity.
  - (* the reader *)
    unfold reader_step in Hstep.
    destruct (reader s) as [| e | e | e |] eqn:Hpc; try discriminate.
    + destruct (queue s) as [| e q] eqn:Hq; [discriminate |].
      injection Hstep as <-.
      unfold given_to_processor; fields; fold (given_to_processor s).
      unfold awaiting_processor in *. rewrite Hpc in Hrest. fields.
      exists rest. split; [exact Hhist |].
      intros _. apply Hrest. discriminate.
    + injection Hstep as <-.
      unfold given_to_processor; fields; fold (given_to_processor s).
      unfold awaiting_processor in *. rewrite Hpc in Hrest. fields.
      exists rest. split; [exact Hhist |].
      destruct (mIsStopRequested s); [congruence |].
      intros _. apply Hrest. discriminate.
    + injection Hstep as <-.
      unfold given_to_processor; fields;
        rewrite filter_app, map_app; fold (given_to_processor s).
      unfold awaiting_processor in *. rewrite Hpc in Hrest. fields.
      cbn [to_processor fst snd app filter map].
      exists (real_events (queue s)). split; [| reflexivity].
      rewrite Hhist, (Hrest ltac:(discriminate)), <- app_assoc.
      f_equal. unfold real_events. cbn [app filter].
      rewrite (inv_processor s Hinv e Hpc). reflexivity.
    + injection Hstep as <-.
      unfold awaiting_processor in *. rewrite Hpc in Hrest. fields.
      exists rest. split; [| intros _; apply Hrest; discriminate].
      destruct (shellSubscriber s);
        [| unfold given_to_processor; fields; fold (given_to_processor s); exact Hhist].
      unfold given_to_processor; fields.
      rewrite filter_app, map_app; fold (given_to_processor s).
      cbn. rewrite app_nil_r. exact Hhist.
  - (* stopReadingLogs *)
    unfold stopper_step in Hstep.
    destruct (stopper s); try discriminate; injection Hstep as <-;
      unfold given_to_processor; fields; fold (given_to_processor s);
      unfold awaiting_processor in *; fields;
      exists rest; (split; [exact Hhist |]); intros Hrun;
      rewrite (Hrest Hrun); [reflexivity |].
    rewrite app_assoc, real_events_stop. reflexivity.
  - (* initShellSubscriber *)
    injection Hstep as <-.
    unfold given_to_processor; fields; fold (given_to_processor s).
    unfold awaiting_processor in *. fields.
    exists rest. split; assumption.
Qed.

Lemma pushed_app (a b : list Action) : pushed (a ++ b) = pushed a ++ pushed b.
Proof.
  induction a as [| x a IH]; [reflexivity |].
  destruct x; cbn; rewrite IH; reflexivity.
Qed.

Lemma fifo_run (acts : list Action) (history : list LogEvent) (s s' : Sys) :
  Inv s -> Fifo history s -> run acts s = Some s' ->
  Fifo (history ++ pushed acts) s'.
Proof.
  revert history s. induction acts as [| a acts IH]; intros history s Hinv Hf Hrun;
    cbn [run] in Hrun.
  - injection Hrun as <-. cbn. rewrite app_nil_r. exact Hf.
  - destruct (step a s) as [s1 |] eqn:Hstep; [| discriminate].
    change (a :: acts) with ([a] ++ acts).
    rewrite pushed_app, app_assoc.
    apply (IH _ s1); [apply (inv_step a s) | apply (fifo_step a _ s) |];
      assumption.
Qed.

Lemma engine_first_step (a : Action) (s s' : Sys) :
  (EngineFirst (dispatched s)
   /\ forall e, reader s = AtSubscriber e ->
                exists l, dispatched s = l ++ [(ToProcessor, e)]
                          /\ EngineFirst l) ->
  step a s = Some s' ->
  EngineFirst (dispatched s')
  /\ forall e, reader s' = AtSubscriber e ->
               exists l, dispatched s' = l ++ [(ToProcessor, e)]
                         /\ EngineFirst l.
Proof.
  intros [Hef Hsub] Hstep.
  destruct a; cbn in Hstep.
  - injection Hstep as <-. cbn. auto.
  - unfold reader_step in Hstep.
    destruct (reader s) as [| e | e | e |] eqn:Hpc; try discriminate.
    + destruct (queue s); [discriminate |]. injection Hstep as <-. cbn.
      split; [exact Hef | discriminate].
    + injection Hstep as <-. cbn. split; [exact Hef |].
      destruct (mIsStopRequested s); discriminate.
    + injection Hstep as <-. cbn. split; [apply ef_processor; exact Hef |].
      intros e' [= <-]. exists (dispatched s). auto.
    + injection Hstep as <-. cbn. split; [| discriminate].
      destruct (shellSubscriber s); [| exact Hef].
      destruct (Hsub e eq_refl) as (l & -> & Hl).
      rewrite <- app_assoc. apply ef_both. exact Hl.
  - unfold stopper_step in Hstep.
    destruct (stopper s); try discriminate; injection Hstep as <-; cbn; auto.
  - injection Hstep as <-. cbn. auto.
Qed.

Lemma engine_first_run (acts : list Action) (s s' : Sys) :
  (EngineFirst (dispatched s)
   /\ forall e, reader s = AtSubscriber e ->
                exists l, dispatched s = l ++ [(ToProcessor, e)]
                          /\ EngineFirst l) ->
  run acts s = Some s' ->
  EngineFirst (dispatched s').
Proof.
  revert s. induction acts as [| a acts IH]; intros s H Hrun; cbn in Hrun.
  - injection Hrun as <-. apply H.
  - destruct (step a s) as [s1 |] eqn:Hstep; [| discriminate].
    apply (IH s1); [apply (engine_first_step a s); assumption | exact Hrun].
Qed.

(** In a list built that way, a delivery to the subscriber has the
    delivery of the same event to the processor right before it. *)
Lemma engine_first_before (l : list (Sink * Item)) :
  EngineFirst l ->
  forall l1 l2 e, l = l1 ++ (ToShellSubscriber, e) :: l2 ->
                  exists l0, l1 = l0 ++ [(ToProcessor, e)].
Proof.
  induction 1 as [| l e' Hl IH | l e' Hl IH]; intros l1 l2 e Heq.
  - destruct l1; discriminate.
  - destruct (list_snoc_cases l2) as [-> | (l2' & x & ->)].
    + apply app_inj_tail in Heq as [_ Heq]. discriminate.
    + change (l1 ++ (ToShellSubscriber, e) :: l2' ++ [x])
        with (l1 ++ ((ToShellSubscriber, e) :: l2') ++ [x]) in Heq.
      rewrite app_assoc in Heq. apply app_inj_tail in Heq as [Heq _].
      apply (IH _ _ _ Heq).
  - change [(ToProcessor, e'); (ToShellSubscriber, e')]
      with ([(ToProcessor, e')] ++ [(ToShellSubscriber, e')]) in Heq.
    rewrite app_assoc in Heq.
    destruct (list_snoc_cases l2) as [-> | (l2' & x & ->)].
    + apply app_inj_tail in Heq as [Heq [= <-]].
      exists l. symmetry. exact Heq.
    + change (l1 ++ (ToShellSubscriber, e) :: l2' ++ [x])
        with (l1 ++ ((ToShellSubscriber, e) :: l2') ++ [x]) in Heq.
      rewrite app_assoc in Heq. apply app_inj_tail in Heq as [Heq _].
      destruct (list_snoc_cases l2') as [-> | (l2'' & y & ->)].
      * apply app_inj_tail in Heq as [_ Heq]. discriminate.
      * change (l1 ++ (ToShellSubscriber, e) :: l2'' ++ [y])
          with (l1 ++ ((ToShellSubscriber, e) :: l2'') ++ [y]) in Heq.
        rewrite app_assoc in Heq. apply app_inj_tail in Heq as [Heq _].
        apply (IH _ _ _ Heq).
Qed.

Lemma woken_step (a : Action) (s s' : Sys) :
  Inv s -> Woken s -> step a s = Some s' -> Woken s'.
Proof.
  intros Hinv Hw Hstep. unfold Woken in *.
  destruct a; cbn in Hstep.
  - injection Hstep as <-. cbn. intros Hp.
    destruct (Hw Hp) as [Hflag Hcases]. split; [exact Hflag |].
    right; right. destruct (queue s); discriminate.
  - unfold reader_step in Hstep.
    destruct (reader s) as [| e | e | e |] eqn:Hpc; try discriminate.
    + destruct (queue s) as [| e q] eqn:Hq; [discriminate |].
      injection Hstep as <-. cbn. intros Hp.
      destruct (Hw Hp) as [Hflag _]. split; [exact Hflag |].
      right; left. exists e. reflexivity.
    + injection Hstep as <-. cbn. intros Hp.
      destruct (Hw Hp) as [Hflag _]. split; [exact Hflag |].
      rewrite Hflag. left. reflexivity.
    + injection Hstep as <-. cbn. intros Hp.
      destruct (Hw Hp) as [Hflag [H | [[e' H] | H]]]; try discriminate.
      split; [exact Hflag | right; right; exact H].
    + injection Hstep as <-. cbn. intros Hp.
      destruct (Hw Hp) as [Hflag [H | [[e' H] | H]]]; try discriminate.
      split; [exact Hflag | right; right; exact H].
  - unfold stopper_step in Hstep.
    destruct (stopper s) eqn:Hst; try discriminate; injection Hstep as <-;
      cbn; intros Hp; try discriminate.
    split.
    + apply (inv_flag s Hinv). rewrite Hst. discriminate.
    + right; right. destruct (queue s); discriminate.
  - injection Hstep as <-. cbn. exact Hw.
Qed.

Lemma woken_run (acts : list Action) (s s' : Sys) :
  Inv s -> Woken s -> run acts s = Some s' -> Woken s'.
Proof.
  revert s. induction acts as [| a acts IH]; intros s Hinv Hw Hrun;
    cbn in Hrun.
  - injection Hrun as <-. exact Hw.
  - destruct (step a s) as [s1 |] eqn:Hstep; [| discriminate].
    apply (IH s1);
      [apply (inv_step a s) | apply (woken_step a s) |]; assumption.
Qed.

End IngestionOrderFacts.

(** X1. Whatever the reader, the socket listener, [stopReadingLogs] and
    [initShellSubscriber] do, in any interleaving: the events handed to
    [mProcessor->OnLogEvent] are a prefix of the events pushed by the
    socket listener, in the order they were pushed, each once; and as
    long as the reader has not left its loop, every pushed event that the
    processor has not seen is still held by the reader or in the queue. *)
Theorem processor_sees_events_in_arrival_order (acts : list Ingestion.Action)
    (s : Ingestion.Sys) :
  Ingestion.run acts Ingestion.init = Some s ->
  exists rest,
    IngestionOrder.pushed acts = IngestionOrder.given_to_processor s ++ rest
    /\ (Ingestion.reader s <> Ingestion.Returned ->
        rest = IngestionOrder.real_events
                 (IngestionOrder.awaiting_processor s ++ Ingestion.queue s)).
Proof.
  intros Hrun.
  apply (IngestionOrderFacts.fifo_run acts [] Ingestion.init s
           IngestionFacts.inv_init); [| exact Hrun].
  exists []. split; reflexivity.
Qed.

Lemma processor_sees_events_in_arrival_order_witness :
  exists rest,
    [MkLogEvent 1 2 [3]; MkLogEvent 4 5 [6]; MkLogEvent 7 8 [9]]
    = [MkLogEvent 1 2 [3]] ++ rest
    /\ (Ingestion.AtStopCheck
          (Ingestion.MkItem (MkLogEvent 4 5 [6]) Ingestion.FromSocket)
        <> Ingestion.Returned ->
        rest = [MkLogEvent 4 5 [6]; MkLogEvent 7 8 [9]]).
Proof.
  apply (processor_sees_events_in_arrival_order
           [Ingestion.Socket_push (MkLogEvent 1 2 [3]);
            Ingestion.Socket_push (MkLogEvent 4 5 [6]);
            Ingestion.Reader_step; Ingestion.Reader_step;
            Ingestion.Reader_step; Ingestion.Stopper_step;
            Ingestion.Socket_push (MkLogEvent 7 8 [9]);
            Ingestion.Reader_step; Ingestion.Stopper_step;
            Ingestion.Reader_step]
           (Ingestion.MkSys
              [Ingestion.MkItem (MkLogEvent 7 8 [9]) Ingestion.FromSocket;
               Ingestion.MkItem Ingestion.stop_event
                 Ingestion.FromStopReadingLogs]
              true false
              (Ingestion.AtStopCheck
                 (Ingestion.MkItem (MkLogEvent 4 5 [6]) Ingestion.FromSocket))
              Ingestion.Pushed
              [(Ingestion.ToProcessor,
                Ingestion.MkItem (MkLogEvent 1 2 [3]) Ingestion.FromSocket)])).
  reflexivity.
Defined.

(** X2. In every execution, each delivery of an event to the shell
    subscriber comes immediately after the delivery of that same event
    to the processor: the subscriber never sees an event the processor
    has not seen, and never sees one twice. *)
Theorem subscriber_sees_event_right_after_processor
    (acts : list Ingestion.Action) (s : Ingestion.Sys) :
  Ingestion.run acts Ingestion.init = Some s ->
  forall l1 l2 e,
    Ingestion.dispatched s = l1 ++ (Ingestion.ToShellSubscriber, e) :: l2 ->
    exists l0, l1 = l0 ++ [(Ingestion.ToProcessor, e)].
Proof.
  intros Hrun.
  apply IngestionOrderFacts.engine_first_before.
  apply (IngestionOrderFacts.engine_first_run acts Ingestion.init s);
    [| exact Hrun].
  split; [constructor | discriminate].
Qed.

Lemma subscriber_sees_event_right_after_processor_witness :
  exists l0,
    [(Ingestion.ToProcessor,
      Ingestion.MkItem (MkLogEvent 1 2 [3]) Ingestion.FromSocket)]
    = l0 ++ [(Ingestion.ToProcessor,
              Ingestion.MkItem (MkLogEvent 1 2 [3]) Ingestion.FromSocket)].
Proof.
  apply (subscriber_sees_event_right_after_processor
           [Ingestion.Shell_initSubscriber;
            Ingestion.Socket_push (MkLogEvent 1 2 [3]);
            Ingestion.Reader_step; Ingestion.Reader_step;
            Ingestion.Reader_step; Ingestion.Reader_step]
           (Ingestion.MkSys [] false true Ingestion.AtWaitPop
              Ingestion.NotCalled
              [(Ingestion.ToProcessor,
                Ingestion.MkItem (MkLogEvent 1 2 [3]) Ingestion.FromSocket);
               (Ingestion.ToShellSubscriber,
                Ingestion.MkItem (MkLogEvent 1 2 [3]) Ingestion.FromSocket)])
           eq_refl
           [(Ingestion.ToProcessor,
             Ingestion.MkItem (MkLogEvent 1 2 [3]) Ingestion.FromSocket)]
           []
           (Ingestion.MkItem (MkLogEvent 1 2 [3]) Ingestion.FromSocket)
           eq_refl).
Defined.

(** X3. Once [stopReadingLogs] has run to its end, the reader is never
    left blocked in [waitPop()]: from whatever point it has reached, at
    most four further steps of its own take it out of the loop, without
    the help of any other thread. *)
Theorem reader_leaves_after_stop (acts : list Ingestion.Action)
    (s : Ingestion.Sys) :
  Ingestion.run acts Ingestion.init = Some s ->
  Ingestion.stopper s = Ingestion.Pushed ->
  exists (n : nat) (s' : Ingestion.Sys),
    (n <= 4)%nat
    /\ Ingestion.run (repeat Ingestion.Reader_step n) s = Some s'
    /\ Ingestion.reader s' = Ingestion.Returned.
Proof.
  intros Hrun Hpushed.
  assert (Hw : IngestionOrder.Woken Ingestion.init) by (intros H; discriminate H).
  pose proof (IngestionOrderFacts.woken_run acts _ s IngestionFacts.inv_init
                Hw Hrun Hpushed) as [Hflag Hcases].
  destruct (Ingestion.reader s) as [| e | e | e |] eqn:Hpc.
  - (* in waitPop: the queue is not empty *)
    destruct Hcases as [H | [[e H] | H]]; try discriminate.
    destruct (Ingestion.queue s) as [| e q] eqn:Hq; [contradiction |].
    exists 2%nat. eexists. split; [lia |].
    cbn [repeat Ingestion.run Ingestion.step]. unfold Ingestion.reader_step.
    rewrite Hpc, Hq. cbn. rewrite Hflag. split; reflexivity.
  - exists 1%nat. eexists. split; [lia |].
    cbn [repeat Ingestion.run Ingestion.step]. unfold Ingestion.reader_step.
    rewrite Hpc, Hflag. split; reflexivity.
  - destruct Hcases as [H | [[e' H] | H]]; try discriminate.
    destruct (Ingestion.queue s) as [| e' q] eqn:Hq; [contradiction |].
    exists 4%nat. eexists. split; [lia |].
    cbn [repeat Ingestion.run Ingestion.step]. unfold Ingestion.reader_step.
    rewrite Hpc. cbn. rewrite Hq. cbn. rewrite Hflag. split; reflexivity.
  - destruct Hcases as [H | [[e' H] | H]]; try discriminate.
    destruct (Ingestion.queue s) as [| e' q] eqn:Hq; [contradiction |].
    exists 3%nat. eexists. split; [lia |].
    cbn [repeat Ingestion.run Ingestion.step]. unfold Ingestion.reader_step.
    rewrite Hpc. cbn. rewrite Hq. cbn. rewrite Hflag. split; reflexivity.
  - exists 0%nat, s. split; [lia |]. split; [reflexivity | exact Hpc].
Qed.

Lemma reader_leaves_after_stop_witness :
  exists (n : nat) (s' : Ingestion.Sys),
    (n <= 4)%nat
    /\ Ingestion.run (repeat Ingestion.Reader_step n)
         (Ingestion.MkSys
            [Ingestion.MkItem Ingestion.stop_event
               Ingestion.FromStopReadingLogs]
            true false Ingestion.AtWaitPop Ingestion.Pushed [])
       = Some s'
    /\ Ingestion.reader s' = Ingestion.Returned.
Proof.
  apply (reader_leaves_after_stop
           [Ingestion.Stopper_step; Ingestion.Stopper_step]
           (Ingestion.MkSys
              [Ingestion.MkItem Ingestion.stop_event
                 Ingestion.FromStopReadingLogs]
              true false Ingestion.AtWaitPop Ingestion.Pushed [])).
  - reflexivity.
  - reflexivity.
Defined.

(** ** Sequences of binder calls *)

(** What the system-identity calls leave alone. *)
Lemma serve_keeps_subscriber (c : Caller) (w : World) (r : SystemRpc)
    (s : Service) :
  mShellSubscriber (snd (serve c w r s)) = mShellSubscriber s
  /\ filter is_ShellSubscriber_new (calls (snd (serve c w r s)))
     = filter is_ShellSubscriber_new (calls s)
  /\ (mStatsdInitCompletedHandlerTerminationRequested s = true ->
      mStatsdInitCompletedHandlerTerminationRequested (snd (serve c w r s))
      = true)
  /\ filter is_onStatsdInitCompleted (calls (snd (serve c w r s)))
     = filter is_onStatsdInitCompleted (calls s).
Proof.
  destruct (uid_allowed c AID_SYSTEM) eqn:Hallowed.
  - pose proof (fun s => checkUid_allowed c AID_SYSTEM s Hallowed) as Hchk.
    destruct r; cbn [serve]; unfold no_reply, reply_with; unfold_rpc;
      unfold enforce; unfold_monad; rewrite !Hchk;
      split_tests; cbn; rewrite ?filter_app; cbn; rewrite ?app_nil_r;
      repeat split; auto.
  - rewrite (serve_denied c w r s Hallowed). cbn. repeat split; auto.
Qed.

Lemma serve_subscription_effect (c : Caller) (w : World) (r : SubscriptionRpc)
    (s : Service) :
  (mStatsdInitCompletedHandlerTerminationRequested
     (snd (serve_subscription c w r s))
   = mStatsdInitCompletedHandlerTerminationRequested s)
  /\ filter is_onStatsdInitCompleted (calls (snd (serve_subscription c w r s)))
     = filter is_onStatsdInitCompleted (calls s)
  /\ ((mShellSubscriber (snd (serve_subscription c w r s)) = mShellSubscriber s
       /\ filter is_ShellSubscriber_new (calls (snd (serve_subscription c w r s)))
          = filter is_ShellSubscriber_new (calls s))
      \/ (mShellSubscriber s = false
          /\ mShellSubscriber (snd (serve_subscription c w r s)) = true
          /\ filter is_ShellSubscriber_new
               (calls (snd (serve_subscription c w r s)))
             = filter is_ShellSubscriber_new (calls s) ++ [ShellSubscriber_new])).
Proof.
  destruct r; cbn [serve_subscription]; unfold_rpc;
    rewrite !enforce_unfold;
    destruct (checkSid c w kTracedProbesSid s) as [[| code msg] s'] eqn:Hchk;
    rewrite checkSid_spec in Hchk;
    destruct ((AIBinder_getCallingUid c =? AID_ROOT)
              || match looked_up_sid c w with
                 | Some sid => String.eqb kTracedProbesSid sid
                 | None => false
                 end); try discriminate;
    injection Hchk as <-; try (intros; subst);
    cbn [isOk]; unfold_monad;
    destruct (mShellSubscriber s) eqn:Hsub; cbn;
    rewrite ?Hsub; cbn; rewrite ?filter_app; cbn; rewrite ?app_nil_r;
    repeat split; auto.
Qed.

Lemma serve_request_built_once (w : World) (q : Request) (s : Service) :
  subscriber_built_once s ->
  subscriber_built_once (snd (serve_request w q s)).
Proof.
  intros [Hnull Hone]. unfold subscriber_built_once.
  destruct q as [c r | c r]; cbn [serve_request].
  - unfold bind, ret.
    pose proof (serve_keeps_subscriber c w r s) as (Hsub & Hnew & _).
    destruct (serve c w r s) as [res s1]. cbn [snd] in *.
    rewrite Hsub, Hnew. split; assumption.
  - pose proof (serve_subscription_effect c w r s)
      as (_ & _ & [[Hsub Hnew] | (Hwas & Hnow & Hnew)]).
    + rewrite Hsub, Hnew. split; assumption.
    + rewrite Hnow, Hnew, (Hnull Hwas). split; [discriminate | cbn; lia].
Qed.

Lemma serve_requests_built_once (w : World) (qs : list Request) (s : Service) :
  subscriber_built_once s ->
  subscriber_built_once (snd (serve_requests w qs s)).
Proof.
  revert s. induction qs as [| q qs IH]; intros s H; cbn [serve_requests].
  - exact H.
  - unfold bind.
    pose proof (serve_request_built_once w q s H) as H1.
    destruct (serve_request w q s) as [st s1]. apply IH. exact H1.
Qed.

Lemma serve_requests_keep_termination (w : World) (qs : list Request)
    (s : Service) :
  mStatsdInitCompletedHandlerTerminationRequested s = true ->
  mStatsdInitCompletedHandlerTerminationRequested
    (snd (serve_requests w qs s)) = true
  /\ filter is_onStatsdInitCompleted (calls (snd (serve_requests w qs s)))
     = filter is_onStatsdInitCompleted (calls s).
Proof.
  revert s. induction qs as [| q qs IH]; intros s Hreq; cbn [serve_requests].
  - split; [exact Hreq | reflexivity].
  - unfold bind.
    assert (H1 :
      mStatsdInitCompletedHandlerTerminationRequested
        (snd (serve_request w q s)) = true
      /\ filter is_onStatsdInitCompleted (calls (snd (serve_request w q s)))
         = filter is_onStatsdInitCompleted (calls s)).
    { destruct q as [c r | c r]; cbn [serve_request].
      - unfold bind, ret.
        pose proof (serve_keeps_subscriber c w r s) as (_ & _ & Hflag & Hcalls).
        destruct (serve c w r s) as [res s1]. cbn [snd] in *. auto.
      - pose proof (serve_subscription_effect c w r s) as (Hflag & Hcalls & _).
        rewrite Hflag. auto. }
    destruct (serve_request w q s) as [st s1]. cbn [snd] in H1.
    destruct H1 as [Hflag1 Hcalls1].
    destruct (IH s1 Hflag1) as [Hflag2 Hcalls2].
    split; [exact Hflag2 | rewrite Hcalls2; exact Hcalls1].
Qed.

Lemma init_completed_skipped_when_requested (w : World) (delay : Z)
    (concurrent : option Z) (wakeLatency : Z) (s : Service) :
  0 < delay ->
  mStatsdInitCompletedHandlerTerminationRequested s = true ->
  onStatsdInitCompleted w delay concurrent wakeLatency s = (tt, s).
Proof.
  intros Hpos Hreq.
  unfold onStatsdInitCompleted, wait_for_termination, bind, get, ret, VLOG.
  replace (0 <? delay) with true by (symmetry; apply Z.ltb_lt; exact Hpos).
  rewrite Hreq. reflexivity.
Qed.

(** X5. Cancellation is for good. After [informDeviceShutdown] from the
    system, or after [Terminate], the termination request stays set
    through any later binder calls, so a deferred init completion with a
    positive delay that starts at any later moment returns without
    calling [mProcessor->onStatsdInitCompleted]; and no binder call makes
    that call in its place. *)
Theorem termination_outlasts_later_calls (c : Caller) (w : World)
    (qs : list Request) (delay : Z) (concurrent : option Z) (wakeLatency : Z)
    (s : Service) :
  uid_allowed c AID_SYSTEM = true ->
  0 < delay ->
  filter is_onStatsdInitCompleted
    (calls (snd (onStatsdInitCompleted w delay concurrent wakeLatency
                   (snd (serve_requests w qs
                           (snd (informDeviceShutdown c w s)))))))
  = filter is_onStatsdInitCompleted (calls s)
  /\ filter is_onStatsdInitCompleted
       (calls (snd (onStatsdInitCompleted w delay concurrent wakeLatency
                      (snd (serve_requests w qs (snd (Terminate w s)))))))
     = filter is_onStatsdInitCompleted (calls s).
Proof.
  intros Hallowed Hpos.
  pose proof (fun s => checkUid_allowed c AID_SYSTEM s Hallowed) as Hchk.
  assert (Hshutdown :
    mStatsdInitCompletedHandlerTerminationRequested
      (snd (informDeviceShutdown c w s)) = true
    /\ filter is_onStatsdInitCompleted (calls (snd (informDeviceShutdown c w s)))
       = filter is_onStatsdInitCompleted (calls s)).
  { unfold informDeviceShutdown, ENFORCE_UID.
    rewrite (enforce_allowed _ _ _ _ (Hchk _)).
    unfold_monad. cbn. rewrite !filter_app. cbn. rewrite !app_nil_r.
    split; reflexivity. }
  assert (Hterminate :
    mStatsdInitCompletedHandlerTerminationRequested (snd (Terminate w s)) = true
    /\ filter is_onStatsdInitCompleted (calls (snd (Terminate w s)))
       = filter is_onStatsdInitCompleted (calls s)).
  { unfold Terminate, ALOGI. unfold_monad. cbn.
    destruct (mProcessor s); cbn; rewrite ?filter_app; cbn;
      rewrite ?app_nil_r; split; reflexivity. }
  split.
  - destruct Hshutdown as [Hflag Hcalls].
    destruct (serve_requests_keep_termination w qs _ Hflag) as [Hflag' Hcalls'].
    rewrite (init_completed_skipped_when_requested w delay concurrent
               wakeLatency _ Hpos Hflag').
    cbn [snd]. rewrite Hcalls'. exact Hcalls.
  - destruct Hterminate as [Hflag Hcalls].
    destruct (serve_requests_keep_termination w qs _ Hflag) as [Hflag' Hcalls'].
    rewrite (init_completed_skipped_when_requested w delay concurrent
               wakeLatency _ Hpos Hflag').
    cbn [snd]. rewrite Hcalls'. exact Hcalls.
Qed.

Lemma termination_outlasts_later_calls_witness :
  filter is_onStatsdInitCompleted
    (calls (snd (onStatsdInitCompleted (Scenario.world []) 90 None 0
                   (snd (serve_requests (Scenario.world [])
                           [SystemCall Scenario.system_server Rpc_bootCompleted]
                           (snd (informDeviceShutdown Scenario.system_server
                                   (Scenario.world [])
                                   (Scenario.fresh false 10))))))))
  = filter is_onStatsdInitCompleted (calls (Scenario.fresh false 10))
  /\ filter is_onStatsdInitCompleted
       (calls (snd (onStatsdInitCompleted (Scenario.world []) 90 None 0
                      (snd (serve_requests (Scenario.world [])
                              [SystemCall Scenario.system_server
                                 Rpc_bootCompleted]
                              (snd (Terminate (Scenario.world [])
                                      (Scenario.fresh false 10))))))))
     = filter is_onStatsdInitCompleted (calls (Scenario.fresh false 10)).
Proof.
  apply (termination_outlasts_later_calls Scenario.system_server
           (Scenario.world [])
           [SystemCall Scenario.system_server Rpc_bootCompleted] 90 None 0
           (Scenario.fresh false 10)).
  - reflexivity.
  - lia.
Defined.

(** ** Rules for reading off what a computation calls *)

Lemma runs_ret {A} (e : bool) (a : A) (R : A -> list Call -> Prop) :
  R a [] -> Runs e (ret a) R.
Proof.
  intros H s He. exists []. cbn. rewrite app_nil_r. auto.
Qed.

Lemma runs_bind {A B} (e : bool) (m : M A) (k : A -> M B)
    (R1 : A -> list Call -> Prop) (R2 : B -> list Call -> Prop) :
  Runs e m R1 ->
  (forall a made1, R1 a made1 ->
                   Runs e (k a) (fun b made2 => R2 b (made1 ++ made2))) ->
  Runs e (bind m k) R2.
Proof.
  intros Hm Hk s He. unfold bind.
  destruct (Hm s He) as (made1 & Hc1 & He1 & H1).
  destruct (m s) as [a s1]. cbn [fst snd] in *.
  destruct (Hk a made1 H1 s1 He1) as (made2 & Hc2 & He2 & H2).
  exists (made1 ++ made2). rewrite Hc2, Hc1, app_assoc. auto.
Qed.

Lemma runs_weaken {A} (e : bool) (m : M A) (R R' : A -> list Call -> Prop) :
  Runs e m R -> (forall a made, R a made -> R' a made) -> Runs e m R'.
Proof.
  intros Hm Himp s He. destruct (Hm s He) as (made & ? & ? & ?).
  exists made. auto.
Qed.

Lemma runs_call (e : bool) (c : Call) :
  Runs e (call c) (fun _ made => made = [c]).
Proof. intros s He. exists [c]. cbn. auto. Qed.

Lemma runs_get_mEngBuild (e : bool) :
  Runs e (get mEngBuild) (fun b made => b = e /\ made = []).
Proof. intros s He. exists []. cbn. rewrite app_nil_r. auto. Qed.

Lemma runs_get_mProcessor (e : bool) :
  Runs e (get mProcessor) (fun _ made => made = []).
Proof. intros s He. exists []. cbn. rewrite app_nil_r. auto. Qed.

Lemma runs_dprintf (e : bool) (fd : Z) (text : string) :
  Runs e (dprintf fd text) (fun _ made => made = []).
Proof. intros s He. exists []. cbn. rewrite app_nil_r. auto. Qed.

Lemma runs_VLOG (e : bool) : Runs e VLOG (fun _ made => made = []).
Proof. apply runs_ret. reflexivity. Qed.

Lemma runs_only_printed {A} (e : bool) (m : M A) :
  (forall s, only_printed s (snd (m s))) ->
  Runs e m (fun _ made => made = []).
Proof.
  intros H s He. destruct (H s) as (Hc & _ & He' & _).
  exists []. rewrite app_nil_r, Hc, He'. auto.
Qed.

Lemma runs_print_cmd_help (e : bool) (out : Z) :
  Runs e (print_cmd_help out) (fun _ made => made = []).
Proof. apply runs_only_printed. apply print_cmd_help_only_prints. Qed.

Lemma dprintf_bytes_only_prints (out : Z) (data : list uint8_t) (s : Service) :
  only_printed s (snd (dprintf_bytes out data s)).
Proof.
  unfold dprintf_bytes. revert s.
  induction data as [| b data IH]; intros s.
  - apply only_printed_refl.
  - cbn [fold_right]. unfold bind at 1, dprintf_c at 1. cbv beta iota.
    eapply only_printed_trans; [| apply IH]. repeat split.
Qed.

Lemma runs_dprintf_bytes (e : bool) (out : Z) (data : list uint8_t) :
  Runs e (dprintf_bytes out data) (fun _ made => made = []).
Proof. apply runs_only_printed. apply dprintf_bytes_only_prints. Qed.

(** ** Whom the shell commands act as *)

Lemma getUidFromString_accepts (mEngBuild : bool) (C : Z) (s : string)
    (uid0 uid : Z) :
  getUidFromString mEngBuild C s uid0 = (true, uid) ->
  may_act_as mEngBuild C uid.
Proof.
  unfold getUidFromString, may_act_as.
  destruct s as [| ch s']; [discriminate |].
  destruct (CLib.strtol (String ch s') 0) as [T rest].
  destruct rest; [| discriminate].
  destruct ((T <? 0) || negb (to_uint64 T =? to_uint32 (to_int32 T)));
    [discriminate |].
  intros [= H <-].
  apply orb_true_iff in H as [H | H].
  - apply orb_true_iff in H as [H | H]; [left; exact H |].
    right; left. apply Z.eqb_eq. exact H.
  - apply andb_true_iff in H as [H1 H2].
    right; right. split; apply Z.eqb_eq; assumption.
Qed.

Lemma acts_allowed_nil (e : bool) (C : Z) : acts_allowed e C [].
Proof. apply Forall_nil. Qed.

Lemma acts_allowed_one (e : bool) (C : Z) (call : Call) :
  call_permitted e C call -> acts_allowed e C [call].
Proof. intros H. apply Forall_cons; [exact H | apply Forall_nil]. Qed.

(** [config update], once the arguments are accepted: one configuration
    installed and [NO_ERROR], or nothing installed and [UNKNOWN_ERROR]. *)
Lemma runs_cmd_config_update (e : bool) (w : World) (err in_ uid : Z)
    (name : string) :
  Runs e (cmd_config_update w err in_ uid name)
    (fun status made =>
       (status = NO_ERROR
        /\ exists buffer,
             made = [ConfigManager_UpdateConfig
                       (MkConfigKey uid (fst (CLib.strtoll name 10)))
                       (StatsdConfig_parsed buffer)]
             /\ numeric 10 name = true
             /\ ReadFdToString w in_ = Some buffer
             /\ StatsdConfig_parses w buffer = true)
       \/ (status = UNKNOWN_ERROR /\ made = [])).
Proof.
  unfold cmd_config_update, numeric, CLib.strtoll.
  destruct (CLib.strtol name 10) as [configID endp]. cbn [fst].
  destruct (at_start name endp || negb (String.eqb endp "")) eqn:Hbad.
  - eapply runs_bind; [apply runs_dprintf |].
    intros _ made1 ->. apply runs_ret. right. auto.
  - apply orb_false_elim in Hbad as [Hstart Hend].
    destruct (ReadFdToString w in_) as [buffer |] eqn:Hread.
    + destruct (StatsdConfig_parses w buffer) eqn:Hparse; cbn [negb].
      * eapply runs_bind; [apply runs_call |].
        intros _ made1 ->. apply runs_ret. left. split; [reflexivity |].
        exists buffer. rewrite Hstart.
        apply negb_false_iff in Hend. rewrite Hend. auto.
      * eapply runs_bind; [apply runs_dprintf |].
        intros _ made1 ->. apply runs_ret. right. auto.
    + eapply runs_bind; [apply runs_dprintf |].
      intros _ made1 ->. apply runs_ret. right. auto.
Qed.

Lemma runs_cmd_remove_all_configs (e : bool) (out : Z) :
  Runs e (cmd_remove_all_configs out)
    (fun _ made =>
       made = [ConfigManager_RemoveAllConfigs;
               StorageManager_deleteAllFiles STATS_SERVICE_DIR]).
Proof.
  unfold cmd_remove_all_configs.
  eapply runs_bind; [apply runs_dprintf |]. intros _ made1 ->.
  eapply runs_bind; [apply runs_VLOG |]. intros _ made2 ->.
  eapply runs_bind; [apply runs_call |]. intros _ made3 ->.
  eapply runs_bind; [apply runs_call |]. intros _ made4 ->.
  apply runs_ret. reflexivity.
Qed.

(** The argument stage shared by the commands that take [[UID] NAME]:
    what it hands on, when it says the arguments are good, is a uid the
    caller may act as. *)
Lemma runs_uid_from_args (e : bool) (C : Z) (fd : Z) (text s1 s2 : string)
    (uid0 : Z) :
  Runs e
    (let '(good, uid) := getUidFromString e C s1 uid0 in
     (if negb good then dprintf fd text else ret tt) ;;
     ret (good, uid, s2))
    (fun x made =>
       made = [] /\ (fst (fst x) = true -> may_act_as e C (snd (fst x)))).
Proof.
  destruct (getUidFromString e C s1 uid0) as [good uid] eqn:Huid.
  eapply runs_bind.
  - destruct good; cbn [negb]; [apply runs_VLOG | apply runs_dprintf].
  - intros _ made1 ->. apply runs_ret. split; [reflexivity |].
    cbn [fst snd]. intros ->. apply (getUidFromString_accepts e C s1 uid0).
    exact Huid.
Qed.

Lemma runs_cmd_config (c : Caller) (w : World) (in_ out err : Z)
    (args : list string) (e : bool) :
  Runs e (cmd_config c w in_ out err args)
    (fun status made =>
       acts_allowed e (AIBinder_getCallingUid c) made
       /\ ((status = UNKNOWN_ERROR /\ made = [])
           \/ (status = NO_ERROR /\ made <> []))).
Proof.
  unfold cmd_config.
  set (argCount := Z.of_nat (List.length args)).
  set (arg1 := nth 1 args "").
  destruct ((2 <=? argCount)
            && (String.eqb arg1 "update" || String.eqb arg1 "remove")).
  2: { eapply runs_bind; [apply runs_print_cmd_help |].
       intros u made1 ->. apply runs_ret.
       split; [apply acts_allowed_nil | left; auto]. }
  eapply runs_bind; [apply runs_get_mEngBuild |].
  intros b made0 [-> ->]. cbn [app].
  eapply (runs_bind e _ _
            (fun x made =>
               made = []
               /\ (fst (fst x) = true ->
                   may_act_as e (AIBinder_getCallingUid c) (snd (fst x))
                   \/ ((argCount =? 2) = true
                       /\ String.eqb arg1 "remove" = true)))).
  - destruct (argCount =? 3).
    { apply runs_ret. split; [reflexivity |]. intros _. left.
      right; left. reflexivity. }
    destruct (argCount =? 4).
    { eapply runs_weaken; [apply runs_uid_from_args |].
      intros x made [-> H]. split; [reflexivity |]. intros Hg. left. auto. }
    destruct ((argCount =? 2) && String.eqb arg1 "remove") eqn:Hall.
    { apply runs_ret. split; [reflexivity |]. intros _. right.
      apply andb_true_iff in Hall. exact Hall. }
    apply runs_ret. split; [reflexivity | discriminate].
  - intros [[good uid] name] made1 [-> Hgood]. cbn [fst snd app] in *.
    destruct good; cbn [negb].
    2: { eapply runs_bind; [apply runs_print_cmd_help |].
         intros u made2 ->. apply runs_ret.
         split; [apply acts_allowed_nil | left; auto]. }
    specialize (Hgood eq_refl).
    destruct (String.eqb arg1 "update") eqn:Hupdate.
    + (* update *)
      assert (Hmay : may_act_as e (AIBinder_getCallingUid c) uid).
      { destruct Hgood as [H | [_ Hremove]]; [exact H |].
        apply String.eqb_eq in Hupdate, Hremove. congruence. }
      eapply runs_weaken; [apply runs_cmd_config_update |].
      intros status made [(-> & buffer & -> & _) | [-> ->]].
      * split; [| right; split; [reflexivity | discriminate]].
        apply acts_allowed_one. exact Hmay.
      * split; [apply acts_allowed_nil | left; auto].
    + (* remove *)
      eapply (runs_bind e _ _
                (fun _ made =>
                   acts_allowed e (AIBinder_getCallingUid c) made
                   /\ made <> [])).
      * destruct (argCount =? 2) eqn:Hcount.
        -- eapply runs_bind; [apply runs_cmd_remove_all_configs |].
           intros u made2 ->. apply runs_ret. rewrite app_nil_r.
           split; [| discriminate].
           apply Forall_cons; [exact I |].
           apply Forall_cons; [reflexivity | apply Forall_nil].
        -- eapply runs_weaken; [apply runs_call |].
           intros u made ->. split; [| discriminate].
           apply acts_allowed_one.
           destruct Hgood as [H | [Habs _]]; [exact H | discriminate].
      * intros u made2 [H2 Hne]. apply runs_ret. rewrite app_nil_r.
        split; [exact H2 | right; auto].
Qed.

Lemma runs_cmd_dump_report_positional (c : Caller) (w : World) (out : Z)
    (f : DumpReportFlags) (args : list string) (e : bool) :
  Runs e (cmd_dump_report_positional c w out f args)
    (fun status made =>
       acts_allowed e (AIBinder_getCallingUid c) made
       /\ ((status = UNKNOWN_ERROR /\ made = [])
           \/ (status = OK
               /\ exists key,
                    made = [Processor_onDumpReport key (getElapsedRealtimeNs w)
                              (getWallClockNs w) (flags_includeCurrentBucket f)
                              (flags_eraseData f) ADB_DUMP
                              NO_TIME_CONSTRAINTS]))).
Proof.
  unfold cmd_dump_report_positional.
  eapply runs_bind; [apply runs_get_mEngBuild |].
  intros b made0 [-> ->]. cbn [app].
  eapply (runs_bind e _ _
            (fun x made =>
               made = []
               /\ (fst (fst x) = true ->
                   may_act_as e (AIBinder_getCallingUid c) (snd (fst x))))).
  - destruct (flags_argCount f =? 2).
    { apply runs_ret. split; [reflexivity |]. intros _.
      right; left. reflexivity. }
    destruct (flags_argCount f =? 3).
    { apply runs_uid_from_args. }
    apply runs_ret. split; [reflexivity | discriminate].
  - intros [[good uid] name] made1 [-> Hgood]. cbn [fst snd app] in *.
    destruct good.
    2: { eapply runs_bind; [apply runs_print_cmd_help |].
         intros u made2 ->. apply runs_ret.
         split; [apply acts_allowed_nil | left; auto]. }
    specialize (Hgood eq_refl).
    eapply runs_bind; [apply runs_call |]. intros u made2 ->.
    eapply (runs_bind e _ _ (fun _ made => made = [])).
    + destruct (flags_proto f); [apply runs_dprintf_bytes | apply runs_dprintf].
    + intros u' made3 ->. apply runs_ret. cbn [app].
      split; [| right; split; [reflexivity | eexists; reflexivity]].
      apply acts_allowed_one. exact Hgood.
Qed.

(** X6. [cmd_config] fails as a whole: whenever it returns
    [UNKNOWN_ERROR] -- unusable arguments, a refused UID, a configuration
    id that is not a number, a stream that cannot be read, bytes that do
    not parse -- it has made no call on any collaborator; and when it
    returns [NO_ERROR] it has made at least one.  It returns nothing
    else. *)
Theorem cmd_config_fails_without_effect (c : Caller) (w : World)
    (in_ out err : Z) (args : list string) (s : Service) :
  (fst (cmd_config c w in_ out err args s) = UNKNOWN_ERROR
   /\ calls (snd (cmd_config c w in_ out err args s)) = calls s)
  \/ (fst (cmd_config c w in_ out err args s) = NO_ERROR
      /\ exists call made,
           calls (snd (cmd_config c w in_ out err args s))
           = calls s ++ call :: made).
Proof.
  destruct (runs_cmd_config c w in_ out err args (mEngBuild s) s eq_refl)
    as (made & Hcalls & _ & _ & [[Hst ->] | [Hst Hne]]).
  - left. rewrite app_nil_r in Hcalls. auto.
  - right. split; [exact Hst |].
    destruct made as [| call made]; [congruence |].
    exists call, made. exact Hcalls.
Qed.

(** X7. [dump-report], called with the subcommand name first on a
    service that has its processor: the report is erased exactly when
    [--keep_data] is not among the trailing flags the specification
    strips, and the current bucket is included exactly when
    [--include_current_bucket] is.  The command makes that one call on
    the processor and returns [OK], or fails with [UNKNOWN_ERROR] having
    made no call; it never aborts on an argument access. *)
Theorem dump_report_erases_unless_kept (c : Caller) (w : World) (out : Z)
    (args : list string) (s : Service) :
  args <> [] ->
  is_dump_report_flag (hd "" args) = false ->
  mProcessor s = true ->
  exists (proto includeCurrentBucket keepData : bool) (remaining : list string),
    spec_dump_report_flags args
    = (proto, includeCurrentBucket, keepData, remaining)
    /\ ((fst (cmd_dump_report c w out args s) = Some UNKNOWN_ERROR
         /\ calls (snd (cmd_dump_report c w out args s)) = calls s)
        \/ (fst (cmd_dump_report c w out args s) = Some OK
            /\ exists key,
                 calls (snd (cmd_dump_report c w out args s))
                 = calls s
                   ++ [Processor_onDumpReport key (getElapsedRealtimeNs w)
                         (getWallClockNs w) includeCurrentBucket
                         (negb keepData) ADB_DUMP NO_TIME_CONSTRAINTS])).
Proof.
  intros Hne Hhead Hproc.
  unfold is_dump_report_flag in Hhead.
  apply orb_false_elim in Hhead as [Hhead Hkeep].
  apply orb_false_elim in Hhead as [Hproto Hinc].
  assert (Hlen : (1 <= List.length args <= List.length args)%nat).
  { destruct args; [congruence | cbn; lia]. }
  destruct (strip_flag_refines "--proto" args _ Hlen Hproto)
    as (proto & n1 & Hc1 & Hs1 & Hn1).
  destruct (strip_flag_refines "--include_current_bucket" args n1 Hn1 Hinc)
    as (inc & n2 & Hc2 & Hs2 & Hn2).
  destruct (strip_flag_refines "--keep_data" args n2 Hn2 Hkeep)
    as (keep & n3 & Hc3 & Hs3 & Hn3).
  rewrite firstn_all in Hs1.
  exists proto, inc, keep, (firstn n3 args).
  split.
  { unfold spec_dump_report_flags. rewrite Hs1, Hs2, Hs3. reflexivity. }
  assert (E : cmd_dump_report c w out args s
              = let (status, s1) :=
                  cmd_dump_report_positional c w out
                    (MkDumpReportFlags (Z.of_nat n3) proto inc (negb keep))
                    args s in
                (Some status, s1)).
  { unfold cmd_dump_report, cmd_dump_report_flags.
    rewrite Hc1, Hc2, Hc3. unfold bind, get, ret. cbv beta iota.
    rewrite Hproc. reflexivity. }
  rewrite E.
  destruct (runs_cmd_dump_report_positional c w out
              (MkDumpReportFlags (Z.of_nat n3) proto inc (negb keep)) args
              (mEngBuild s) s eq_refl)
    as (made & Hcalls & _ & _ & Hres).
  destruct (cmd_dump_report_positional c w out
              (MkDumpReportFlags (Z.of_nat n3) proto inc (negb keep)) args s)
    as [st s1].
  cbn [fst snd flags_includeCurrentBucket flags_eraseData] in *.
  destruct Hres as [[-> ->] | (-> & key & ->)].
  - left. rewrite app_nil_r in Hcalls. auto.
  - right. split; [reflexivity |]. exists key. exact Hcalls.
Qed.

Lemma dump_report_erases_unless_kept_witness :
  exists (proto includeCurrentBucket keepData : bool) (remaining : list string),
    spec_dump_report_flags ["dump-report"; "42"; "--keep_data"; "--proto"]
    = (proto, includeCurrentBucket, keepData, remaining)
    /\ ((fst (cmd_dump_report Scenario.shell_user (Scenario.world [9]) 1
                ["dump-report"; "42"; "--keep_data"; "--proto"]
                (Scenario.fresh false 1000)) = Some UNKNOWN_ERROR
         /\ calls (snd (cmd_dump_report Scenario.shell_user
                          (Scenario.world [9]) 1
                          ["dump-report"; "42"; "--keep_data"; "--proto"]
                          (Scenario.fresh false 1000)))
            = calls (Scenario.fresh false 1000))
        \/ (fst (cmd_dump_report Scenario.shell_user (Scenario.world [9]) 1
                   ["dump-report"; "42"; "--keep_data"; "--proto"]
                   (Scenario.fresh false 1000)) = Some OK
            /\ exists key,
                 calls (snd (cmd_dump_report Scenario.shell_user
                               (Scenario.world [9]) 1
                               ["dump-report"; "42"; "--keep_data"; "--proto"]
                               (Scenario.fresh false 1000)))
                 = calls (Scenario.fresh false 1000)
                   ++ [Processor_onDumpReport key
                         (getElapsedRealtimeNs (Scenario.world [9]))
                         (getWallClockNs (Scenario.world [9]))
                         includeCurrentBucket (negb keepData) ADB_DUMP
                         NO_TIME_CONSTRAINTS])).
Proof.
  apply (dump_report_erases_unless_kept Scenario.shell_user
           (Scenario.world [9]) 1
           ["dump-report"; "42"; "--keep_data"; "--proto"]
           (Scenario.fresh false 1000)).
  - discriminate.
  - reflexivity.
  - reflexivity.
Defined.

(** ** The frame [getDataFd] writes *)

Lemma decode_big_endian (n : Z) :
  0 <= n < 2 ^ 32 ->
  decode_big_endian_u32 (big_endian_u32 n) = Some n.
Proof.
  intros Hn. unfold decode_big_endian_u32, big_endian_u32. f_equal.
  change (2 ^ 24) with 16777216. change (2 ^ 16) with 65536.
  change (2 ^ 8) with 256. change (2 ^ 32) with 4294967296 in Hn.
  Z.to_euclidean_division_equations. lia.
Qed.

(** X8. What [getDataFd] writes can be read back. For an admitted
    caller, a report below [INT32_MAX] bytes and a descriptor with room
    for all of it, the bytes appended to the descriptor form one frame
    from which a reader that takes four bytes of big-endian size and then
    that many bytes recovers the report exactly, leaving whatever follows
    in the stream unread. *)
Theorem getDataFd_frame_reads_back (c : Caller) (w : World)
    (key callingUid fd : Z) (s : Service) (following : list uint8_t) :
  uid_allowed c AID_SYSTEM = true ->
  Z.of_nat (List.length (onDumpReport_output w (MkConfigKey callingUid key) []))
  < INT32_MAX ->
  (4 + List.length (onDumpReport_output w (MkConfigKey callingUid key) [])
   <= room (fds s fd))%nat ->
  exists frame,
    fst (getDataFd c w key callingUid fd s) = Status_ok
    /\ written (fds (snd (getDataFd c w key callingUid fd s)) fd)
       = written (fds s fd) ++ frame
    /\ read_frame (frame ++ following)
       = Some (onDumpReport_output w (MkConfigKey callingUid key) [],
               following).
Proof.
  intros Hallowed Hsmall Hroom.
  set (report := onDumpReport_output w (MkConfigKey callingUid key) []) in *.
  set (size := Z.of_nat (List.length report)) in *.
  assert (Hrange : 0 <= size < 2 ^ 32)
    by (unfold INT32_MAX in Hsmall; subst size; lia).
  rewrite (getDataFd_admitted c w key callingUid fd s Hallowed).
  fold report. fold size.
  replace (INT32_MAX <=? size) with false
    by (symmetry; apply Z.leb_gt; exact Hsmall).
  assert (Hsize : to_uint32 size = size)
    by (unfold to_uint32; apply Z.mod_small; exact Hrange).
  rewrite Hsize, (object_bytes_of_htonl size Hrange).
  assert (Hlen : List.length (big_endian_u32 size) = 4%nat) by reflexivity.
  replace (4 <=? room (fds s fd))%nat with true
    by (symmetry; apply Nat.leb_le; lia).
  replace (List.length report
           <=? room (raw_write (fds s fd) (big_endian_u32 size)))%nat
    with true by (symmetry; apply Nat.leb_le; cbn; lia).
  exists (big_endian_u32 size ++ report).
  split; [reflexivity |]. split.
  - cbn [fst snd]. rewrite set_fd_same.
    rewrite raw_write_twice by (rewrite Hlen; lia).
    rewrite firstn_all2; [reflexivity |]. rewrite length_app, Hlen. lia.
  - unfold read_frame. rewrite <- app_assoc.
    rewrite (firstn_app 4), Hlen, (firstn_all2 (big_endian_u32 size))
      by (rewrite Hlen; lia).
    cbn [Nat.sub firstn]. rewrite app_nil_r.
    rewrite (decode_big_endian size Hrange).
    rewrite (skipn_app 4), Hlen, (skipn_all2 (big_endian_u32 size))
      by (rewrite Hlen; lia).
    cbn [Nat.sub skipn app].
    replace (size <=? Z.of_nat (List.length (report ++ following))) with true
      by (symmetry; apply Z.leb_le; rewrite length_app; subst size; lia).
    assert (Hn : Z.to_nat size = List.length report)
      by (subst size; apply Nat2Z.id).
    rewrite Hn, firstn_app, skipn_app, Nat.sub_diag, firstn_all, skipn_all.
    cbn. rewrite app_nil_r. reflexivity.
Qed.

Lemma getDataFd_frame_reads_back_witness :
  exists frame,
    fst (getDataFd Scenario.system_server (Scenario.world [1; 2; 3]) 42 10123
           3 (Scenario.fresh false 100)) = Status_ok
    /\ written (fds (snd (getDataFd Scenario.system_server
                            (Scenario.world [1; 2; 3]) 42 10123 3
                            (Scenario.fresh false 100))) 3)
       = written (fds (Scenario.fresh false 100) 3) ++ frame
    /\ read_frame (frame ++ [0; 0; 0; 1; 9])
       = Some (onDumpReport_output (Scenario.world [1; 2; 3])
                 (MkConfigKey 10123 42) [],
               [0; 0; 0; 1; 9]).
Proof.
  apply (getDataFd_frame_reads_back Scenario.system_server
           (Scenario.world [1; 2; 3]) 42 10123 3 (Scenario.fresh false 100)
           [0; 0; 0; 1; 9]).
  - reflexivity.
  - reflexivity.
  - cbn. lia.
Defined.

(* ----------------------------------------------------------------- *)
(** *** Decimal numerals read back *)

Lemma digits_decimal (d : Decimal.uint) (acc : Z) (any : bool) :
  CLib.digits 10 acc any (NilEmpty.string_of_uint d)
  = (uint_value d acc,
     match d with Decimal.Nil => any | _ => true end, "").
Proof.
  revert acc any.
  induction d; intros acc any; cbn [NilEmpty.string_of_uint uint_value];
    try reflexivity;
    (cbn [CLib.digits];
     match goal with
     | |- context [CLib.digit_val ?c] =>
         change (CLib.digit_val c) with (Some (Z.of_nat (nat_of_ascii c) - 48))
     end;
     cbv beta iota;
     match goal with
     | |- context [?a <? 10] => change (a <? 10) with true
     end;
     cbv beta iota; rewrite IHd; destruct d; reflexivity).
Qed.

Lemma of_uint_acc_value (d : Decimal.uint) (acc : positive) :
  Z.pos (Pos.of_uint_acc d acc) = uint_value d (Z.pos acc).
Proof.
  revert acc.
  induction d; intros acc; cbn [Pos.of_uint_acc uint_value];
    try reflexivity;
    rewrite IHd; f_equal; lia.
Qed.

Lemma of_uint_value (d : Decimal.uint) :
  Z.of_N (Pos.of_uint d) = uint_value d 0.
Proof.
  induction d; cbn [Pos.of_uint uint_value]; try reflexivity;
    try exact IHd;
    cbn [Z.of_N]; rewrite of_uint_acc_value; reflexivity.
Qed.

Lemma strtol_decimal_pos (p : positive) :
  decimal (Z.pos p) <> ""
  /\ CLib.strtol (decimal (Z.pos p)) 0
     = (CLib.clamp LONG_MIN LONG_MAX (Z.pos p), "").
Proof.
  unfold decimal. cbn [Z.to_int NilZero.string_of_int].
  pose proof (DecimalPos.Unsigned.of_to p) as Hof.
  pose proof (DecimalPos.Unsigned.to_of (Pos.to_uint p)) as Hto.
  rewrite Hof in Hto. cbn [N.to_uint] in Hto.
  pose proof (of_uint_value (Pos.to_uint p)) as Hval.
  rewrite Hof in Hval. cbn [Z.of_N] in Hval.
  pose proof (digits_decimal (Pos.to_uint p) 0 false) as Hdig.
  rewrite <- Hval in Hdig.
  destruct (Pos.to_uint p) as [| d | d | d | d | d | d | d | d | d | d] eqn:E.
  1: discriminate Hof.
  1: { exfalso. unfold Decimal.unorm in Hto. cbn [Decimal.nzhead] in Hto.
       destruct (Decimal.nzhead d) eqn:En;
         try (apply (DecimalFacts.nzhead_nonzero d d); congruence).
       injection Hto as ->. discriminate Hof. }
  all: cbn [NilZero.string_of_uint NilEmpty.string_of_uint] in *;
    (split; [discriminate |]);
    unfold CLib.strtol; cbn [CLib.skip_space];
    match goal with
    | |- context [CLib.isspace ?c] => change (CLib.isspace c) with false
    end;
    cbv iota; cbn [CLib.take_sign CLib.take_base Z.eqb];
    rewrite Hdig; reflexivity.
Qed.

Lemma strtol_decimal (T : Z) :
  0 <= T <= LONG_MAX ->
  decimal T <> "" /\ CLib.strtol (decimal T) 0 = (T, "").
Proof.
  intros HT. destruct T as [| p | p].
  - split; [discriminate | reflexivity].
  - destruct (strtol_decimal_pos p) as [Hne Hs]. split; [exact Hne |].
    rewrite Hs. f_equal. unfold CLib.clamp, LONG_MIN, LONG_MAX in *. lia.
  - lia.
Qed.

(** X9. A uid written as a decimal numeral is read back as that uid:
    for a caller [C] and a target [T] in the [uid_t] range,
    [getUidFromString] on the numeral of [T] sets [uid] to [T] and
    answers by the rule of the build type, the caller's own uid and
    root acting as shell.  In particular every caller may name its own
    uid. *)
Theorem getUidFromString_reads_decimal (mEngBuild : bool) (C T uid0 : Z) :
  0 <= C < 2 ^ 32 ->
  0 <= T < 2 ^ 32 ->
  getUidFromString mEngBuild C (decimal T) uid0
  = (mEngBuild || (C =? T) || ((C =? AID_ROOT) && (T =? AID_SHELL)),
     to_int32 T)
  /\ fst (getUidFromString mEngBuild C (decimal C) uid0) = true.
Proof.
  intros HC HT.
  assert (Hread : forall U, 0 <= U < 2 ^ 32 ->
            getUidFromString mEngBuild C (decimal U) uid0
            = (mEngBuild || (C =? U) || ((C =? AID_ROOT) && (U =? AID_SHELL)),
               to_int32 U)).
  { intros U HU.
    destruct (strtol_decimal U) as [Hne Hs];
      [unfold LONG_MAX; lia |].
    apply getUidFromString_in_range; assumption. }
  split; [apply Hread; exact HT |].
  rewrite (Hread C HC). cbn [fst]. rewrite Z.eqb_refl.
  destruct mEngBuild; reflexivity.
Qed.

Lemma getUidFromString_reads_decimal_witness :
  getUidFromString false 0 (decimal 2000) 7 = (true, 2000)
  /\ getUidFromString false 10123 (decimal 1000) 7 = (false, 1000)
  /\ fst (getUidFromString false 10123 (decimal 10123) 7) = true.
Proof.
  pose proof (getUidFromString_reads_decimal false 0 2000 7
                ltac:(lia) ltac:(lia)) as [H1 _].
  pose proof (getUidFromString_reads_decimal false 10123 1000 7
                ltac:(lia) ltac:(lia)) as [H2 H3].
  split; [exact H1 | split; [exact H2 | exact H3]].
Defined.

Lemma getUidFromString_not_a_uid_witness :
  getUidFromString true 0 "4294967296" 7 = (false, 7).
Proof.
  apply (getUidFromString_not_a_uid true 0 "4294967296" 7).
  right; right; right. vm_compute. discriminate.
Defined.

(* ================================================================= *)
(** ** The shell and dumpsys surface *)

(** *** Rules for [Safe] *)

Lemma safe_ret {A} (P : Effect -> Prop) (e : bool) (a : A) (Q : A -> Prop) :
  Q a -> Safe P e (retD a) Q.
Proof.
  intros H d He. exists a, d, []. rewrite app_nil_r.
  repeat split; auto.
Qed.

Lemma safe_bind {A B} (P : Effect -> Prop) (e : bool) (m : D A)
    (k : A -> D B) (Q1 : A -> Prop) (Q2 : B -> Prop) :
  Safe P e m Q1 ->
  (forall a, Q1 a -> Safe P e (k a) Q2) ->
  Safe P e (bindD m k) Q2.
Proof.
  intros Hm Hk d He. unfold bindD.
  destruct (Hm d He) as (a & d1 & made1 & -> & Ht1 & He1 & HP1 & H1).
  destruct (Hk a H1 d1 He1) as (b & d2 & made2 & -> & Ht2 & He2 & HP2 & H2).
  exists b, d2, (made1 ++ made2).
  rewrite Ht2, Ht1, app_assoc.
  repeat split; auto. apply Forall_app. split; assumption.
Qed.

Lemma safe_effect (P : Effect -> Prop) (e : bool) (x : Effect) :
  P x -> Safe P e (effect x) (fun _ => True).
Proof.
  intros H d He. exists tt, (MkDaemon (service d) (trace d ++ [x])), [x].
  repeat split; auto.
Qed.

Lemma arg_at_in_range (args : list string) (i : Z) :
  0 <= i < Z.of_nat (List.length args) ->
  exists a, arg_at args i = Some a.
Proof.
  intros Hi. unfold arg_at.
  replace (i <? 0) with false by (symmetry; apply Z.ltb_ge; lia).
  destruct (nth_error args (Z.to_nat i)) as [a |] eqn:Hnth.
  - exists a. reflexivity.
  - apply nth_error_None in Hnth. lia.
Qed.

Lemma safe_arg (P : Effect -> Prop) (e : bool) (args : list string) (i : Z) :
  0 <= i < Z.of_nat (List.length args) ->
  Safe P e (arg args i) (fun _ => True).
Proof.
  intros Hi d He. destruct (arg_at_in_range args i Hi) as [a Ha].
  exists a, d, []. unfold arg. rewrite Ha, app_nil_r.
  repeat split; auto.
Qed.

Lemma skipn_length_app {A} (l made : list A) :
  skipn (List.length l) (l ++ made) = made.
Proof. induction l as [| x l IH]; [reflexivity | exact IH]. Qed.

Lemma safe_lift {A} (P : Effect -> Prop) (e : bool) (m : M A)
    (R : A -> list Call -> Prop) (Q : A -> Prop) :
  Runs e m R ->
  (forall a made, R a made -> Forall (fun call => P (Base call)) made /\ Q a) ->
  Safe P e (lift m) Q.
Proof.
  intros Hm Himp d He. unfold lift.
  destruct (Hm (service d) He) as (made & Hc & He1 & HR).
  destruct (m (service d)) as [a s1]. cbn [fst snd] in *.
  destruct (Himp a made HR) as [HP HQ].
  exists a, (MkDaemon s1 (trace d ++ map Base made)), (map Base made).
  rewrite Hc, skipn_length_app.
  repeat split; auto. apply Forall_map. exact HP.
Qed.

Lemma safe_lift_quiet {A} (P : Effect -> Prop) (e : bool) (m : M A) :
  Runs e m (fun _ made => made = []) ->
  Safe P e (lift m) (fun _ => True).
Proof.
  intros Hm. eapply safe_lift; [exact Hm |].
  intros a made ->. split; [apply Forall_nil | exact I].
Qed.

Lemma safe_lift_call (P : Effect -> Prop) (e : bool) (call0 : Call) :
  P (Base call0) -> Safe P e (lift (call call0)) (fun _ => True).
Proof.
  intros H. eapply safe_lift; [apply runs_call |].
  intros a made ->. split; [| exact I].
  apply Forall_cons; [exact H | apply Forall_nil].
Qed.

Lemma safe_lift_get_mEngBuild (P : Effect -> Prop) (e : bool) :
  Safe P e (lift (get mEngBuild)) (fun b => b = e).
Proof.
  eapply safe_lift; [apply runs_get_mEngBuild |].
  intros a made [-> ->]. split; [apply Forall_nil | reflexivity].
Qed.

Lemma safe_lift_abortable {A} (P : Effect -> Prop) (e : bool)
    (m : M (option A)) (R : option A -> list Call -> Prop) (Q : A -> Prop) :
  Runs e m R ->
  (forall r made, R r made ->
     Forall (fun call => P (Base call)) made /\ exists a, r = Some a /\ Q a) ->
  Safe P e (lift_abortable m) Q.
Proof.
  intros Hm Himp. unfold lift_abortable.
  eapply safe_bind.
  - eapply safe_lift; [exact Hm |].
    intros r made HR. destruct (Himp r made HR) as [HP HQ].
    split; [exact HP | exact HQ].
  - intros r (a & -> & HQ). apply safe_ret. exact HQ.
Qed.

(** One statement of a command, then the rest. *)
Ltac quiet :=
  apply safe_lift_quiet;
  lazymatch goal with
  | |- Runs _ (dprintf _ _) _ => apply runs_dprintf
  | |- Runs _ VLOG _ => apply runs_VLOG
  | |- Runs _ (print_cmd_help _) _ => apply runs_print_cmd_help
  | |- Runs _ (dprintf_bytes _ _) _ => apply runs_dprintf_bytes
  end.

Ltac harmless := first [exact I | reflexivity | (split; reflexivity)].

Ltac seq tac := eapply safe_bind; [tac | intros ? _].

(** *** The commands one by one *)

Section ShellFacts.

Variable c : Caller.
Variable w : World.
Variable p : Platform.
Variable e : bool.

Lemma permitted_base_allowed (made : list Call) :
  acts_allowed e (AIBinder_getCallingUid c) made ->
  Forall (fun call => permitted e c p (Base call)) made.
Proof.
  intros H. exact H.
Qed.

Lemma status_no_error : is_status NO_ERROR.
Proof. left. reflexivity. Qed.

Lemma status_unknown_error : is_status UNKNOWN_ERROR.
Proof. right; left. reflexivity. Qed.

Lemma status_permission_denied : is_status PERMISSION_DENIED.
Proof. right; right. reflexivity. Qed.

Lemma runs_print_uids (out : Z) (uids : list Z) :
  Runs e (print_uids out uids) (fun _ made => made = []).
Proof.
  induction uids as [| uid rest IH]; cbn [print_uids].
  - apply runs_ret. reflexivity.
  - eapply runs_bind; [apply runs_dprintf |]. intros u made1 ->. exact IH.
Qed.

Lemma runs_print_pulled (out s : Z) (stats : list string) :
  Runs e (print_pulled out s stats) (fun _ made => made = []).
Proof.
  induction stats as [| it rest IH]; cbn [print_pulled].
  - apply runs_ret. reflexivity.
  - eapply runs_bind; [apply runs_dprintf |]. intros u made1 ->. exact IH.
Qed.

Lemma safe_cmd_print_uid_map (out : Z) (args : list string) :
  Safe (permitted e c p) e (cmd_print_uid_map p out args) is_status.
Proof.
  unfold cmd_print_uid_map.
  eapply safe_bind with (Q1 := fun _ => True).
  - destruct (1 <? List.length args)%nat eqn:Hlen.
    + apply Nat.ltb_lt in Hlen.
      eapply safe_bind; [apply safe_arg; lia |]. intros a1 _.
      destruct (String.eqb "--with_certificate_hash" a1).
      * apply safe_effect. harmless.
      * seq ltac:(apply safe_effect; harmless).
        seq quiet.
        seq ltac:(apply safe_lift_quiet; apply runs_print_uids).
        quiet.
    + apply safe_effect. harmless.
  - intros _ _. apply safe_ret. apply status_no_error.
Qed.


Lemma safe_cmd_dump_memory_info (out : Z) :
  Safe (permitted e c p) e (cmd_dump_memory_info out) is_status.
Proof.
  unfold cmd_dump_memory_info. seq quiet.
  apply safe_ret. apply status_no_error.
Qed.

Lemma safe_cmd_write_data_to_disk (out : Z) :
  Safe (permitted e c p) e (cmd_write_data_to_disk w out) is_status.
Proof.
  unfold cmd_write_data_to_disk. seq quiet.
  seq ltac:(apply safe_lift_call; harmless).
  apply safe_ret. apply status_no_error.
Qed.

Lemma safe_cmd_clear_puller_cache (out : Z) :
  Safe (permitted e c p) e (cmd_clear_puller_cache c p out) is_status.
Proof.
  unfold cmd_clear_puller_cache. seq quiet.
  destruct (checkPermission c p kPermissionDump) eqn:Hperm.
  - seq ltac:(apply safe_effect; exact Hperm).
    seq quiet. apply safe_ret. apply status_no_error.
  - apply safe_ret. apply status_permission_denied.
Qed.

Lemma runs_checkUid (expectedUid : Z) :
  Runs e (checkUid c expectedUid)
    (fun status made => made = [] /\ (isOk status = true ->
                                      uid_allowed c expectedUid = true)).
Proof.
  intros s He. exists [].
  destruct (uid_allowed c expectedUid) eqn:Hallowed.
  - rewrite (checkUid_allowed c expectedUid s Hallowed). cbn.
    rewrite app_nil_r. auto.
  - unfold checkUid. unfold uid_allowed in Hallowed. rewrite Hallowed.
    cbn. rewrite app_nil_r.
    split; [reflexivity | split; [exact He | split; [reflexivity |]]].
    discriminate.
Qed.

Lemma safe_cmd_print_logs (out : Z) (args : list string) :
  Safe (permitted e c p) e (cmd_print_logs c out args) is_status.
Proof.
  unfold cmd_print_logs.
  eapply safe_bind.
  - eapply safe_lift with (Q := fun status =>
        isOk status = true -> uid_allowed c AID_ROOT = true);
      [apply runs_checkUid |].
    intros status made [-> H]. split; [apply Forall_nil | exact H].
  - intros status Hroot. cbv beta in Hroot.
    destruct (isOk status); cbn [negb].
    2: { apply safe_ret. apply status_permission_denied. }
    specialize (Hroot eq_refl).
    assert (Huid : AIBinder_getCallingUid c = AID_ROOT).
    { unfold uid_allowed in Hroot. apply orb_true_iff in Hroot.
      destruct Hroot as [H | H]; apply Z.eqb_eq in H; exact H. }
    seq quiet.
    eapply safe_bind with (Q1 := fun _ => True).
    + destruct (2 <=? List.length args)%nat eqn:Hlen.
      * apply Nat.leb_le in Hlen.
        eapply safe_bind; [apply safe_arg; lia |]. intros a1 _.
        apply safe_ret. exact I.
      * apply safe_ret. exact I.
    + intros enabled _.
      seq ltac:(apply safe_effect; exact Huid).
      apply safe_ret. apply status_no_error.
Qed.

Lemma safe_cmd_print_pulled_metrics (out : Z) (args : list string) :
  (1 < List.length args)%nat ->
  Safe (permitted e c p) e (cmd_print_pulled_metrics w p out args) is_status.
Proof.
  intros Hlen. unfold cmd_print_pulled_metrics.
  eapply safe_bind; [apply safe_arg; lia |]. intros a1 _.
  eapply safe_bind with (Q1 := fun _ => True).
  - destruct (2 <? List.length args)%nat eqn:Hlen2.
    + apply Nat.ltb_lt in Hlen2.
      eapply safe_bind; [apply safe_arg; lia |]. intros package _.
      destruct (sAidToUidMapping p package).
      * apply safe_ret. exact I.
      * seq ltac:(apply safe_effect; harmless). apply safe_ret. exact I.
    + apply safe_ret. exact I.
  - intros uids _.
    seq ltac:(apply safe_effect; harmless).
    destruct (Pull p (CLib.atoi a1) uids (getElapsedRealtimeNs w)).
    + seq ltac:(apply safe_lift_quiet; apply runs_print_pulled).
      seq quiet. apply safe_ret. apply status_no_error.
    + apply safe_ret. apply status_unknown_error.
Qed.

Lemma safe_print_metrics_sizes (out : Z) (configs : list ConfigKey) :
  Safe (permitted e c p) e (print_metrics_sizes p out configs) (fun _ => True).
Proof.
  induction configs as [| key rest IH]; cbn [print_metrics_sizes].
  - apply safe_ret. exact I.
  - seq ltac:(apply safe_effect; harmless). seq quiet. exact IH.
Qed.

Lemma safe_cmd_print_stats (out : Z) (args : list string) :
  args <> [] ->
  Safe (permitted e c p) e (cmd_print_stats w p out args) is_status.
Proof.
  intros Hne. unfold cmd_print_stats.
  assert (Hlen : (0 < List.length args)%nat).
  { destruct args; [congruence | cbn; lia]. }
  eapply safe_bind; [apply safe_arg; lia |]. intros last _.
  eapply safe_bind with (Q1 := fun _ => True).
  - destruct (String.eqb "--proto" last).
    + seq ltac:(apply safe_lift_call; harmless). quiet.
    + seq ltac:(apply safe_effect; harmless).
      seq ltac:(apply safe_print_metrics_sizes).
      apply safe_effect. harmless.
  - intros _ _. apply safe_ret. apply status_no_error.
Qed.

Lemma safe_cmd_log_binary_push (out : Z) (args : list string) :
  Safe (permitted e c p) e (cmd_log_binary_push p out args) is_status.
Proof.
  unfold cmd_log_binary_push.
  set (argCount := Z.of_nat (List.length args)).
  destruct (negb (argCount =? 7) && negb (argCount =? 8)) eqn:Hcount.
  - seq quiet. apply safe_ret. apply status_unknown_error.
  - assert (Hlen : 7 <= argCount <= 8).
    { apply andb_false_iff in Hcount.
      destruct Hcount as [H | H]; apply negb_false_iff, Z.eqb_eq in H; lia. }
    unfold argCount in Hlen.
    eapply safe_bind; [apply safe_arg; lia |]. intros trainName _.
    eapply safe_bind; [apply safe_arg; lia |]. intros a2 _.
    eapply safe_bind; [apply safe_arg; lia |]. intros a6 _.
    eapply safe_bind with (Q1 := fun _ => True).
    + destruct (argCount =? 8) eqn:H8.
      * apply Z.eqb_eq in H8. unfold argCount in H8.
        eapply safe_bind; [apply safe_arg; lia |]. intros a7 _.
        apply safe_ret. exact I.
      * apply safe_ret. exact I.
    + intros experimentIds _. seq quiet.
      eapply safe_bind; [apply safe_arg; lia |]. intros a3 _.
      eapply safe_bind; [apply safe_arg; lia |]. intros a4 _.
      eapply safe_bind; [apply safe_arg; lia |]. intros a5 _.
      seq ltac:(apply safe_effect; harmless).
      apply safe_ret. apply status_no_error.
Qed.


Ltac acts_for_one H := exact H.

Lemma safe_send_data_broadcast (key : ConfigKey) :
  may_act_as e (AIBinder_getCallingUid c) (GetUid key) ->
  Safe (permitted e c p) e (send_data_broadcast p key) is_status.
Proof.
  intros Hmay. unfold send_data_broadcast.
  seq ltac:(apply safe_effect; acts_for_one Hmay).
  destruct (GetConfigReceiver p key) as [receiver |] eqn:Hreceiver.
  - seq ltac:(apply safe_effect; acts_for_one Hmay).
    seq ltac:(apply safe_effect; exists key; auto).
    destruct (sendDataBroadcast_isOk p (Some receiver)
                (getLastReportTimeNs p key)).
    + seq quiet. apply safe_ret. apply status_no_error.
    + seq quiet. apply safe_ret. apply status_unknown_error.
  - seq quiet. apply safe_ret. apply status_unknown_error.
Qed.

Lemma may_act_as_self :
  may_act_as e (AIBinder_getCallingUid c)
    (to_int32 (AIBinder_getCallingUid c)).
Proof. right; left. reflexivity. Qed.

Lemma safe_cmd_trigger_broadcast (out : Z) (args : list string) :
  Safe (permitted e c p) e (cmd_trigger_broadcast c w p out args) is_status.
Proof.
  unfold cmd_trigger_broadcast.
  eapply safe_bind; [apply safe_lift_get_mEngBuild |]. intros b ->.
  set (argCount := Z.of_nat (List.length args)).
  eapply safe_bind with
    (Q1 := fun x => fst (fst x) = true ->
                    may_act_as e (AIBinder_getCallingUid c) (snd (fst x))).
  - destruct (argCount =? 2) eqn:H2.
    { apply Z.eqb_eq in H2. unfold argCount in H2.
      eapply safe_bind; [apply safe_arg; lia |]. intros a1 _.
      apply safe_ret. intros _. apply may_act_as_self. }
    destruct (argCount =? 3) eqn:H3.
    { apply Z.eqb_eq in H3. unfold argCount in H3.
      eapply safe_bind; [apply safe_arg; lia |]. intros a1 _.
      destruct (getUidFromString e (AIBinder_getCallingUid c) a1 0)
        as [good uid] eqn:Huid.
      eapply safe_bind with (Q1 := fun _ => True).
      - destruct good; cbn [negb]; [apply safe_ret; exact I | quiet].
      - intros _ _.
        eapply safe_bind; [apply safe_arg; lia |]. intros a2 _.
        apply safe_ret. cbn [fst snd]. intros ->.
        apply (getUidFromString_accepts e _ a1 0). exact Huid. }
    apply safe_ret. discriminate.
  - intros [[good uid] name] Hgood. cbn [fst snd] in Hgood.
    destruct good; cbn [negb].
    + apply safe_send_data_broadcast. cbn [GetUid]. apply Hgood. reflexivity.
    + seq quiet. apply safe_ret. apply status_unknown_error.
Qed.

Lemma safe_parse_config_ids (out : Z) (ids : list string) (configIds : list Z) :
  Safe (permitted e c p) e (parse_config_ids out ids configIds) (fun _ => True).
Proof.
  revert configIds.
  induction ids as [| a rest IH]; intros configIds; cbn [parse_config_ids].
  - apply safe_ret. exact I.
  - destruct (CLib.strtoll a 10) as [configID endp].
    destruct (at_start a endp || negb (String.eqb endp "")).
    + seq quiet. apply safe_ret. exact I.
    + seq quiet. apply IH.
Qed.

Lemma safe_actual_active_configs (uid : Z) :
  may_act_as e (AIBinder_getCallingUid c) uid ->
  Safe (permitted e c p) e (actual_active_configs w uid) (fun _ => True).
Proof.
  intros Hmay. unfold actual_active_configs.
  seq ltac:(apply safe_lift_call; acts_for_one Hmay).
  apply safe_ret. exact I.
Qed.

Lemma safe_send_active_configs_broadcast (uid : Z) (configIds : list Z) :
  may_act_as e (AIBinder_getCallingUid c) uid ->
  Safe (permitted e c p) e (send_active_configs_broadcast p uid configIds)
    is_status.
Proof.
  intros Hmay. unfold send_active_configs_broadcast.
  seq ltac:(apply safe_effect; acts_for_one Hmay).
  destruct (GetActiveConfigsChangedReceiver p uid) as [receiver |]
    eqn:Hreceiver.
  - seq ltac:(apply safe_effect; exists uid; auto).
    destruct (sendActiveConfigsChangedBroadcast_isOk p (Some receiver)
                configIds).
    + seq quiet. apply safe_ret. apply status_no_error.
    + seq quiet. apply safe_ret. apply status_unknown_error.
  - seq quiet. apply safe_ret. apply status_unknown_error.
Qed.

Lemma safe_cmd_trigger_active_config_broadcast (out : Z) (args : list string) :
  args <> [] ->
  Safe (permitted e c p) e
    (cmd_trigger_active_config_broadcast c w p out args) is_status.
Proof.
  intros Hne. unfold cmd_trigger_active_config_broadcast.
  assert (Hlen : (0 < List.length args)%nat).
  { destruct args; [congruence | cbn; lia]. }
  eapply safe_bind; [apply safe_lift_get_mEngBuild |]. intros b ->.
  set (argCount := Z.of_nat (List.length args)).
  pose (allowed := fun picked : option (Z * list Z) =>
          match picked with
          | Some (uid, _) => may_act_as e (AIBinder_getCallingUid c) uid
          | None => True
          end).
  eapply safe_bind with (Q1 := allowed).
  - destruct (argCount =? 1) eqn:H1.
    { seq ltac:(apply safe_actual_active_configs; apply may_act_as_self).
      apply safe_ret. apply may_act_as_self. }
    apply Z.eqb_neq in H1. unfold argCount in H1.
    eapply safe_bind; [apply safe_arg; lia |]. intros a1 _.
    eapply safe_bind with
      (Q1 := fun chosen : option (Z * Z) =>
               match chosen with
               | Some (uid, curArg) =>
                   may_act_as e (AIBinder_getCallingUid c) uid
                   /\ 1 <= curArg <= argCount
               | None => True
               end).
    + destruct (String.prefix "--uid=" a1).
      * destruct (getUidFromString e (AIBinder_getCallingUid c)
                    (substr a1 6) 0) as [good uid] eqn:Huid.
        destruct good; cbn [negb].
        -- apply safe_ret. split.
           ++ apply (getUidFromString_accepts e _ (substr a1 6) 0). exact Huid.
           ++ unfold argCount. lia.
        -- seq quiet. apply safe_ret. exact I.
      * apply safe_ret. split; [apply may_act_as_self |].
        unfold argCount. lia.
    + intros [[uid curArg] |] Hchosen.
      2: { apply safe_ret. exact I. }
      destruct Hchosen as [Hmay Hcur].
      eapply safe_bind with (Q1 := fun _ => True).
      * destruct (curArg =? argCount) eqn:Hend.
        -- apply safe_ret. exact I.
        -- apply Z.eqb_neq in Hend. unfold argCount in *.
           eapply safe_bind; [apply safe_arg; lia |]. intros a _.
           apply safe_ret. exact I.
      * intros specified _. destruct specified; cbn [negb].
        -- eapply safe_bind; [apply safe_parse_config_ids |].
           intros [configIds |] _; apply safe_ret; [exact Hmay | exact I].
        -- seq quiet.
           seq ltac:(apply safe_actual_active_configs; exact Hmay).
           apply safe_ret. exact Hmay.
  - intros [[uid configIds] |] Hallowed.
    + apply safe_send_active_configs_broadcast. exact Hallowed.
    + apply safe_ret. apply status_unknown_error.
Qed.

Lemma runs_cmd_log_app_breadcrumb (out : Z) (args : list string) :
  Runs e (cmd_log_app_breadcrumb c out args)
    (fun status made =>
       acts_allowed e (AIBinder_getCallingUid c) made /\ is_status status).
Proof.
  unfold cmd_log_app_breadcrumb.
  eapply runs_bind; [apply runs_get_mEngBuild |].
  intros b made0 [-> ->]. cbn [app].
  set (argCount := Z.of_nat (List.length args)).
  eapply (runs_bind e _ _
            (fun x made =>
               made = []
               /\ (fst (fst (fst x)) = true ->
                   may_act_as e (AIBinder_getCallingUid c)
                     (snd (fst (fst x)))))).
  - destruct (argCount =? 3).
    { apply runs_ret. split; [reflexivity |]. intros _.
      apply may_act_as_self. }
    destruct (argCount =? 4).
    { destruct (getUidFromString e (AIBinder_getCallingUid c)
                  (nth 1 args "") 0) as [good uid] eqn:Huid.
      eapply (runs_bind e _ _ (fun _ made => made = [])).
      - destruct good; cbn [negb]; [apply runs_VLOG | apply runs_dprintf].
      - intros u made1 ->. apply runs_ret. split; [reflexivity |].
        cbn [fst snd]. intros ->.
        apply (getUidFromString_accepts e _ (nth 1 args "") 0). exact Huid. }
    apply runs_ret. split; [reflexivity | discriminate].
  - intros [[[good uid] label] state] made1 [-> Hgood].
    cbn [fst snd app] in *.
    destruct good.
    + eapply runs_bind; [apply runs_dprintf |]. intros u made2 ->.
      eapply runs_bind; [apply runs_call |]. intros u' made3 ->.
      apply runs_ret. cbn [app]. split; [| apply status_no_error].
      apply acts_allowed_one. apply Hgood. reflexivity.
    + eapply runs_bind; [apply runs_print_cmd_help |]. intros u made2 ->.
      apply runs_ret. split; [apply acts_allowed_nil |].
      apply status_unknown_error.
Qed.

Lemma cmd_dump_report_flags_some (args : list string) :
  args <> [] ->
  is_dump_report_flag (hd "" args) = false ->
  exists f, cmd_dump_report_flags args = Some f.
Proof.
  intros Hne Hhead.
  unfold is_dump_report_flag in Hhead.
  apply orb_false_elim in Hhead as [Hhead Hkeep].
  apply orb_false_elim in Hhead as [Hproto Hinc].
  assert (Hlen : (1 <= List.length args <= List.length args)%nat).
  { destruct args; [congruence | cbn; lia]. }
  destruct (strip_flag_refines "--proto" args _ Hlen Hproto)
    as (proto & n1 & Hc1 & _ & Hn1).
  destruct (strip_flag_refines "--include_current_bucket" args n1 Hn1 Hinc)
    as (inc & n2 & Hc2 & _ & Hn2).
  destruct (strip_flag_refines "--keep_data" args n2 Hn2 Hkeep)
    as (keep & n3 & Hc3 & _ & Hn3).
  unfold cmd_dump_report_flags. rewrite Hc1, Hc2, Hc3.
  eexists. reflexivity.
Qed.

Lemma runs_cmd_dump_report (out : Z) (args : list string) :
  args <> [] ->
  is_dump_report_flag (hd "" args) = false ->
  Runs e (cmd_dump_report c w out args)
    (fun r made =>
       acts_allowed e (AIBinder_getCallingUid c) made
       /\ exists status, r = Some status /\ is_status status).
Proof.
  intros Hne Hhead.
  destruct (cmd_dump_report_flags_some args Hne Hhead) as [f Hf].
  unfold cmd_dump_report. rewrite Hf.
  eapply runs_bind; [apply runs_get_mProcessor |].
  intros hasProcessor made0 ->. cbn [app].
  destruct hasProcessor.
  - eapply runs_bind; [apply runs_cmd_dump_report_positional |].
    intros status made1 [Hacts Hst]. apply runs_ret. rewrite app_nil_r.
    split; [exact Hacts |]. exists status. split; [reflexivity |].
    destruct Hst as [[-> _] | [-> _]];
      [apply status_unknown_error | apply status_no_error].
  - eapply runs_bind; [apply runs_dprintf |]. intros u made1 ->.
    apply runs_ret. split; [apply acts_allowed_nil |].
    exists UNKNOWN_ERROR. split; [reflexivity | apply status_unknown_error].
Qed.


Lemma runs_initShellSubscriber :
  Runs e initShellSubscriber
    (fun _ made => made = [] \/ made = [ShellSubscriber_new]).
Proof.
  intros s He. unfold initShellSubscriber, bind, get.
  destruct (mShellSubscriber s); cbn.
  - exists []. rewrite app_nil_r. auto.
  - exists [ShellSubscriber_new]. auto.
Qed.

Lemma safe_help (out : Z) :
  Safe (permitted e c p) e
    (bindD (lift (print_cmd_help out)) (fun _ => retD NO_ERROR))
    is_status.
Proof. seq quiet. apply safe_ret. apply status_no_error. Qed.

Lemma safe_handleShellCommand (in_ out err : Z) (argv : list string) :
  Safe (permitted e c p) e (handleShellCommand c w p in_ out err argv)
    is_status.
Proof.
  unfold handleShellCommand.
  destruct (negb (AIBinder_getCallingUid c =? AID_ROOT)
            && negb (AIBinder_getCallingUid c =? AID_SHELL)).
  { apply safe_ret. apply status_permission_denied. }
  destruct argv as [| arg0 rest]; [apply safe_help |].
  destruct (String.eqb arg0 "config").
  { eapply safe_lift; [apply runs_cmd_config |].
    intros status made [Hacts Hst].
    split; [apply permitted_base_allowed; exact Hacts |].
    destruct Hst as [[-> _] | [-> _]];
      [apply status_unknown_error | apply status_no_error]. }
  destruct (String.eqb arg0 "print-uid-map").
  { apply safe_cmd_print_uid_map. }
  destruct (String.eqb arg0 "dump-report") eqn:Hdump.
  { apply String.eqb_eq in Hdump. subst arg0.
    eapply safe_lift_abortable;
      [apply runs_cmd_dump_report; [discriminate | reflexivity] |].
    intros r made [Hacts Hst].
    split; [apply permitted_base_allowed; exact Hacts | exact Hst]. }
  destruct (String.eqb arg0 "pull-source"
            && (1 <? List.length (arg0 :: rest))%nat) eqn:Hpull.
  { apply andb_true_iff in Hpull as [_ Hlen]. apply Nat.ltb_lt in Hlen.
    apply safe_cmd_print_pulled_metrics. exact Hlen. }
  destruct (String.eqb arg0 "send-broadcast").
  { apply safe_cmd_trigger_broadcast. }
  destruct (String.eqb arg0 "print-stats").
  { apply safe_cmd_print_stats. discriminate. }
  destruct (String.eqb arg0 "meminfo").
  { apply safe_cmd_dump_memory_info. }
  destruct (String.eqb arg0 "write-to-disk").
  { apply safe_cmd_write_data_to_disk. }
  destruct (String.eqb arg0 "log-app-breadcrumb").
  { eapply safe_lift; [apply runs_cmd_log_app_breadcrumb |].
    intros status made [Hacts Hst].
    split; [apply permitted_base_allowed; exact Hacts | exact Hst]. }
  destruct (String.eqb arg0 "log-binary-push").
  { apply safe_cmd_log_binary_push. }
  destruct (String.eqb arg0 "clear-puller-cache").
  { apply safe_cmd_clear_puller_cache. }
  destruct (String.eqb arg0 "print-logs").
  { apply safe_cmd_print_logs. }
  destruct (String.eqb arg0 "send-active-configs").
  { apply safe_cmd_trigger_active_config_broadcast. discriminate. }
  destruct (String.eqb arg0 "data-subscribe").
  { eapply safe_bind with (Q1 := fun _ => True).
    - eapply safe_lift; [apply runs_initShellSubscriber |].
      intros u made [-> | ->]; split; try exact I.
      + apply Forall_nil.
      + apply Forall_cons; [harmless | apply Forall_nil].
    - intros _ _.
      eapply safe_bind with (Q1 := fun _ => True).
      + destruct (2 <=? List.length (arg0 :: rest))%nat eqn:Hlen.
        * apply Nat.leb_le in Hlen.
          eapply safe_bind; [apply safe_arg; lia |]. intros a1 _.
          apply safe_ret. exact I.
        * apply safe_ret. exact I.
      + intros timeoutSec _.
        seq ltac:(apply safe_effect; harmless).
        apply safe_ret. apply status_no_error. }
  apply safe_help.
Qed.

End ShellFacts.

(** X11. [handleShellCommand] never reads past its arguments: for every
    caller and every argument vector it returns, with [NO_ERROR],
    [UNKNOWN_ERROR] or [PERMISSION_DENIED]; a caller that is neither
    root nor the shell gets [PERMISSION_DENIED] and nothing is done.
    The test on [argc] in the dispatch of [pull-source] is what keeps
    [cmd_print_pulled_metrics] within its arguments: on the bare command
    name it reads [args[1]] out of range. *)
Theorem shell_command_never_aborts (c : Caller) (w : World) (p : Platform)
    (in_ out err : Z) (argv : list string) (d : Daemon) :
  (exists status d',
     handleShellCommand c w p in_ out err argv d = Some (status, d')
     /\ is_status status)
  /\ (AIBinder_getCallingUid c <> AID_ROOT ->
      AIBinder_getCallingUid c <> AID_SHELL ->
      handleShellCommand c w p in_ out err argv d
      = Some (PERMISSION_DENIED, d))
  /\ (forall name, cmd_print_pulled_metrics w p out [name] d = None).
Proof.
  split; [| split].
  - destruct (safe_handleShellCommand c w p (mEngBuild (service d))
                in_ out err argv d eq_refl)
      as (status & d' & made & Hrun & _ & _ & _ & Hst).
    exists status, d'. auto.
  - intros Hroot Hshell. unfold handleShellCommand.
    apply Z.eqb_neq in Hroot, Hshell. rewrite Hroot, Hshell. reflexivity.
  - intros name. reflexivity.
Qed.

Lemma shell_command_never_aborts_witness :
  handleShellCommand Scenario.app_10123 (Scenario.world [])
    ShellScenario.platform 0 1 2 ["config"; "remove"]
    (ShellScenario.boot false)
  = Some (PERMISSION_DENIED, ShellScenario.boot false).
Proof.
  apply (proj1 (proj2 (shell_command_never_aborts Scenario.app_10123
                         (Scenario.world []) ShellScenario.platform 0 1 2
                         ["config"; "remove"] (ShellScenario.boot false))));
    discriminate.
Defined.

(** X12. Whatever its arguments, [handleShellCommand] brings about
    only what [permitted] lists for its caller.  What is for one uid --
    a configuration updated, removed by key or dumped, a receiver looked
    up and sent a broadcast, the active configurations asked for, a
    breadcrumb -- is for the caller's own uid, or for any uid on an eng
    or userdebug build, or for the shell when the caller is root.  The
    processor's log printing is switched by root only, and the puller
    cache is cleared only for a caller holding the dump permission.
    What is for every uid at once is not restricted further: every shell
    caller may remove all configurations with their stored files
    ([config remove] without arguments), have the data written to disk,
    read the statistics without resetting them, list the configuration
    keys with their sizes, print the uid map, pull a source, log a
    binary push and start a subscription.  Nothing else is done. *)
Theorem shell_command_effects_permitted (c : Caller) (w : World)
    (p : Platform) (in_ out err : Z) (argv : list string) (d : Daemon) :
  exists status d' made,
    handleShellCommand c w p in_ out err argv d = Some (status, d')
    /\ trace d' = trace d ++ made
    /\ Forall (permitted (mEngBuild (service d)) c p) made.
Proof.
  destruct (safe_handleShellCommand c w p (mEngBuild (service d))
              in_ out err argv d eq_refl)
    as (status & d' & made & Hrun & Htrace & _ & HP & _).
  exists status, d', made. auto.
Qed.

(** [config remove] without arguments, from the shell on a release
    build: every uid's configurations go. *)
Example shell_removes_all_configs :
  exists d',
    handleShellCommand Scenario.shell_user (Scenario.world [])
      ShellScenario.platform 0 1 2 ["config"; "remove"]
      (ShellScenario.boot false)
    = Some (NO_ERROR, d')
    /\ trace d'
       = [Base ConfigManager_RemoveAllConfigs;
          Base (StorageManager_deleteAllFiles STATS_SERVICE_DIR)].
Proof. eexists. split; [vm_compute; reflexivity | reflexivity]. Qed.

(** X13. The build type decides impersonation. With [mEngBuild] as
    [init_system_properties] leaves it on a build whose [ro.build.type]
    is neither [eng] nor [userdebug] (or is not set), naming another uid
    gets a shell caller nowhere: what a shell command does for one uid
    -- a configuration updated, removed by key or dumped, a receiver
    looked up and sent a broadcast, the active configurations asked for,
    a breadcrumb -- it does for the caller's own uid, or for the shell
    when the caller is root.  What [permitted] lists for every uid at
    once ([config remove] without arguments among it) stays open to
    every shell caller. *)
Theorem release_build_confines_shell (c : Caller) (w : World) (p : Platform)
    (in_ out err : Z) (argv : list string) (d : Daemon) :
  ro_build_type p <> Some "eng"%string ->
  ro_build_type p <> Some "userdebug"%string ->
  (exists status d' made,
     bindD (lift (init_system_properties p))
       (fun _ => handleShellCommand c w p in_ out err argv) d
     = Some (status, d')
     /\ trace d' = trace d ++ made
     /\ Forall (permitted false c p) made)
  /\ (forall uid,
        may_act_as false (AIBinder_getCallingUid c) uid <->
        uid = to_int32 (AIBinder_getCallingUid c)
        \/ (to_int32 (AIBinder_getCallingUid c) = AID_ROOT
            /\ uid = AID_SHELL)).
Proof.
  intros Heng Hdebug. split.
  - assert (Hinit : exists s1,
              init_system_properties p (service d) = (tt, s1)
              /\ mEngBuild s1 = false /\ calls s1 = calls (service d)).
    { unfold init_system_properties, init_build_type_callback, bind,
        set_mEngBuild, ret.
      destruct (ro_build_type p) as [value |] eqn:Hprop.
      - destruct (String.eqb "eng" value) eqn:E1.
        { apply String.eqb_eq in E1. subst value. congruence. }
        destruct (String.eqb "userdebug" value) eqn:E2.
        { apply String.eqb_eq in E2. subst value. congruence. }
        cbn. eexists. repeat split.
      - eexists. repeat split. }
    destruct Hinit as (s1 & Hrun & He & Hcalls).
    unfold bindD, lift. rewrite Hrun, Hcalls, skipn_all. cbn [map].
    rewrite app_nil_r.
    destruct (safe_handleShellCommand c w p false in_ out err argv
                (MkDaemon s1 (trace d)) He)
      as (status & d' & made & Hcmd & Htrace & _ & HP & _).
    exists status, d', made. auto.
  - intros uid. unfold may_act_as. split.
    + intros [H | [H | H]]; [discriminate | left; symmetry; exact H |
                              right; exact H].
    + intros [H | H]; [right; left; symmetry; exact H | right; right; exact H].
Qed.

Lemma release_build_confines_shell_witness :
  exists status d' made,
    bindD (lift (init_system_properties ShellScenario.platform))
      (fun _ => handleShellCommand Scenario.shell_user (Scenario.world [])
                  ShellScenario.platform 0 1 2
                  ["config"; "remove"; "10123"; "7"]) (ShellScenario.boot true)
    = Some (status, d')
    /\ trace d' = trace (ShellScenario.boot true) ++ made
    /\ Forall (permitted false Scenario.shell_user ShellScenario.platform)
         made.
Proof.
  apply (release_build_confines_shell Scenario.shell_user (Scenario.world [])
           ShellScenario.platform 0 1 2 ["config"; "remove"; "10123"; "7"]
           (ShellScenario.boot true)); discriminate.
Defined.

(** The same command line, run: the uid named is refused and nothing is
    removed. *)
Example release_build_refuses_other_uid :
  exists d',
    bindD (lift (init_system_properties ShellScenario.platform))
      (fun _ => handleShellCommand Scenario.shell_user (Scenario.world [])
                  ShellScenario.platform 0 1 2
                  ["config"; "remove"; "10123"; "7"]) (ShellScenario.boot true)
    = Some (UNKNOWN_ERROR, d')
    /\ trace d' = [].
Proof. eexists. split; [vm_compute; reflexivity | reflexivity]. Qed.

(* ----------------------------------------------------------------- *)
(** *** [dump] *)

Lemma safe_dumpIncidentSection_keys (w : World) (e : bool) (out : Z)
    (keys : list ConfigKey) :
  Safe read_only e (dumpIncidentSection_keys w out keys) (fun _ => True).
Proof.
  induction keys as [| key rest IH]; cbn [dumpIncidentSection_keys].
  - apply safe_ret. exact I.
  - seq ltac:(apply safe_lift_call; split; reflexivity).
    seq ltac:(apply safe_effect; exact I).
    exact IH.
Qed.

Lemma safe_dump_admitted (c : Caller) (w : World) (p : Platform) (e : bool)
    (fd : Z) (args : list string) :
  checkPermission c p kPermissionDump = true ->
  Safe read_only e (dump c w p fd args) (fun status => status = NO_ERROR).
Proof.
  intros Hperm. unfold dump. rewrite Hperm. cbn [negb].
  set (numArgs := Z.of_nat (List.length args)).
  eapply safe_bind with (Q1 := fun x => snd x < numArgs).
  - destruct (0 <=? numArgs - 1) eqn:Hlast.
    + apply Z.leb_le in Hlast. unfold numArgs in Hlast.
      eapply safe_bind; [apply safe_arg; lia |]. intros last _.
      destruct (String.eqb last "--proto"); apply safe_ret; cbn [snd]; lia.
    + apply safe_ret. cbn [snd]. lia.
  - intros [asProto lastArg] Hlast. cbn [snd] in Hlast.
    eapply safe_bind with (Q1 := fun _ => True).
    + destruct (0 <? numArgs) eqn:Hsome.
      * apply Z.ltb_lt in Hsome. unfold numArgs in Hsome.
        eapply safe_bind; [apply safe_arg; lia |]. intros first _.
        apply safe_ret. exact I.
      * apply safe_ret. exact I.
    + intros isMetadata _.
      eapply safe_bind with (Q1 := fun _ => True).
      * destruct isMetadata.
        -- eapply safe_bind with (Q1 := fun _ => True).
           ++ destruct (0 <=? lastArg) eqn:Hpos.
              ** apply Z.leb_le in Hpos. unfold numArgs in Hlast.
                 eapply safe_bind; [apply safe_arg; lia |]. intros last _.
                 apply safe_ret. exact I.
              ** apply safe_ret. exact I.
           ++ intros verbose _. unfold dumpStatsdStats.
              destruct asProto.
              ** seq ltac:(apply safe_lift_call; reflexivity). quiet.
              ** seq ltac:(apply safe_effect; exact I).
                 apply safe_effect. exact I.
        -- destruct asProto.
           ++ unfold dumpIncidentSection.
              seq ltac:(apply safe_effect; exact I).
              apply safe_dumpIncidentSection_keys.
           ++ quiet.
      * intros _ _. apply safe_ret. reflexivity.
Qed.

(** X14. [dump] only reads. A caller without the dump permission gets
    [PERMISSION_DENIED] and nothing is done. For a caller with it,
    whatever the arguments, [dump] returns [NO_ERROR] without reading
    past them, and all it does is hand the descriptor to what prints and
    ask the processor for reports that keep their data and leave the
    current bucket out, and the statistics for a dump that does not reset
    them. *)
Theorem dump_is_read_only (c : Caller) (w : World) (p : Platform) (fd : Z)
    (args : list string) (d : Daemon) :
  exists status d' made,
    dump c w p fd args d = Some (status, d')
    /\ trace d' = trace d ++ made
    /\ Forall read_only made
    /\ (if checkPermission c p kPermissionDump
        then status = NO_ERROR
        else status = PERMISSION_DENIED /\ d' = d).
Proof.
  destruct (checkPermission c p kPermissionDump) eqn:Hperm.
  - destruct (safe_dump_admitted c w p (mEngBuild (service d)) fd args Hperm
                d eq_refl)
      as (status & d' & made & Hrun & Htrace & _ & HP & Hst).
    exists status, d', made. auto.
  - exists PERMISSION_DENIED, d, []. unfold dump. rewrite Hperm.
    rewrite app_nil_r. repeat split. apply Forall_nil.
Qed.

(* ----------------------------------------------------------------- *)
(** *** [send-active-configs] *)

Lemma lift_silent {A} (m : M A) (d : Daemon) :
  calls (snd (m (service d))) = calls (service d) ->
  lift m d
  = Some (fst (m (service d)), MkDaemon (snd (m (service d))) (trace d)).
Proof.
  intros H. unfold lift. destruct (m (service d)) as [a s1].
  cbn [fst snd] in *. rewrite H, skipn_all, app_nil_r. reflexivity.
Qed.

Lemma always_ret {A} (a : A) : Always (retD a) a [].
Proof. intros d. exists d. rewrite app_nil_r. auto. Qed.

Lemma always_bind {A B} (m : D A) (k : A -> D B) (a : A) (b : B)
    (made1 made2 : list Effect) :
  Always m a made1 -> Always (k a) b made2 ->
  Always (bindD m k) b (made1 ++ made2).
Proof.
  intros Hm Hk d. unfold bindD.
  destruct (Hm d) as (d1 & -> & Ht1).
  destruct (Hk d1) as (d2 & -> & Ht2).
  exists d2. rewrite Ht2, Ht1, app_assoc. auto.
Qed.

Lemma always_effect (x : Effect) : Always (effect x) tt [x].
Proof. intros d. eexists. split; reflexivity. Qed.

Lemma always_lift_silent {A} (m : M A) (a : A) :
  (forall s, fst (m s) = a /\ calls (snd (m s)) = calls s) ->
  Always (lift m) a [].
Proof.
  intros H d. destruct (H (service d)) as [Ha Hc].
  rewrite (lift_silent m d Hc), Ha. eexists. split; [reflexivity |].
  cbn [trace]. rewrite app_nil_r. reflexivity.
Qed.

Lemma always_dprintf (fd : Z) (text : string) :
  Always (lift (dprintf fd text)) tt [].
Proof. apply always_lift_silent. intros s. split; reflexivity. Qed.

Lemma always_VLOG : Always (lift VLOG) tt [].
Proof. apply always_lift_silent. intros s. split; reflexivity. Qed.

Lemma always_parse_config_ids (out : Z) (ids : list string)
    (configIds : list Z) :
  Always (parse_config_ids out ids configIds)
    (if forallb (numeric 10) ids
     then Some (configIds ++ map (fun a => fst (CLib.strtoll a 10)) ids)
     else None)
    [].
Proof.
  revert configIds.
  induction ids as [| a rest IH]; intros configIds;
    cbn [parse_config_ids forallb map].
  - rewrite app_nil_r. apply always_ret.
  - unfold numeric at 1. unfold CLib.strtoll at 1 2.
    destruct (CLib.strtol a 10) as [configID endp]. cbn [fst].
    destruct (at_start a endp || negb (String.eqb endp "")) eqn:Hbad.
    + replace (negb (at_start a endp) && String.eqb endp "") with false.
      2: { destruct (at_start a endp), (String.eqb endp "");
           cbn in *; congruence. }
      cbn [andb].
      apply (always_bind _ _ tt None [] []);
        [apply always_dprintf | apply always_ret].
    + replace (negb (at_start a endp) && String.eqb endp "") with true.
      2: { destruct (at_start a endp), (String.eqb endp "");
           cbn in *; congruence. }
      cbn [andb].
      apply (always_bind _ _ tt _ [] []); [apply always_VLOG |].
      specialize (IH (configIds ++ [configID])).
      rewrite <- app_assoc in IH. exact IH.
Qed.

Lemma always_send_active_configs_broadcast (p : Platform) (uid : Z)
    (configIds : list Z) :
  exists status,
    Always (send_active_configs_broadcast p uid configIds) status
      (ConfigManager_GetActiveConfigsChangedReceiver uid
       :: match GetActiveConfigsChangedReceiver p uid with
          | Some receiver =>
              [Receiver_sendActiveConfigsChangedBroadcast (Some receiver)
                 configIds]
          | None => []
          end)
    /\ (status = NO_ERROR
        <-> exists receiver,
              GetActiveConfigsChangedReceiver p uid = Some receiver
              /\ sendActiveConfigsChangedBroadcast_isOk p (Some receiver)
                   configIds = true).
Proof.
  unfold send_active_configs_broadcast. cbv zeta.
  destruct (GetActiveConfigsChangedReceiver p uid) as [receiver |].
  - destruct (sendActiveConfigsChangedBroadcast_isOk p (Some receiver)
                configIds) eqn:Hok.
    + exists NO_ERROR. split.
      * apply (always_bind _ _ tt _ [_] [_]); [apply always_effect |].
        apply (always_bind _ _ tt _ [_] []); [apply always_effect |].
        apply (always_bind _ _ tt _ [] []);
          [apply always_VLOG | apply always_ret].
      * split; [| reflexivity]. intros _. exists receiver. auto.
    + exists UNKNOWN_ERROR. split.
      * apply (always_bind _ _ tt _ [_] [_]); [apply always_effect |].
        apply (always_bind _ _ tt _ [_] []); [apply always_effect |].
        apply (always_bind _ _ tt _ [] []);
          [apply always_VLOG | apply always_ret].
      * split; [discriminate |].
        intros (r & [= <-] & Habs). congruence.
  - exists UNKNOWN_ERROR. split.
    + apply (always_bind _ _ tt _ [_] []); [apply always_effect |].
      apply (always_bind _ _ tt _ [] []);
        [apply always_VLOG | apply always_ret].
    + split; [discriminate |]. intros (r & Habs & _). discriminate.
Qed.

Lemma always_bind_any {A B} (m : D A) (k : A -> D B) (b : B)
    (made : list Effect) :
  (forall d, exists a d', m d = Some (a, d') /\ trace d' = trace d) ->
  (forall a, Always (k a) b made) ->
  Always (bindD m k) b made.
Proof.
  intros Hm Hk d. unfold bindD.
  destruct (Hm d) as (a & d1 & -> & Ht1).
  destruct (Hk a d1) as (d2 & -> & Ht2).
  exists d2. rewrite Ht2, Ht1. auto.
Qed.

Lemma always_arg (args : list string) (i : Z) (a : string) :
  arg_at args i = Some a -> Always (arg args i) a [].
Proof.
  intros H d. exists d. unfold arg. rewrite H, app_nil_r. auto.
Qed.

(** X15. [send-active-configs --configs ID...] takes its ids strictly,
    unlike the commands that read numbers with [atoi]: when every id is
    a decimal number to its end, the receiver registered for the caller's
    uid is looked up and, if there is one, sent exactly these ids in the
    order given (none, when no id follows the flag); when some id is
    not, the command returns [UNKNOWN_ERROR] and neither looks up nor
    sends anything. *)
Theorem send_active_configs_parses_strictly (c : Caller) (w : World)
    (p : Platform) (out : Z) (name : string) (ids : list string)
    (d : Daemon) :
  let uid := to_int32 (AIBinder_getCallingUid c) in
  exists status d',
    cmd_trigger_active_config_broadcast c w p out
      (name :: "--configs"%string :: ids) d
    = Some (status, d')
    /\ if forallb (numeric 10) ids
       then trace d'
            = trace d
              ++ ConfigManager_GetActiveConfigsChangedReceiver uid
                 :: match GetActiveConfigsChangedReceiver p uid with
                    | Some receiver =>
                        [Receiver_sendActiveConfigsChangedBroadcast
                           (Some receiver)
                           (map (fun a => fst (CLib.strtoll a 10)) ids)]
                    | None => []
                    end
       else status = UNKNOWN_ERROR /\ trace d' = trace d.
Proof.
  intros uid.
  destruct (always_send_active_configs_broadcast p uid
              (map (fun a => fst (CLib.strtoll a 10)) ids))
    as (sent & Hsend & _).
  assert (H : Always
            (cmd_trigger_active_config_broadcast c w p out
               (name :: "--configs"%string :: ids))
            (if forallb (numeric 10) ids then sent else UNKNOWN_ERROR)
            (if forallb (numeric 10) ids
             then ConfigManager_GetActiveConfigsChangedReceiver uid
                  :: match GetActiveConfigsChangedReceiver p uid with
                     | Some receiver =>
                         [Receiver_sendActiveConfigsChangedBroadcast
                            (Some receiver)
                            (map (fun a => fst (CLib.strtoll a 10)) ids)]
                     | None => []
                     end
             else [])).
  { unfold cmd_trigger_active_config_broadcast.
    apply always_bind_any.
    { intros d0. rewrite lift_silent by reflexivity. eauto. }
    intros b.
    match goal with
    | |- context [?a =? 1] => destruct (a =? 1) eqn:Hone
    end.
    { apply Z.eqb_eq in Hone. cbn [List.length] in Hone. lia. }
    apply (always_bind _ _
             (if forallb (numeric 10) ids
              then Some (uid, map (fun a => fst (CLib.strtoll a 10)) ids)
              else None) _ [] _).
    - apply (always_bind _ _ "--configs"%string _ [] []);
        [apply always_arg; reflexivity |].
      change (String.prefix "--uid=" "--configs") with false. cbv iota.
      apply (always_bind _ _ (Some (uid, 1)) _ [] []);
        [apply always_ret |].
      cbv iota beta.
      apply (always_bind _ _ true _ [] []).
      + match goal with
        | |- context [1 =? ?a] => destruct (1 =? a) eqn:Hend
        end.
        { apply Z.eqb_eq in Hend. cbn [List.length] in Hend. lia. }
        apply (always_bind _ _ "--configs"%string _ [] []);
          [apply always_arg; reflexivity | apply always_ret].
      + cbn [negb].
        apply (always_bind _ _
                 (if forallb (numeric 10) ids
                  then Some (map (fun a => fst (CLib.strtoll a 10)) ids)
                  else None) _ [] []).
        * apply (always_parse_config_ids out ids []).
        * destruct (forallb (numeric 10) ids); apply always_ret.
    - destruct (forallb (numeric 10) ids).
      + exact Hsend.
      + apply always_ret. }
  destruct (H d) as (d' & Hrun & Htrace).
  eexists. exists d'. split; [exact Hrun |].
  destruct (forallb (numeric 10) ids).
  - exact Htrace.
  - rewrite app_nil_r in Htrace. auto.
Qed.

(* ----------------------------------------------------------------- *)
(** *** Pullers registered by native clients *)

(** X16. Native clients register and unregister pullers under the uid
    the transport reports, never under one they name, and the
    [REGISTER_STATS_PULL_ATOM] permission is the only way in: with it,
    a registration followed by an unregistration for the same atom
    names the same [(uid, atomTag)] pair, whoever the caller is; without
    it both calls answer [EX_SECURITY] and the puller manager is not
    called, even for root or the system uid. *)
Theorem native_puller_under_transport_uid (c : Caller) (w : World)
    (p : Platform) (atomTag coolDownMillis timeoutMillis : Z)
    (additiveFields : list Z) (pullerCallback : handle) (s : Service) :
  let uid := to_int32 (AIBinder_getCallingUid c) in
  let registered :=
    registerNativePullAtomCallback c w p atomTag coolDownMillis timeoutMillis
      additiveFields pullerCallback s in
  let unregistered :=
    unregisterNativePullAtomCallback c p atomTag (snd registered) in
  if checkPermission c p kPermissionRegisterPullAtom
  then fst registered = Status_ok
       /\ fst unregistered = Status_ok
       /\ calls (snd unregistered)
          = calls s
            ++ [PullerManager_RegisterPullAtomCallback uid atomTag
                  (MillisToNano w coolDownMillis) (MillisToNano w timeoutMillis)
                  additiveFields pullerCallback;
                PullerManager_UnregisterPullAtomCallback uid atomTag]
  else getExceptionCode (fst registered) = Some EX_SECURITY
       /\ getExceptionCode (fst unregistered) = Some EX_SECURITY
       /\ calls (snd unregistered) = calls s.
Proof.
  cbv zeta.
  unfold registerNativePullAtomCallback, unregisterNativePullAtomCallback.
  destruct (checkPermission c p kPermissionRegisterPullAtom); cbn [negb].
  - unfold bind, VLOG, ret, call. cbn. rewrite <- app_assoc.
    repeat split.
  - unfold exception, bind, ALOGE, ret. cbn. repeat split.
Qed.

(* ----------------------------------------------------------------- *)
(** *** Rules for [Triple] *)

Lemma triple_ret {A} (pre : Service -> Prop) (a : A)
    (post : A -> list Effect -> Service -> Prop) :
  (forall s, pre s -> post a [] s) -> Triple pre (retD a) post.
Proof.
  intros H d Hpre. exists a, d, []. rewrite app_nil_r. auto.
Qed.

Lemma triple_bind {A B} (pre : Service -> Prop) (m : D A) (k : A -> D B)
    (mid : A -> list Effect -> Service -> Prop)
    (post : B -> list Effect -> Service -> Prop) :
  Triple pre m mid ->
  (forall a made1,
     Triple (mid a made1) (k a) (fun b made2 s => post b (made1 ++ made2) s)) ->
  Triple pre (bindD m k) post.
Proof.
  intros Hm Hk d Hpre. unfold bindD.
  destruct (Hm d Hpre) as (a & d1 & made1 & -> & Ht1 & Hmid).
  destruct (Hk a made1 d1 Hmid) as (b & d2 & made2 & -> & Ht2 & Hpost).
  exists b, d2, (made1 ++ made2). rewrite Ht2, Ht1, app_assoc. auto.
Qed.

Lemma triple_weaken {A} (pre : Service -> Prop) (m : D A)
    (post post' : A -> list Effect -> Service -> Prop) :
  Triple pre m post ->
  (forall a made s, post a made s -> post' a made s) ->
  Triple pre m post'.
Proof.
  intros Hm Himp d Hpre.
  destruct (Hm d Hpre) as (a & d1 & made & ? & ? & ?).
  exists a, d1, made. auto.
Qed.

Lemma triple_effect (pre : Service -> Prop) (x : Effect) :
  Triple pre (effect x) (fun _ made s => made = [x] /\ pre s).
Proof.
  intros d Hpre. exists tt, (MkDaemon (service d) (trace d ++ [x])), [x].
  auto.
Qed.

Lemma triple_lift {A} (pre : Service -> Prop) (m : M A)
    (post : A -> list Effect -> Service -> Prop) :
  (forall s, pre s ->
     exists made, calls (snd (m s)) = calls s ++ made
                  /\ post (fst (m s)) (map Base made) (snd (m s))) ->
  Triple pre (lift m) post.
Proof.
  intros H d Hpre. unfold lift.
  destruct (H (service d) Hpre) as (made & Hc & Hpost).
  destruct (m (service d)) as [a s1]. cbn [fst snd] in *.
  exists a, (MkDaemon s1 (trace d ++ map Base made)), (map Base made).
  rewrite Hc, skipn_length_app. auto.
Qed.

Lemma triple_pure {A} (fact : Prop) (pre : Service -> Prop) (m : D A)
    (post : A -> list Effect -> Service -> Prop) :
  (fact -> Triple pre m post) ->
  Triple (fun s => fact /\ pre s) m post.
Proof. intros H d [Hfact Hpre]. exact (H Hfact d Hpre). Qed.

(** One statement that leaves the invariant and says what it appended,
    then the rest. *)
Ltac enter :=
  let u := fresh "u" in
  let made := fresh "made" in
  intros u made; cbv beta; apply triple_pure; intros ->; clear u.

Ltac step tac := eapply triple_bind; [tac |]; enter.

(* ----------------------------------------------------------------- *)
(** *** The death of the companion service *)

(** X17. When the companion service dies, the report data is written to
    disk before the configurations are reset, the saved state is handed
    back after the reset, and the puller manager and both alarm monitors
    lose their companion whether or not there is a processor.  The death
    also requests the termination of the init-completed handler, for
    good: through any later binder calls, a deferred init completion with
    a positive delay never reaches [mProcessor->onStatsdInitCompleted]. *)
Theorem companion_death_resets_and_cancels (w : World) (p : Platform)
    (qs : list Request) (delay : Z) (concurrent : option Z) (wakeLatency : Z)
    (d : Daemon) :
  0 < delay ->
  exists d1,
    statsCompanionServiceDiedImpl w p d = Some (tt, d1)
    /\ trace d1
       = trace d
         ++ StatsdStats_noteSystemServerRestart (getWallClockSec p)
            :: (if mProcessor (service d)
                then [Processor_WriteActiveConfigsToProtoOutputStream
                        (getElapsedRealtimeNs w) STATSCOMPANION_DIED;
                      Processor_WriteMetadataToProto (getWallClockNs w)
                        (getElapsedRealtimeNs w);
                      Base (Processor_WriteDataToDisk STATSCOMPANION_DIED FAST
                              (getElapsedRealtimeNs w) (getWallClockNs w));
                      Processor_resetConfigs]
                     ++ (if activeConfigs_serializeToString p
                            && activeConfigs_ParseFromString p
                         then [Processor_SetConfigsActiveState
                                 (getElapsedRealtimeNs w)]
                         else [])
                     ++ [Processor_SetMetadataState (getWallClockNs w)
                           (getElapsedRealtimeNs w)]
                else [])
            ++ [Base (AlarmMonitor_setStatsCompanionService Anomaly None);
                Base (AlarmMonitor_setStatsCompanionService Periodic None);
                Base (PullerManager_SetStatsCompanionService None)]
    /\ filter is_onStatsdInitCompleted
         (calls (snd (onStatsdInitCompleted w delay concurrent wakeLatency
                        (snd (serve_requests w qs (service d1))))))
       = filter is_onStatsdInitCompleted (calls (service d)).
Proof.
  intros Hpos.
  set (Inv := fun (b : bool) (s : Service) =>
         mProcessor s = mProcessor (service d)
         /\ filter is_onStatsdInitCompleted (calls s)
            = filter is_onStatsdInitCompleted (calls (service d))
         /\ (b = true ->
             mStatsdInitCompletedHandlerTerminationRequested s = true)).
  assert (Hlog : forall b line,
            Triple (Inv b) (lift (ALOGW line))
              (fun _ made s => made = [] /\ Inv b s)).
  { intros b line. apply triple_lift. intros s Hs. exists [].
    split; [cbn; rewrite app_nil_r; reflexivity |].
    split; [reflexivity | exact Hs]. }
  assert (Heffect : forall b x,
            Triple (Inv b) (effect x) (fun _ made s => made = [x] /\ Inv b s)).
  { intros b x. apply triple_effect. }
  assert (Hcall : forall b call0,
            is_onStatsdInitCompleted call0 = false ->
            Triple (Inv b) (lift (call call0))
              (fun _ made s => made = [Base call0] /\ Inv b s)).
  { intros b call0 Hnot. apply triple_lift.
    intros s (Hproc & Hcalls & Hflag). exists [call0].
    split; [reflexivity |]. split; [reflexivity |].
    split; [exact Hproc |]. split; [| exact Hflag].
    cbn [snd call calls]. rewrite filter_app. cbn [filter].
    rewrite Hnot, app_nil_r. exact Hcalls. }
  assert (Hrun :
    Triple (Inv false) (statsCompanionServiceDiedImpl w p)
      (fun _ made s =>
         made
         = StatsdStats_noteSystemServerRestart (getWallClockSec p)
           :: (if mProcessor (service d)
               then [Processor_WriteActiveConfigsToProtoOutputStream
                       (getElapsedRealtimeNs w) STATSCOMPANION_DIED;
                     Processor_WriteMetadataToProto (getWallClockNs w)
                       (getElapsedRealtimeNs w);
                     Base (Processor_WriteDataToDisk STATSCOMPANION_DIED FAST
                             (getElapsedRealtimeNs w) (getWallClockNs w));
                     Processor_resetConfigs]
                    ++ (if activeConfigs_serializeToString p
                           && activeConfigs_ParseFromString p
                        then [Processor_SetConfigsActiveState
                                (getElapsedRealtimeNs w)]
                        else [])
                    ++ [Processor_SetMetadataState (getWallClockNs w)
                          (getElapsedRealtimeNs w)]
               else [])
           ++ [Base (AlarmMonitor_setStatsCompanionService Anomaly None);
               Base (AlarmMonitor_setStatsCompanionService Periodic None);
               Base (PullerManager_SetStatsCompanionService None)]
         /\ Inv true s)).
  { unfold statsCompanionServiceDiedImpl.
    step ltac:(apply Hlog).
    step ltac:(apply Heffect).
    eapply triple_bind with
      (mid := fun _ made s => made = [] /\ Inv true s).
    { apply triple_lift. intros s (Hproc & Hcalls & _). exists [].
      split; [cbn; rewrite app_nil_r; reflexivity |].
      split; [reflexivity |]. repeat split; assumption. }
    enter.
    eapply triple_bind with
      (mid := fun b made s =>
                made = [] /\ b = mProcessor (service d) /\ Inv true s).
    { apply triple_lift. intros s HI'. exists [].
      split; [cbn; rewrite app_nil_r; reflexivity |].
      split; [reflexivity |]. split; [apply HI' | exact HI']. }
    intros hasProcessor made. cbv beta. apply triple_pure. intros ->.
    apply triple_pure. intros ->.
    eapply triple_bind with
      (mid := fun _ made s =>
                made
                = (if mProcessor (service d)
                   then [Processor_WriteActiveConfigsToProtoOutputStream
                           (getElapsedRealtimeNs w) STATSCOMPANION_DIED;
                         Processor_WriteMetadataToProto (getWallClockNs w)
                           (getElapsedRealtimeNs w);
                         Base (Processor_WriteDataToDisk STATSCOMPANION_DIED
                                 FAST (getElapsedRealtimeNs w)
                                 (getWallClockNs w));
                         Processor_resetConfigs]
                        ++ (if activeConfigs_serializeToString p
                               && activeConfigs_ParseFromString p
                            then [Processor_SetConfigsActiveState
                                    (getElapsedRealtimeNs w)]
                            else [])
                        ++ [Processor_SetMetadataState (getWallClockNs w)
                              (getElapsedRealtimeNs w)]
                   else [])
                /\ Inv true s).
    { destruct (mProcessor (service d)).
      - step ltac:(apply Hlog).
        step ltac:(apply Heffect).
        step ltac:(apply Heffect).
        step ltac:(apply Hcall; reflexivity).
        step ltac:(apply Heffect).
        eapply triple_bind with
          (mid := fun _ made s =>
                    made = (if activeConfigs_serializeToString p
                               && activeConfigs_ParseFromString p
                            then [Processor_SetConfigsActiveState
                                    (getElapsedRealtimeNs w)]
                            else [])
                    /\ Inv true s).
        { destruct (activeConfigs_serializeToString p);
            [destruct (activeConfigs_ParseFromString p) |]; cbn [andb];
            first [apply Heffect | apply triple_ret; intros s Hs; auto]. }
        enter.
        eapply triple_weaken; [apply Heffect |].
        intros u' made s [-> Hs]. split; [reflexivity | exact Hs].
      - apply triple_ret. intros s Hs. auto. }
    enter.
    step ltac:(apply Hcall; reflexivity).
    step ltac:(apply Hcall; reflexivity).
    eapply triple_weaken; [apply Hcall; reflexivity |].
    intros u' made s [-> Hs]. split; [| exact Hs].
    cbn [app]. reflexivity. }
  destruct (Hrun d) as ([] & d1 & made & Hdied & Htrace & -> & HI).
  { repeat split; discriminate. }
  destruct HI as (_ & Hcalls & Hflag). specialize (Hflag eq_refl).
  exists d1. split; [exact Hdied |]. split; [exact Htrace |].
  destruct (serve_requests_keep_termination w qs _ Hflag) as [Hflag' Hcalls'].
  rewrite (init_completed_skipped_when_requested w delay concurrent
             wakeLatency _ Hpos Hflag').
  cbn [snd]. rewrite Hcalls'. exact Hcalls.
Qed.

Lemma companion_death_resets_and_cancels_witness :
  exists d1,
    statsCompanionServiceDiedImpl (Scenario.world []) ShellScenario.platform
      (ShellScenario.boot false)
    = Some (tt, d1)
    /\ trace d1
       = [StatsdStats_noteSystemServerRestart 1700000000;
          Processor_WriteActiveConfigsToProtoOutputStream 5000000000
            STATSCOMPANION_DIED;
          Processor_WriteMetadataToProto 1700000000000000000 5000000000;
          Base (Processor_WriteDataToDisk STATSCOMPANION_DIED FAST 5000000000
                  1700000000000000000);
          Processor_resetConfigs;
          Processor_SetConfigsActiveState 5000000000;
          Processor_SetMetadataState 1700000000000000000 5000000000;
          Base (AlarmMonitor_setStatsCompanionService Anomaly None);
          Base (AlarmMonitor_setStatsCompanionService Periodic None);
          Base (PullerManager_SetStatsCompanionService None)]
    /\ filter is_onStatsdInitCompleted
         (calls (snd (onStatsdInitCompleted (Scenario.world []) 90 None 0
                        (snd (serve_requests (Scenario.world [])
                                [SystemCall Scenario.system_server
                                   Rpc_bootCompleted]
                                (service d1))))))
       = [].
Proof.
  apply (companion_death_resets_and_cancels (Scenario.world [])
           ShellScenario.platform
           [SystemCall Scenario.system_server Rpc_bootCompleted] 90 None 0
           (ShellScenario.boot false)).
  lia.
Defined.

(* ----------------------------------------------------------------- *)
(** *** Building the shell subscriber *)

Lemma leaves_ret {A} (a : A) : LeavesSubscriber (ret a).
Proof. intros s. split; reflexivity. Qed.

Lemma leaves_bind {A B} (m : M A) (k : A -> M B) :
  LeavesSubscriber m -> (forall a, LeavesSubscriber (k a)) ->
  LeavesSubscriber (bind m k).
Proof.
  intros Hm Hk s. unfold bind.
  destruct (Hm s) as [H1 H2]. destruct (m s) as [a s1]. cbn [snd] in *.
  destruct (Hk a s1) as [H3 H4]. split; congruence.
Qed.

Lemma leaves_call (call0 : Call) :
  is_ShellSubscriber_new call0 = false -> LeavesSubscriber (call call0).
Proof.
  intros Hnot s. split; [reflexivity |].
  cbn [snd call calls]. rewrite filter_app. cbn [filter].
  rewrite Hnot. apply app_nil_r.
Qed.

Lemma leaves_only_printed {A} (m : M A) :
  (forall s, only_printed s (snd (m s))) -> LeavesSubscriber m.
Proof.
  intros H s. destruct (H s) as (Hc & _ & _ & _ & Hsub & _).
  rewrite Hc, Hsub. split; reflexivity.
Qed.

(** A computation of the binder surface that leaves the subscriber
    alone, taken apart statement by statement. *)
Ltac leaves_step :=
  cbv beta zeta;
  lazymatch goal with
  | |- LeavesSubscriber (ret _) => apply leaves_ret
  | |- LeavesSubscriber VLOG => apply leaves_ret
  | |- LeavesSubscriber (bind _ _) => apply leaves_bind; [| intros ?]
  | |- LeavesSubscriber (call _) => apply leaves_call; reflexivity
  | |- LeavesSubscriber (print_cmd_help _) =>
      apply leaves_only_printed; apply print_cmd_help_only_prints
  | |- LeavesSubscriber (dprintf_bytes _ _) =>
      apply leaves_only_printed; apply dprintf_bytes_only_prints
  | |- LeavesSubscriber (if ?b then _ else _) => destruct b
  | |- LeavesSubscriber (match ?x with _ => _ end) => destruct x
  | |- LeavesSubscriber (cmd_config_update _ _ _ _ _) => unfold cmd_config_update
  | |- LeavesSubscriber (cmd_remove_all_configs _) =>
      unfold cmd_remove_all_configs
  | |- LeavesSubscriber (cmd_dump_report_positional _ _ _ _ _) =>
      unfold cmd_dump_report_positional
  | |- LeavesSubscriber (exception _ _) => unfold exception
  | |- LeavesSubscriber (wait_for_termination _ _ _) =>
      unfold wait_for_termination
  | |- LeavesSubscriber onStatsdInitCompletedHandlerTermination =>
      unfold onStatsdInitCompletedHandlerTermination
  | |- LeavesSubscriber _ => intros ?; split; reflexivity
  end.

Ltac leaves := repeat leaves_step.

Lemma leaves_cmd_config (c : Caller) (w : World) (in_ out err : Z)
    (args : list string) :
  LeavesSubscriber (cmd_config c w in_ out err args).
Proof. unfold cmd_config. leaves. Qed.

Lemma leaves_cmd_dump_report (c : Caller) (w : World) (out : Z)
    (args : list string) :
  LeavesSubscriber (cmd_dump_report c w out args).
Proof. unfold cmd_dump_report. leaves. Qed.

Lemma leaves_cmd_log_app_breadcrumb (c : Caller) (out : Z)
    (args : list string) :
  LeavesSubscriber (cmd_log_app_breadcrumb c out args).
Proof. unfold cmd_log_app_breadcrumb. leaves. Qed.

Lemma leaves_checkUid (c : Caller) (expectedUid : Z) :
  LeavesSubscriber (checkUid c expectedUid).
Proof. unfold checkUid. leaves. Qed.

Lemma leaves_print_uids (out : Z) (uids : list Z) :
  LeavesSubscriber (print_uids out uids).
Proof.
  induction uids as [| uid rest IH]; cbn [print_uids]; [leaves |].
  apply leaves_bind; [leaves | intros _; exact IH].
Qed.

Lemma leaves_print_pulled (out s : Z) (stats : list string) :
  LeavesSubscriber (print_pulled out s stats).
Proof.
  induction stats as [| it rest IH]; cbn [print_pulled]; [leaves |].
  apply leaves_bind; [leaves | intros _; exact IH].
Qed.

Lemma leaves_registerNativePullAtomCallback (c : Caller) (w : World)
    (p : Platform) (atomTag coolDownMillis timeoutMillis : Z)
    (additiveFields : list Z) (pullerCallback : handle) :
  LeavesSubscriber
    (registerNativePullAtomCallback c w p atomTag coolDownMillis timeoutMillis
       additiveFields pullerCallback).
Proof. unfold registerNativePullAtomCallback. leaves. Qed.

Lemma leaves_unregisterNativePullAtomCallback (c : Caller) (p : Platform)
    (atomTag : Z) :
  LeavesSubscriber (unregisterNativePullAtomCallback c p atomTag).
Proof. unfold unregisterNativePullAtomCallback. leaves. Qed.

Lemma leaves_onStatsdInitCompleted (w : World) (delay : Z)
    (concurrent : option Z) (wakeLatency : Z) :
  LeavesSubscriber (onStatsdInitCompleted w delay concurrent wakeLatency).
Proof. unfold onStatsdInitCompleted. leaves. Qed.

Lemma leaves_Terminate (w : World) : LeavesSubscriber (Terminate w).
Proof. unfold Terminate. leaves. Qed.

Lemma preserves_ret {A} (a : A) : Preserves (retD a).
Proof. intros d H. exact H. Qed.

Lemma preserves_bind {A B} (m : D A) (k : A -> D B) :
  Preserves m -> (forall a, Preserves (k a)) -> Preserves (bindD m k).
Proof.
  intros Hm Hk d H. unfold bindD. specialize (Hm d H).
  destruct (m d) as [[a d1] |]; [| exact I].
  exact (Hk a d1 Hm).
Qed.

Lemma preserves_effect (x : Effect) : Preserves (effect x).
Proof. intros d H. exact H. Qed.

Lemma preserves_arg (args : list string) (i : Z) : Preserves (arg args i).
Proof. intros d H. unfold arg. destruct (arg_at args i); [exact H | exact I]. Qed.

Lemma preserves_abort {A} : Preserves (@abort A).
Proof. intros d H. exact I. Qed.

Lemma preserves_lift_state {A} (m : M A) :
  (forall s, subscriber_built_once s -> subscriber_built_once (snd (m s))) ->
  Preserves (lift m).
Proof.
  intros Hm d H. unfold lift. specialize (Hm (service d) H).
  destruct (m (service d)) as [a s1]. exact Hm.
Qed.

Lemma preserves_lift {A} (m : M A) : LeavesSubscriber m -> Preserves (lift m).
Proof.
  intros Hm. apply preserves_lift_state. intros s [Hnull Hone].
  destruct (Hm s) as [Hsub Hcalls]. unfold subscriber_built_once.
  rewrite Hsub, Hcalls. split; assumption.
Qed.

Lemma initShellSubscriber_built_once (s : Service) :
  subscriber_built_once s -> subscriber_built_once (snd (initShellSubscriber s)).
Proof.
  intros [Hnull Hone]. unfold initShellSubscriber, bind, get.
  destruct (mShellSubscriber s) eqn:Hsub; cbn [negb].
  - unfold subscriber_built_once, ret. cbn [snd]. rewrite Hsub.
    split; assumption.
  - unfold subscriber_built_once. cbn. rewrite filter_app, (Hnull eq_refl).
    cbn. split; [discriminate | lia].
Qed.

(** A computation of the shell surface that keeps
    [subscriber_built_once], taken apart statement by statement. *)
Ltac preserves_step :=
  cbv beta zeta;
  lazymatch goal with
  | |- Preserves (retD _) => apply preserves_ret
  | |- Preserves (bindD _ _) => apply preserves_bind; [| intros ?]
  | |- Preserves (effect _) => apply preserves_effect
  | |- Preserves (arg _ _) => apply preserves_arg
  | |- Preserves abort => apply preserves_abort
  | |- Preserves (lift initShellSubscriber) =>
      apply preserves_lift_state; apply initShellSubscriber_built_once
  | |- Preserves (lift (cmd_config _ _ _ _ _ _)) =>
      apply preserves_lift; apply leaves_cmd_config
  | |- Preserves (lift (cmd_dump_report _ _ _ _)) =>
      apply preserves_lift; apply leaves_cmd_dump_report
  | |- Preserves (lift (cmd_log_app_breadcrumb _ _ _)) =>
      apply preserves_lift; apply leaves_cmd_log_app_breadcrumb
  | |- Preserves (lift (checkUid _ _)) =>
      apply preserves_lift; apply leaves_checkUid
  | |- Preserves (lift (print_uids _ _)) =>
      apply preserves_lift; apply leaves_print_uids
  | |- Preserves (lift (print_pulled _ _ _)) =>
      apply preserves_lift; apply leaves_print_pulled
  | |- Preserves (lift _) => apply preserves_lift; leaves
  | |- Preserves (lift_abortable _) => unfold lift_abortable
  | |- Preserves (if ?b then _ else _) => destruct b
  | |- Preserves (match ?x with _ => _ end) => destruct x
  end.

Ltac preserves := repeat preserves_step.

Lemma preserves_parse_config_ids (out : Z) (ids : list string)
    (configIds : list Z) :
  Preserves (parse_config_ids out ids configIds).
Proof.
  revert configIds.
  induction ids as [| a rest IH]; intros configIds; cbn [parse_config_ids];
    [preserves |].
  destruct (CLib.strtoll a 10) as [configID endp].
  destruct (at_start a endp || negb (String.eqb endp "")); [preserves |].
  apply preserves_bind; [preserves | intros _; apply IH].
Qed.

Lemma preserves_print_metrics_sizes (p : Platform) (out : Z)
    (configs : list ConfigKey) :
  Preserves (print_metrics_sizes p out configs).
Proof.
  induction configs as [| key rest IH]; cbn [print_metrics_sizes];
    [preserves |].
  apply preserves_bind; [preserves | intros _].
  apply preserves_bind; [preserves | intros _; exact IH].
Qed.

Lemma preserves_dumpIncidentSection_keys (w : World) (out : Z)
    (keys : list ConfigKey) :
  Preserves (dumpIncidentSection_keys w out keys).
Proof.
  induction keys as [| key rest IH]; cbn [dumpIncidentSection_keys];
    [preserves |].
  apply preserves_bind; [preserves | intros _].
  apply preserves_bind; [preserves | intros _; exact IH].
Qed.

Lemma preserves_handleShellCommand (c : Caller) (w : World) (p : Platform)
    (in_ out err : Z) (argv : list string) :
  Preserves (handleShellCommand c w p in_ out err argv).
Proof.
  unfold handleShellCommand.
  destruct (negb (AIBinder_getCallingUid c =? AID_ROOT)
            && negb (AIBinder_getCallingUid c =? AID_SHELL)); [preserves |].
  cbv zeta. destruct argv as [| arg0 rest]; [preserves |].
  destruct (String.eqb arg0 "config"); [preserves |].
  destruct (String.eqb arg0 "print-uid-map");
    [unfold cmd_print_uid_map; preserves |].
  destruct (String.eqb arg0 "dump-report"); [preserves |].
  destruct (String.eqb arg0 "pull-source"
            && (1 <? List.length (arg0 :: rest))%nat);
    [unfold cmd_print_pulled_metrics; preserves |].
  destruct (String.eqb arg0 "send-broadcast");
    [unfold cmd_trigger_broadcast, send_data_broadcast; preserves |].
  destruct (String.eqb arg0 "print-stats").
  { unfold cmd_print_stats.
    apply preserves_bind; [preserves | intros last].
    apply preserves_bind; [| intros _; preserves].
    destruct (String.eqb "--proto" last); [preserves |].
    apply preserves_bind; [preserves | intros _].
    apply preserves_bind; [apply preserves_print_metrics_sizes | intros _].
    preserves. }
  destruct (String.eqb arg0 "meminfo");
    [unfold cmd_dump_memory_info; preserves |].
  destruct (String.eqb arg0 "write-to-disk");
    [unfold cmd_write_data_to_disk; preserves |].
  destruct (String.eqb arg0 "log-app-breadcrumb"); [preserves |].
  destruct (String.eqb arg0 "log-binary-push");
    [unfold cmd_log_binary_push; preserves |].
  destruct (String.eqb arg0 "clear-puller-cache");
    [unfold cmd_clear_puller_cache; preserves |].
  destruct (String.eqb arg0 "print-logs");
    [unfold cmd_print_logs; preserves |].
  destruct (String.eqb arg0 "send-active-configs").
  { unfold cmd_trigger_active_config_broadcast, actual_active_configs,
      send_active_configs_broadcast.
    repeat first [ apply preserves_parse_config_ids | preserves_step ]. }
  destruct (String.eqb arg0 "data-subscribe"); preserves.
Qed.

Lemma preserves_dump (c : Caller) (w : World) (p : Platform) (fd : Z)
    (args : list string) :
  Preserves (dump c w p fd args).
Proof.
  unfold dump, dumpStatsdStats, dumpIncidentSection.
  repeat first [ apply preserves_dumpIncidentSection_keys | preserves_step ].
Qed.

Lemma preserves_statsCompanionServiceDiedImpl (w : World) (p : Platform) :
  Preserves (statsCompanionServiceDiedImpl w p).
Proof. unfold statsCompanionServiceDiedImpl. preserves. Qed.

Lemma serve_request_leaves_or_builds (w : World) (q : Request) :
  Preserves (lift (serve_request w q)).
Proof.
  apply preserves_lift_state. intros s. apply serve_request_built_once.
Qed.

Lemma preserves_receive (w : World) (p : Platform) (i : Incoming) :
  Preserves (receive w p i).
Proof.
  destruct i; cbn [receive].
  - apply preserves_bind; [apply serve_request_leaves_or_builds |].
    intros _. apply preserves_ret.
  - apply preserves_bind; [apply preserves_handleShellCommand |].
    intros _. apply preserves_ret.
  - apply preserves_bind; [apply preserves_dump |].
    intros _. apply preserves_ret.
  - apply preserves_bind;
      [apply preserves_lift, leaves_registerNativePullAtomCallback |].
    intros _. apply preserves_ret.
  - apply preserves_bind;
      [apply preserves_lift, leaves_unregisterNativePullAtomCallback |].
    intros _. apply preserves_ret.
  - apply preserves_statsCompanionServiceDiedImpl.
  - apply preserves_lift, leaves_onStatsdInitCompleted.
  - apply preserves_lift, leaves_Terminate.
Qed.

Lemma total_ret {A} (a : A) : Total (retD a).
Proof. intros d. exists a, d. reflexivity. Qed.

Lemma total_bind {A B} (m : D A) (k : A -> D B) :
  Total m -> (forall a, Total (k a)) -> Total (bindD m k).
Proof.
  intros Hm Hk d. unfold bindD. destruct (Hm d) as (a & d1 & ->).
  exact (Hk a d1).
Qed.

Lemma total_effect (x : Effect) : Total (effect x).
Proof. intros d. eexists _, _. reflexivity. Qed.

Lemma total_lift {A} (m : M A) : Total (lift m).
Proof.
  intros d. unfold lift. destruct (m (service d)) as [a s1].
  eexists _, _. reflexivity.
Qed.

Lemma total_safe {A} (P : bool -> Effect -> Prop) (m : D A) (Q : A -> Prop) :
  (forall e, Safe (P e) e m Q) -> Total m.
Proof.
  intros H d.
  destruct (H (mEngBuild (service d)) d eq_refl) as (a & d' & _ & Hrun & _).
  exists a, d'. exact Hrun.
Qed.

Ltac total_step :=
  cbv beta zeta;
  lazymatch goal with
  | |- Total (retD _) => apply total_ret
  | |- Total (bindD _ _) => apply total_bind; [| intros ?]
  | |- Total (effect _) => apply total_effect
  | |- Total (lift _) => apply total_lift
  | |- Total (if ?b then _ else _) => destruct b
  end.

Lemma total_dump (c : Caller) (w : World) (p : Platform) (fd : Z)
    (args : list string) :
  Total (dump c w p fd args).
Proof.
  destruct (checkPermission c p kPermissionDump) eqn:Hperm.
  - apply total_safe with (P := fun _ => read_only)
                         (Q := fun status => status = NO_ERROR).
    intros e. exact (safe_dump_admitted c w p e fd args Hperm).
  - intros d. exists PERMISSION_DENIED, d. unfold dump. rewrite Hperm.
    reflexivity.
Qed.

Lemma total_receive (w : World) (p : Platform) (i : Incoming) :
  Total (receive w p i).
Proof.
  destruct i; cbn [receive].
  - repeat total_step.
  - apply total_bind; [| intros _; apply total_ret].
    apply total_safe with (P := fun e => permitted e c p) (Q := is_status).
    intros e. exact (safe_handleShellCommand c w p e in_ out err argv).
  - apply total_bind; [apply total_dump | intros _; apply total_ret].
  - repeat total_step.
  - repeat total_step.
  - unfold statsCompanionServiceDiedImpl. repeat total_step.
  - apply total_lift.
  - apply total_lift.
Qed.

Lemma receive_all_built_once (w : World) (p : Platform)
    (incoming : list Incoming) (d : Daemon) :
  subscriber_built_once (service d) ->
  exists d',
    receive_all w p incoming d = Some (tt, d')
    /\ subscriber_built_once (service d').
Proof.
  revert d. induction incoming as [| i rest IH]; intros d Hinv.
  - exists d. split; [reflexivity | exact Hinv].
  - cbn [receive_all]. unfold bindD.
    pose proof (preserves_receive w p i d Hinv) as Hkeep.
    destruct (total_receive w p i d) as (u & d1 & Hrun).
    rewrite Hrun in *. exact (IH d1 Hkeep).
Qed.

(** X4. Over everything that reaches the service, in any order and from
    any callers (binder calls of both families, shell commands, dump
    requests, native pullers registered and unregistered, the death of
    the companion service, the deferred init completion, the termination
    signal), a service that starts with the pointer to the shell
    subscriber null builds the subscriber at most once, and none while
    the pointer is still null; every request returns. *)
Theorem shell_subscriber_built_at_most_once (w : World) (p : Platform)
    (incoming : list Incoming) (d : Daemon) :
  mShellSubscriber (service d) = false ->
  filter is_ShellSubscriber_new (calls (service d)) = [] ->
  exists d',
    receive_all w p incoming d = Some (tt, d')
    /\ (List.length
          (filter is_ShellSubscriber_new (calls (service d'))) <= 1)%nat
    /\ (mShellSubscriber (service d') = false ->
        filter is_ShellSubscriber_new (calls (service d')) = []).
Proof.
  intros Hnull Hnone.
  destruct (receive_all_built_once w p incoming d) as (d' & Hrun & Hkeep & Hone).
  { split; [intros _; exact Hnone | rewrite Hnone; cbn; lia]. }
  exists d'. auto.
Qed.

Lemma shell_subscriber_built_at_most_once_witness :
  exists d',
    receive_all (Scenario.world []) ShellScenario.platform
      [ ShellCommand Scenario.shell_user 0 1 2 ["data-subscribe"];
        Binder (SubscriptionCall Scenario.traced_probes
                  (Rpc_addSubscription [1] (Some 1)));
        ShellCommand Scenario.shell_user 0 1 2 ["data-subscribe"] ]
      (MkDaemon (Scenario.fresh false 0) [])
    = Some (tt, d')
    /\ (List.length
          (filter is_ShellSubscriber_new (calls (service d'))) <= 1)%nat
    /\ (mShellSubscriber (service d') = false ->
        filter is_ShellSubscriber_new (calls (service d')) = []).
Proof.
  apply (shell_subscriber_built_at_most_once (Scenario.world [])
           ShellScenario.platform
           [ ShellCommand Scenario.shell_user 0 1 2 ["data-subscribe"];
             Binder (SubscriptionCall Scenario.traced_probes
                       (Rpc_addSubscription [1] (Some 1)));
             ShellCommand Scenario.shell_user 0 1 2 ["data-subscribe"] ]
           (MkDaemon (Scenario.fresh false 0) []));
    reflexivity.
Defined.

(** [initShellSubscriber] is run by [addSubscription] and by the shell
    command [data-subscribe]: a [data-subscribe] from the shell builds
    the subscriber, and a subscription added afterwards over binder finds
    it built. *)
Example data_subscribe_builds_the_subscriber :
  exists d',
    receive_all (Scenario.world []) ShellScenario.platform
      [ ShellCommand Scenario.shell_user 0 1 2 ["data-subscribe"];
        Binder (SubscriptionCall Scenario.traced_probes
                  (Rpc_addSubscription [1] (Some 1))) ]
      (MkDaemon (Scenario.fresh false 0) [])
    = Some (tt, d')
    /\ filter is_ShellSubscriber_new (calls (service d'))
       = [ShellSubscriber_new].
Proof. eexists. split; [vm_compute; reflexivity | reflexivity]. Qed.

(* ----------------------------------------------------------------- *)
(** *** Malformed arguments, command by command *)

Lemma untraced_lift {A} (m : M A) (d : Daemon) :
  calls (snd (m (service d))) = calls (service d) ->
  lift m d = untraced m d.
Proof.
  intros H. rewrite (lift_silent m d H). unfold untraced.
  destruct (m (service d)); reflexivity.
Qed.

Lemma broadcast_bad_count (c : Caller) (w : World) (p : Platform) (out : Z)
    (args : list string) (d : Daemon) :
  List.length args <> 2%nat -> List.length args <> 3%nat ->
  cmd_trigger_broadcast c w p out args d = untraced (usage_error out) d.
Proof.
  intros H2 H3. unfold cmd_trigger_broadcast.
  change 2 with (Z.of_nat 2). change 3 with (Z.of_nat 3).
  rewrite !of_nat_eqb.
  apply Nat.eqb_neq in H2, H3. rewrite H2, H3.
  unfold bindD at 1. rewrite lift_silent by reflexivity.
  unfold bindD at 1. unfold retD at 1. cbv beta iota. cbn [negb].
  unfold bindD at 1.
  rewrite lift_silent by apply print_cmd_help_only_prints.
  unfold retD, untraced, usage_error, bind, ret, get. cbn [service trace fst snd].
  destruct (print_cmd_help out (service d)); reflexivity.
Qed.

Lemma broadcast_bad_uid (c : Caller) (w : World) (p : Platform) (out : Z)
    (a0 u name : string) (d : Daemon) :
  numeric 0 u = false ->
  cmd_trigger_broadcast c w p out [a0; u; name] d
  = untraced (dprintf out invalid_uid_dump ;; usage_error out) d.
Proof.
  intros Hu. unfold cmd_trigger_broadcast.
  cbn [List.length Z.of_nat Pos.of_succ_nat Pos.succ Z.eqb Pos.eqb].
  change (arg [a0; u; name] 1) with (retD u).
  change (arg [a0; u; name] 2) with (retD name).
  unfold bindD at 1. rewrite lift_silent by reflexivity.
  unfold bindD at 1. unfold bindD at 1. unfold retD at 1.
  cbn [get fst snd]. cbv beta iota.
  rewrite (numeric_false_rejects _ _ u 0 Hu). cbn [negb].
  unfold bindD at 1. rewrite lift_silent by reflexivity.
  unfold bindD at 1. unfold retD at 1 2. cbv beta iota. cbn [negb].
  unfold bindD at 1.
  rewrite lift_silent by apply print_cmd_help_only_prints.
  unfold retD, untraced, usage_error, invalid_uid_dump, bind, ret, get, dprintf.
  cbn [service trace fst snd].
  destruct (print_cmd_help out _); reflexivity.
Qed.

Lemma binary_push_bad_count (c : Caller) (w : World) (p : Platform) (out : Z)
    (args : list string) (d : Daemon) :
  List.length args <> 7%nat -> List.length args <> 8%nat ->
  cmd_log_binary_push p out args d
  = untraced (dprintf out ("Incorrect number of argument supplied" ++ nl)%string ;;
              ret UNKNOWN_ERROR) d.
Proof.
  intros H7 H8. unfold cmd_log_binary_push.
  change 7 with (Z.of_nat 7). change 8 with (Z.of_nat 8).
  rewrite !of_nat_eqb.
  apply Nat.eqb_neq in H7, H8. rewrite H7, H8. cbn [negb andb].
  unfold bindD at 1. rewrite lift_silent by reflexivity.
  reflexivity.
Qed.

Lemma untraced_again {A} (m : M A) (d : Daemon) :
  untraced m (MkDaemon (service d) (trace d)) = untraced m d.
Proof. reflexivity. Qed.

Lemma parse_config_ids_bad_id (out : Z) (ids : list string)
    (configIds : list Z) (d : Daemon) :
  forallb (numeric 10) ids = false ->
  parse_config_ids out ids configIds d
  = untraced (dprintf out ("Error parsing config ID." ++ nl)%string ;;
              ret None) d.
Proof.
  revert configIds d.
  induction ids as [| a rest IH]; intros configIds d Hbad;
    cbn [parse_config_ids forallb] in *; [discriminate |].
  unfold numeric at 1 in Hbad. unfold CLib.strtoll at 1.
  destruct (CLib.strtol a 10) as [configID endp].
  destruct (at_start a endp || negb (String.eqb endp "")) eqn:Hhere.
  - unfold bindD at 1. rewrite lift_silent by reflexivity. reflexivity.
  - replace (negb (at_start a endp) && String.eqb endp "") with true in Hbad.
    2: { destruct (at_start a endp), (String.eqb endp "");
         cbn in *; congruence. }
    cbn [andb] in Hbad.
    unfold bindD at 1. rewrite lift_silent by reflexivity.
    cbn [fst snd VLOG ret].
    rewrite (IH _ _ Hbad). reflexivity.
Qed.

Lemma prefix_uid_flag (u : string) :
  String.prefix "--uid=" ("--uid=" ++ u) = true.
Proof. cbn. destruct u; reflexivity. Qed.

Lemma substr_uid_flag (u : string) : substr ("--uid=" ++ u) 6 = u.
Proof. cbn. destruct u; reflexivity. Qed.

Lemma active_configs_bad_uid (c : Caller) (w : World) (p : Platform) (out : Z)
    (a0 u : string) (rest : list string) (d : Daemon) :
  numeric 0 u = false ->
  cmd_trigger_active_config_broadcast c w p out
    (a0 :: ("--uid=" ++ u)%string :: rest) d
  = untraced (dprintf out invalid_uid_config ;; ret UNKNOWN_ERROR) d.
Proof.
  intros Hu. unfold cmd_trigger_active_config_broadcast.
  replace (Z.of_nat (List.length (a0 :: ("--uid=" ++ u)%string :: rest)) =? 1)
    with false by (symmetry; apply Z.eqb_neq; cbn [List.length]; lia).
  change (arg (a0 :: ("--uid=" ++ u)%string :: rest) 1)
    with (retD ("--uid=" ++ u)%string).
  unfold bindD at 1. rewrite lift_silent by reflexivity.
  unfold bindD at 1. unfold bindD at 1. unfold retD at 1.
  cbn [get fst snd]. cbv beta iota.
  unfold bindD at 1.
  rewrite prefix_uid_flag.
  rewrite substr_uid_flag.
  rewrite (numeric_false_rejects _ _ u 0 Hu). cbn [negb].
  unfold bindD at 1. rewrite lift_silent by reflexivity.
  reflexivity.
Qed.

Lemma bindD_retD_at {A B} (a : A) (k : A -> D B) (d : Daemon) :
  bindD (retD a) k d = k a d.
Proof. reflexivity. Qed.

Lemma bindD_assoc_at {A B C} (m : D A) (k : A -> D B) (k' : B -> D C)
    (d : Daemon) :
  bindD (bindD m k) k' d = bindD m (fun a => bindD (k a) k') d.
Proof. unfold bindD. destruct (m d) as [[a d1] |]; reflexivity. Qed.

Lemma bindD_lift_at {A B} (m : M A) (k : A -> D B) (d : Daemon) :
  calls (snd (m (service d))) = calls (service d) ->
  bindD (lift m) k d
  = k (fst (m (service d))) (MkDaemon (snd (m (service d))) (trace d)).
Proof. intros H. unfold bindD. rewrite (lift_silent m d H). reflexivity. Qed.

Lemma active_configs_bad_id (c : Caller) (w : World) (p : Platform) (out : Z)
    (a0 : string) (ids : list string) (d : Daemon) :
  forallb (numeric 10) ids = false ->
  cmd_trigger_active_config_broadcast c w p out
    (a0 :: "--configs"%string :: ids) d
  = untraced (dprintf out ("Error parsing config ID." ++ nl)%string ;;
              ret UNKNOWN_ERROR) d.
Proof.
  intros Hbad. unfold cmd_trigger_active_config_broadcast. cbv zeta.
  set (args := a0 :: "--configs"%string :: ids).
  rewrite bindD_lift_at by reflexivity. cbn [get fst snd].
  replace (Z.of_nat (List.length args) =? 1)
    with false by (symmetry; apply Z.eqb_neq; cbn [args List.length]; lia).
  rewrite bindD_assoc_at.
  change (arg args 1) with (retD "--configs"%string).
  rewrite bindD_retD_at. rewrite bindD_assoc_at.
  change (String.prefix "--uid=" "--configs") with false. cbv iota.
  rewrite bindD_retD_at. cbv beta iota.
  replace (1 =? Z.of_nat (List.length args))
    with false by (symmetry; apply Z.eqb_neq; cbn [args List.length]; lia).
  change (arg args 1) with (retD "--configs"%string).
  rewrite !bindD_assoc_at. rewrite !bindD_retD_at.
  change (String.eqb "--configs" "--configs") with true. cbn [negb].
  change (skipn (Z.to_nat (1 + 1)) args) with ids.
  rewrite bindD_assoc_at. unfold bindD.
  rewrite (parse_config_ids_bad_id out ids [] _ Hbad).
  reflexivity.
Qed.

Lemma active_configs_uid_bad_id (c : Caller) (w : World) (p : Platform)
    (out : Z) (a0 u : string) (ids : list string) (d : Daemon) :
  fst (getUidFromString (mEngBuild (service d)) (AIBinder_getCallingUid c) u 0)
  = true ->
  forallb (numeric 10) ids = false ->
  cmd_trigger_active_config_broadcast c w p out
    (a0 :: ("--uid=" ++ u)%string :: "--configs"%string :: ids) d
  = untraced (dprintf out ("Error parsing config ID." ++ nl)%string ;;
              ret UNKNOWN_ERROR) d.
Proof.
  intros Hgood Hbad. unfold cmd_trigger_active_config_broadcast. cbv zeta.
  set (args := a0 :: ("--uid=" ++ u)%string :: "--configs"%string :: ids).
  rewrite bindD_lift_at by reflexivity. cbn [get fst snd].
  replace (Z.of_nat (List.length args) =? 1)
    with false by (symmetry; apply Z.eqb_neq; cbn [args List.length]; lia).
  rewrite bindD_assoc_at.
  change (arg args 1) with (retD ("--uid=" ++ u)%string).
  rewrite bindD_retD_at. rewrite bindD_assoc_at.
  rewrite prefix_uid_flag, substr_uid_flag.
  destruct (getUidFromString (mEngBuild (service d))
              (AIBinder_getCallingUid c) u 0) as [good uid].
  cbn [fst] in Hgood. subst good. cbn [negb].
  rewrite bindD_retD_at. cbv beta iota.
  replace (1 + 1 =? Z.of_nat (List.length args))
    with false by (symmetry; apply Z.eqb_neq; cbn [args List.length]; lia).
  change (arg args (1 + 1)) with (retD "--configs"%string).
  rewrite !bindD_assoc_at. rewrite !bindD_retD_at.
  change (String.eqb "--configs" "--configs") with true. cbn [negb].
  change (skipn (Z.to_nat (1 + 1 + 1)) args) with ids.
  rewrite bindD_assoc_at. unfold bindD.
  rewrite (parse_config_ids_bad_id out ids [] _ Hbad).
  reflexivity.
Qed.

Lemma config_uid_bad_id (c : Caller) (w : World) (in_ out err : Z)
    (a0 u name : string) (s : Service) :
  numeric 10 name = false ->
  cmd_config c w in_ out err [a0; "update"; u; name] s
  = (if fst (getUidFromString (mEngBuild s) (AIBinder_getCallingUid c) u (-1))
     then dprintf err ("Error parsing config ID." ++ nl)%string ;;
          ret UNKNOWN_ERROR
     else dprintf err invalid_uid_config ;; usage_error out) s.
Proof.
  intros Hname. unfold cmd_config, usage_error.
  cbn [List.length Z.of_nat Pos.of_succ_nat Pos.succ Z.eqb Z.leb Z.compare
         Pos.compare Pos.compare_cont Pos.eqb nth andb orb].
  change (String.eqb "update" "update") with true. cbn [orb andb].
  unfold bind at 1. unfold get at 1.
  destruct (getUidFromString (mEngBuild s) (AIBinder_getCallingUid c) u (-1))
    as [good uid].
  cbn [fst]. destruct good; cbn [negb].
  - unfold bind at 1. unfold bind at 1. unfold ret at 1 2. cbv beta iota.
    unfold cmd_config_update.
    unfold numeric, CLib.strtoll in *.
    destruct (CLib.strtol name 10) as [configID endp].
    replace (at_start name endp || negb (String.eqb endp "")) with true.
    + reflexivity.
    + symmetry. destruct (at_start name endp); [reflexivity |].
      cbn [negb andb orb] in *. rewrite Hname. reflexivity.
  - unfold invalid_uid_config, bind, ret, dprintf. cbv beta iota. reflexivity.
Qed.

Lemma config_remove_by_name (c : Caller) (w : World) (in_ out err : Z)
    (a0 name : string) (s : Service) :
  fst (cmd_config c w in_ out err [a0; "remove"; name] s) = NO_ERROR
  /\ calls (snd (cmd_config c w in_ out err [a0; "remove"; name] s))
     = calls s
       ++ [ConfigManager_RemoveConfig
             (MkConfigKey (to_int32 (AIBinder_getCallingUid c))
                (StrToInt64 w name))].
Proof. split; reflexivity. Qed.

Lemma dump_report_refused_count (c : Caller) (w : World) (out : Z)
    (args : list string) (s : Service) :
  args <> [] -> is_dump_report_flag (hd "" args) = false ->
  mProcessor s = true ->
  List.length (snd (spec_dump_report_flags args)) <> 2%nat ->
  List.length (snd (spec_dump_report_flags args)) <> 3%nat ->
  cmd_dump_report c w out args s
  = (status <- usage_error out ;; ret (Some status)) s.
Proof.
  intros Hne Hhead Hproc H2 H3.
  pose proof (dump_report_as_spec c w out args s Hne Hhead Hproc) as H.
  destruct (spec_dump_report_flags args)
    as [[[proto includeCurrentBucket] keepData] remaining].
  cbn [snd] in *. destruct H as [_ ->].
  unfold spec_dump_positional, usage_error.
  destruct remaining as [| a0 [| a1 [| a2 [| a3 rest]]]];
    cbn [List.length] in *; try lia;
    unfold bind, ret; destruct (print_cmd_help out s); reflexivity.
Qed.

Lemma dump_report_refused_uid (c : Caller) (w : World) (out : Z)
    (args : list string) (a0 u name : string) (s : Service) :
  args <> [] -> is_dump_report_flag (hd "" args) = false ->
  mProcessor s = true ->
  snd (spec_dump_report_flags args) = [a0; u; name] ->
  numeric 0 u = false ->
  cmd_dump_report c w out args s
  = (status <- (dprintf out invalid_uid_dump ;; usage_error out) ;;
     ret (Some status)) s.
Proof.
  intros Hne Hhead Hproc Hrem Hu.
  pose proof (dump_report_as_spec c w out args s Hne Hhead Hproc) as H.
  destruct (spec_dump_report_flags args)
    as [[[proto includeCurrentBucket] keepData] remaining].
  cbn [snd] in *. subst remaining. destruct H as [_ ->].
  unfold spec_dump_positional, usage_error.
  unfold bind at 1. unfold get at 1.
  rewrite (numeric_false_rejects _ _ u 0 Hu).
  unfold invalid_uid_dump, bind, ret, dprintf. cbv beta iota.
  destruct (print_cmd_help out _); reflexivity.
Qed.

Lemma bare_pull_source (c : Caller) (w : World) (p : Platform)
    (in_ out err : Z) (d : Daemon) :
  AIBinder_getCallingUid c = AID_ROOT \/ AIBinder_getCallingUid c = AID_SHELL ->
  handleShellCommand c w p in_ out err ["pull-source"] d
  = untraced (print_cmd_help out ;; ret NO_ERROR) d.
Proof.
  intros Hwho. unfold handleShellCommand.
  replace (negb (AIBinder_getCallingUid c =? AID_ROOT)
           && negb (AIBinder_getCallingUid c =? AID_SHELL)) with false
    by (destruct Hwho as [-> | ->]; reflexivity).
  cbv zeta.
  change (String.eqb "pull-source" "config") with false.
  change (String.eqb "pull-source" "print-uid-map") with false.
  change (String.eqb "pull-source" "dump-report") with false.
  change (String.eqb "pull-source" "pull-source"
          && (1 <? List.length ["pull-source"])%nat) with false.
  change (String.eqb "pull-source" "send-broadcast") with false.
  change (String.eqb "pull-source" "print-stats") with false.
  change (String.eqb "pull-source" "meminfo") with false.
  change (String.eqb "pull-source" "write-to-disk") with false.
  change (String.eqb "pull-source" "log-app-breadcrumb") with false.
  change (String.eqb "pull-source" "log-binary-push") with false.
  change (String.eqb "pull-source" "clear-puller-cache") with false.
  change (String.eqb "pull-source" "print-logs") with false.
  change (String.eqb "pull-source" "send-active-configs") with false.
  change (String.eqb "pull-source" "data-subscribe") with false.
  cbv iota.
  rewrite bindD_lift_at by apply print_cmd_help_only_prints.
  unfold retD, untraced, bind, ret.
  destruct (print_cmd_help out (service d)); reflexivity.
Qed.

(** C9, as the code has it. For the subcommands [log-app-breadcrumb],
    [config], [dump-report], [send-broadcast], [send-active-configs] and
    [log-binary-push]:
    - an argument count the command has no use for prints the usage
      block ([log-binary-push]: the fixed line "Incorrect number of
      argument supplied"); for [dump-report] the count is that of the
      arguments left once the trailing flags are stripped;
    - a UID argument that is not a number prints the fixed "Invalid UID"
      line of the command and then the usage block ([send-active-configs
      --uid=]: the line alone);
    - a configuration id that is not a number to its end, in [config
      update] with or without a UID and after [send-active-configs
      --configs], prints the fixed line "Error parsing config ID.".
    In each of these cases the command returns [UNKNOWN_ERROR], which is
    not zero, and has done nothing but print: the call log, the trace and
    the service's flags are as they were.
    Not every numeric field is checked, and not every malformed command
    fails: the LABEL and STATE of [log-app-breadcrumb] are read with
    [atoi] and the event is logged with what it yields; the NAME of
    [config remove] is read with [StrToInt64] and the removal is made;
    and [pull-source] with no atom prints the usage block but returns
    [NO_ERROR]. *)
Theorem malformed_shell_arguments (c : Caller) (w : World) (p : Platform)
    (in_ out err : Z) (args : list string) (s : Service) (d : Daemon) :
  let bad_id (fd : Z) : M Z :=
    dprintf fd ("Error parsing config ID." ++ nl)%string ;; ret UNKNOWN_ERROR in
  (* log-app-breadcrumb *)
  (List.length args <> 3%nat -> List.length args <> 4%nat ->
   cmd_log_app_breadcrumb c out args s = usage_error out s)
  /\ (forall a0 u l st, args = [a0; u; l; st] -> numeric 0 u = false ->
      cmd_log_app_breadcrumb c out args s
      = (dprintf out invalid_uid_breadcrumb ;; usage_error out) s)
  (* config *)
  /\ (config_args_unusable args ->
      cmd_config c w in_ out err args s = usage_error out s)
  /\ (forall a0 verb u name, args = [a0; verb; u; name] ->
      verb = "update" \/ verb = "remove" -> numeric 0 u = false ->
      cmd_config c w in_ out err args s
      = (dprintf err invalid_uid_config ;; usage_error out) s)
  /\ (forall a0 name, args = [a0; "update"; name] -> numeric 10 name = false ->
      cmd_config c w in_ out err args s = bad_id err s)
  /\ (forall a0 u name, args = [a0; "update"; u; name] ->
      numeric 10 name = false ->
      cmd_config c w in_ out err args s
      = (if fst (getUidFromString (mEngBuild s) (AIBinder_getCallingUid c)
                   u (-1))
         then bad_id err
         else dprintf err invalid_uid_config ;; usage_error out) s)
  (* dump-report *)
  /\ (args <> [] -> is_dump_report_flag (hd "" args) = false ->
      mProcessor s = true ->
      let remaining := snd (spec_dump_report_flags args) in
      (List.length remaining <> 2%nat -> List.length remaining <> 3%nat ->
       cmd_dump_report c w out args s
       = (status <- usage_error out ;; ret (Some status)) s)
      /\ (forall a0 u name, remaining = [a0; u; name] ->
          numeric 0 u = false ->
          cmd_dump_report c w out args s
          = (status <- (dprintf out invalid_uid_dump ;; usage_error out) ;;
             ret (Some status)) s))
  (* send-broadcast *)
  /\ (List.length args <> 2%nat -> List.length args <> 3%nat ->
      cmd_trigger_broadcast c w p out args d = untraced (usage_error out) d)
  /\ (forall a0 u name, args = [a0; u; name] -> numeric 0 u = false ->
      cmd_trigger_broadcast c w p out args d
      = untraced (dprintf out invalid_uid_dump ;; usage_error out) d)
  (* send-active-configs *)
  /\ (forall a0 u rest, args = a0 :: ("--uid=" ++ u)%string :: rest ->
      numeric 0 u = false ->
      cmd_trigger_active_config_broadcast c w p out args d
      = untraced (dprintf out invalid_uid_config ;; ret UNKNOWN_ERROR) d)
  /\ (forall a0 ids, args = a0 :: "--configs"%string :: ids ->
      forallb (numeric 10) ids = false ->
      cmd_trigger_active_config_broadcast c w p out args d
      = untraced (bad_id out) d)
  /\ (forall a0 u ids,
      args = a0 :: ("--uid=" ++ u)%string :: "--configs"%string :: ids ->
      fst (getUidFromString (mEngBuild (service d))
             (AIBinder_getCallingUid c) u 0) = true ->
      forallb (numeric 10) ids = false ->
      cmd_trigger_active_config_broadcast c w p out args d
      = untraced (bad_id out) d)
  (* log-binary-push *)
  /\ (List.length args <> 7%nat -> List.length args <> 8%nat ->
      cmd_log_binary_push p out args d
      = untraced (dprintf out
                    ("Incorrect number of argument supplied" ++ nl)%string ;;
                  ret UNKNOWN_ERROR) d)
  (* what a refusal is *)
  /\ (fst (usage_error out s) = UNKNOWN_ERROR
      /\ only_printed s (snd (usage_error out s)))
  /\ (forall fd text,
      fst ((dprintf fd text ;; usage_error out) s) = UNKNOWN_ERROR
      /\ only_printed s (snd ((dprintf fd text ;; usage_error out) s)))
  /\ (forall fd text,
      fst ((dprintf fd text ;; ret UNKNOWN_ERROR) s) = UNKNOWN_ERROR
      /\ only_printed s (snd ((dprintf fd text ;; ret UNKNOWN_ERROR) s)))
  /\ (forall m : M Z,
      (status <- m ;; ret (Some status)) s = (Some (fst (m s)), snd (m s)))
  /\ (forall m : M Z,
      untraced m d
      = Some (fst (m (service d)), MkDaemon (snd (m (service d))) (trace d)))
  /\ UNKNOWN_ERROR <> 0
  (* what is not refused *)
  /\ (forall a0 l st, args = [a0; l; st] ->
      fst (cmd_log_app_breadcrumb c out args s) = NO_ERROR
      /\ calls (snd (cmd_log_app_breadcrumb c out args s))
         = calls s
           ++ [stats_write_APP_BREADCRUMB_REPORTED
                 (to_int32 (AIBinder_getCallingUid c))
                 (CLib.atoi l) (CLib.atoi st)])
  /\ (forall a0 name, args = [a0; "remove"; name] ->
      fst (cmd_config c w in_ out err args s) = NO_ERROR
      /\ calls (snd (cmd_config c w in_ out err args s))
         = calls s
           ++ [ConfigManager_RemoveConfig
                 (MkConfigKey (to_int32 (AIBinder_getCallingUid c))
                    (StrToInt64 w name))])
  /\ (AIBinder_getCallingUid c = AID_ROOT
      \/ AIBinder_getCallingUid c = AID_SHELL ->
      handleShellCommand c w p in_ out err ["pull-source"] d
      = untraced (print_cmd_help out ;; ret NO_ERROR) d)
  /\ NO_ERROR = 0.
Proof.
  intros bad_id.
  split; [apply breadcrumb_bad_count |].
  split; [intros a0 u l st ->; apply breadcrumb_bad_uid |].
  split; [apply config_bad_shape |].
  split; [intros a0 verb u name ->; apply config_bad_uid |].
  split; [intros a0 name ->; apply config_bad_id |].
  split; [intros a0 u name ->; apply config_uid_bad_id |].
  split.
  { intros Hne Hhead Hproc remaining. split.
    - apply dump_report_refused_count; assumption.
    - intros a0 u name. apply dump_report_refused_uid; assumption. }
  split; [apply broadcast_bad_count |].
  split; [intros a0 u name ->; apply broadcast_bad_uid |].
  split; [intros a0 u rest ->; apply active_configs_bad_uid |].
  split; [intros a0 ids ->; apply active_configs_bad_id |].
  split; [intros a0 u ids ->; apply active_configs_uid_bad_id |].
  split; [apply binary_push_bad_count; assumption |].
  split; [apply usage_error_only_prints |].
  split; [intros fd text; apply error_line_then_usage_only_prints |].
  split; [intros fd text; split; [reflexivity | apply dprintf_only_prints] |].
  split; [intros m; unfold bind, ret; destruct (m s); reflexivity |].
  split; [intros m; unfold untraced; destruct (m (service d)); reflexivity |].
  split; [discriminate |].
  split; [intros a0 l st ->; apply breadcrumb_three_args |].
  split; [intros a0 name ->; apply config_remove_by_name |].
  split; [apply bare_pull_source | reflexivity].
Qed.

Lemma malformed_shell_arguments_witness :
  cmd_config Scenario.shell_user (Scenario.world []) 0 1 2
    ["config"; "update"; "2000"; "forty-two"] (Scenario.fresh false 1000)
  = (dprintf 2 ("Error parsing config ID." ++ nl)%string ;;
     ret UNKNOWN_ERROR) (Scenario.fresh false 1000).
Proof.
  destruct (malformed_shell_arguments Scenario.shell_user (Scenario.world [])
              ShellScenario.platform 0 1 2
              ["config"; "update"; "2000"; "forty-two"]
              (Scenario.fresh false 1000)
              (MkDaemon (Scenario.fresh false 1000) []))
    as (_ & _ & _ & _ & _ & Hid & _).
  exact (Hid "config" "2000" "forty-two" eq_refl eq_refl).
Defined.

(** [send-active-configs --configs] with an id that is not a number:
    one line is printed, nothing is looked up or sent. *)
Example send_active_configs_bad_id_run :
  cmd_trigger_active_config_broadcast Scenario.shell_user (Scenario.world [])
    ShellScenario.platform 1 ["send-active-configs"; "--configs"; "1"; "x2"]
    (MkDaemon (Scenario.fresh false 1000) [])
  = Some (UNKNOWN_ERROR,
          MkDaemon
            (snd (dprintf 1 ("Error parsing config ID." ++ nl)%string
                    (Scenario.fresh false 1000)))
            []).
Proof. vm_compute. reflexivity. Qed.
